(** * magicpptx: the service bootstrap and verification harness

    A shallow embedding of [servers_setup/start_es_server.py] (the FastAPI
    application whose startup hook brings up Elasticsearch and Kibana) and of
    [servers_setup/verify_start_es_server.py] (the script that launches that
    application, probes it and serves an HTML report).

    Python code is embedded in a state-and-exception monad.  The state holds
    the module globals of the script, the files it wrote, the children it has
    not reaped yet and the chronological trace of every effect it performed.
    Whatever the outside world answers (HTTP replies, the clock, process
    behaviour, random strings) is read from an environment [Env] of oracles
    that see the whole trace so far, so a theorem quantified over [Env] holds
    for every behaviour of the outside world.

    A Python float is kept as the rational number it stands for.  The
    success rate of the report is computed as CPython computes it: the
    quotient and the product are each rounded to the nearest binary64
    number.  Clock readings are rationals and the difference of two readings
    is taken exactly.

    A run has three outcomes: a value, a Python exception, or the end of the
    process by a signal that it does not handle.  Neither script installs a
    handler for SIGTERM and the script is taken to start with the default
    disposition of that signal, so [os.killpg] on the process group of the
    script itself ends the script on the spot: no [except] clause and no
    [finally] block runs.  The group of the script is the field [own_pgid]
    of the environment; the verification script launches its child without
    [start_new_session], so [os.getpgid] of a live child reports that very
    group unless the child has moved itself to another one.

    Every oracle answers, so a call that blocks forever is outside the
    model.  Creating the report directory and writing the report file are
    taken to succeed, and so is [os.killpg] on a group that [os.getpgid] has
    just reported.  A child that was reaped does not exist any more: pids
    are not reused. *)

From Stdlib Require Import String Ascii List ZArith QArith Qabs Lia Bool.
From Stdlib Require Import DecimalString Floats.SpecFloat.
Import ListNotations.
Open Scope string_scope.
Open Scope Z_scope.

Set Implicit Arguments.
Set Warnings "-register-all".

(** ** Strings and numbers as Python prints them *)

(** The double-quote character, for text that contains it. *)
Definition dq : string := String "034"%char EmptyString.

(** [str(n)] for a Python [int]. *)
Definition str_int (z : Z) : string := NilZero.string_of_int (Z.to_int z).

(** [n] copies of the character ["0"]. *)
Fixpoint zeros (n : nat) : string :=
  match n with
  | O => EmptyString
  | S k => String "0"%char (zeros k)
  end.

(** Left-pad a digit string with zeros to width [w]. *)
Definition pad_zeros (w : nat) (s : string) : string :=
  zeros (w - String.length s) ++ s.

(** [format(q, ".<d>f")]: the value rounded to [d] decimals, ties to even,
    as CPython rounds the exact value of the number it prints. *)
Definition format_fixed (d : nat) (q : Q) : string :=
  let p := 10 ^ Z.of_nat d in
  let n := Z.abs (Qnum q) * p in
  let den := Z.pos (Qden q) in
  let k := n / den in
  let r := n mod den in
  let k' := if den <? 2 * r then k + 1
            else if (2 * r =? den) && Z.odd k then k + 1
            else k in
  (if Qnum q <? 0 then "-" else EmptyString)
    ++ str_int (k' / p)
    ++ match d with
       | O => EmptyString
       | S _ => "." ++ pad_zeros d (str_int (k' mod p))
       end.

(** ** Binary64 numbers

    A Python float is kept as the rational it stands for, and every
    operation on floats rounds its exact result as IEEE 754 does. *)

(** [num / den] rounded to the nearest integer, ties to even, for
    [0 <= num] and [0 < den]. *)
Definition round_half_even (num den : Z) : Z :=
  let k := num / den in
  let r := num mod den in
  if den <? 2 * r then k + 1
  else if (2 * r =? den) && Z.odd k then k + 1
  else k.

(** The exponent of the power of two just below or at [n / d], for
    [0 < n] and [0 < d]. *)
Definition ilog2 (n d : Z) : Z :=
  let e := Z.log2 n - Z.log2 d in
  if (if 0 <=? e then d * 2 ^ e <=? n else d <=? n * 2 ^ (- e))
  then e else e - 1.

(** The binary64 number nearest to [q], ties to even: 53 significant bits
    down to the exponent -1074 of the subnormal numbers.  It is used below
    2^1024 only (a success rate is at most 100), so the values that Python
    turns into [inf] or [OverflowError] do not occur. *)
Definition binary64 (q : Q) : Q :=
  let n := Z.abs (Qnum q) in
  let d := Z.pos (Qden q) in
  if n =? 0 then 0%Q else
  let e := Z.max (ilog2 n d - 52) (-1074) in
  let m := if 0 <=? e then round_half_even n (d * 2 ^ e)
           else round_half_even (n * 2 ^ (- e)) d in
  let v := if 0 <=? e then inject_Z (m * 2 ^ e)
           else Qmake m (Z.to_pos (2 ^ (- e))) in
  if Qnum q <? 0 then (- v)%Q else v.

(** ** Exceptions *)

(** The exception classes the two scripts can meet.  [KeyboardInterrupt] is
    the only one that does not derive from [Exception]. *)
Inductive ExcClass : Type :=
| PyException            (* a plain Exception(...) *)
| RuntimeError
| NameError
| KeyError
| TypeError
| JSONDecodeError        (* response.json() on a body that is not JSON *)
| ZeroDivisionError
| RequestsConnectionError (* requests.exceptions.ConnectionError *)
| RequestsOtherError     (* any other requests.exceptions.RequestException *)
| FileNotFoundError
| OtherOSError
| CalledProcessError
| ProcessLookupError
| TimeoutExpired         (* subprocess.TimeoutExpired *)
| ElasticsearchError     (* anything the elasticsearch client raises *)
| KeyboardInterrupt.

Record Exc : Type := mkExc {
  exc_class : ExcClass;
  exc_str : string          (* what str(e) returns *)
}.

Definition ExcClass_eqb (a b : ExcClass) : bool :=
  match a, b with
  | PyException, PyException | RuntimeError, RuntimeError
  | NameError, NameError | KeyError, KeyError | TypeError, TypeError
  | JSONDecodeError, JSONDecodeError | ZeroDivisionError, ZeroDivisionError
  | RequestsConnectionError, RequestsConnectionError
  | RequestsOtherError, RequestsOtherError
  | FileNotFoundError, FileNotFoundError | OtherOSError, OtherOSError
  | CalledProcessError, CalledProcessError
  | ProcessLookupError, ProcessLookupError | TimeoutExpired, TimeoutExpired
  | ElasticsearchError, ElasticsearchError
  | KeyboardInterrupt, KeyboardInterrupt => true
  | _, _ => false
  end.

(** [isinstance(e, Exception)]. *)
Definition is_Exception (e : Exc) : bool :=
  negb (ExcClass_eqb (exc_class e) KeyboardInterrupt).

(** [isinstance(e, requests.exceptions.ConnectionError)]. *)
Definition is_ConnectionError (e : Exc) : bool :=
  ExcClass_eqb (exc_class e) RequestsConnectionError.

(** [isinstance(e, KeyboardInterrupt)]. *)
Definition is_KeyboardInterrupt (e : Exc) : bool :=
  ExcClass_eqb (exc_class e) KeyboardInterrupt.

(** ** JSON values and HTTP responses *)

Inductive Json : Type :=
| JNull
| JBool (b : bool)
| JInt (z : Z)
| JStr (s : string)
| JList (l : list Json)
| JObj (kv : list (string * Json)).

Record Response : Type := mkResponse {
  status_code : Z;
  text : string;
  json_body : Exc + Json    (* what response.json() raises or returns *)
}.

Inductive HttpOutcome : Type :=
| HttpReply (r : Response)
| HttpRaises (e : Exc).

(** ** Effects *)

Inductive LogLevel : Type := INFO | ERROR.

Inductive Event : Type :=
| EvGet (url : string) (params : list (string * Json))   (* requests.get *)
| EvPopen (argv : list string)                            (* subprocess.Popen *)
| EvRun (argv : list string)                              (* subprocess.run *)
| EvSleep (secs : Z)                                      (* time.sleep *)
| EvLog (level : LogLevel) (msg : string)                 (* logger.info/error *)
| EvTime                                                  (* time.time() *)
| EvNow                                                   (* datetime.now() *)
| EvRandom (k : nat)                                      (* random.choices *)
| EvExists (path : string)                                (* os.path.exists *)
| EvMakedirs (path : string)                              (* os.makedirs *)
| EvWrite (path : string) (content : string)              (* open(p,"w").write *)
| EvRead (path : string)                                  (* open(p,"r").read *)
| EvGetpgid (pid : nat)                                   (* os.getpgid *)
| EvKillpg (pgid : nat) (sig : string)                    (* os.killpg *)
| EvWait (pid : nat) (timeout : Z)                        (* Popen.wait *)
| EvEsConnect (url : string)                              (* Elasticsearch(...) *)
| EvEsIndexExists (index : string)                        (* indices.exists *)
| EvEsIndexCreate (index : string)                        (* indices.create *)
| EvThreadStart (what : string)                           (* Thread.start *)
| EvBrowserOpen (url : string).                           (* webbrowser.open *)

(** What the outside world does.  Every oracle receives the trace of the
    effects performed so far. *)
Record Env : Type := mkEnv {
  http_get : list Event -> string -> list (string * Json) -> HttpOutcome;
  spawn : list Event -> list string -> Exc + nat;   (* Popen: error or pid *)
  run_cmd : list Event -> list string -> option Exc; (* run(check=True) *)
  path_exists : list Event -> string -> bool;
  time_time : list Event -> Q;
  now_strftime : list Event -> string;  (* now().strftime("%Y-%m-%d %H:%M:%S") *)
  random_choices : list Event -> nat -> string;
  getpgid : list Event -> nat -> nat;   (* group of a pid that exists *)
  own_pgid : nat;                       (* the group of the script itself *)
  child_exit : list Event -> nat -> Z -> option Z;
      (* the return code, when the child exits within the timeout *)
  es_indices_exists : list Event -> string -> Exc + bool;
  es_indices_create : list Event -> string -> option Exc;
  sys_executable : string;
  repr : Json -> string                 (* Python's repr of a decoded value *)
}.

(** ** The monad *)

Record State (G : Type) : Type := mkState {
  trace : list Event;                    (* oldest effect first *)
  files : list (string * string);        (* path, content; newest first *)
  children : list nat;                   (* pids spawned and not yet reaped *)
  globals : G
}.

(** How a computation ends: it returns, it raises, or the process that
    runs it is ended by a signal.  After [Terminated] nothing runs any more:
    no handler, no [finally] clause. *)
Inductive Res (A : Type) : Type :=
| Ret (a : A)
| Raise (e : Exc)
| Terminated.
Arguments Raise {A} e.
Arguments Terminated {A}.

Definition M (G A : Type) : Type := State G -> Res A * State G.

Definition ret {G A} (a : A) : M G A := fun s => (Ret a, s).

Definition raise {G A} (e : Exc) : M G A := fun s => (Raise e, s).

Definition bind {G A B} (m : M G A) (k : A -> M G B) : M G B :=
  fun s =>
    match m s with
    | (Ret a, s') => k a s'
    | (Raise e, s') => (Raise e, s')
    | (Terminated, s') => (Terminated, s')
    end.

Declare Scope py_scope.
Delimit Scope py_scope with py.
Notation "x <- m ;; k" := (bind m (fun x => k))
  (at level 61, m at next level, right associativity) : py_scope.
Notation "m ;; k" := (bind m (fun _ => k))
  (at level 61, right associativity) : py_scope.
Open Scope py_scope.

(** [try: m  except C as e: h e], where [catches e] says whether [e] is an
    instance of [C]. *)
Definition try_except {G A} (m : M G A) (catches : Exc -> bool)
    (h : Exc -> M G A) : M G A :=
  fun s =>
    match m s with
    | (Ret a, s') => (Ret a, s')
    | (Raise e, s') => if catches e then h e s' else (Raise e, s')
    | (Terminated, s') => (Terminated, s')
    end.

(** [for i in range(n): body], where [body] does not read [i] and answers
    [Some v] when it executes [return v]. *)
Fixpoint for_range {G A} (n : nat) (body : M G (option A)) : M G (option A) :=
  match n with
  | O => ret None
  | S k =>
      r <- body ;;
      match r with
      | Some v => ret (Some v)
      | None => for_range k body
      end
  end.

(** The state after one more effect. *)
Definition after {G} (ev : Event) (s : State G) : State G :=
  mkState (trace s ++ [ev]) (files s) (children s) (globals s).

(** Append an effect to the trace. *)
Definition emit {G} (ev : Event) : M G unit :=
  fun s => (Ret tt, after ev s).

Definition get_trace {G} : M G (list Event) := fun s => (Ret (trace s), s).

Definition get_globals {G} : M G G := fun s => (Ret (globals s), s).

Definition set_globals {G} (g : G) : M G unit :=
  fun s => (Ret tt, mkState (trace s) (files s) (children s) g).

Definition lift_res {G A} (r : Res A) : M G A := fun s => (r, s).

Section Effects.
Variable env : Env.
Variable G : Type.

(** [requests.get(url, params=params)]. *)
Definition requests_get (url : string) (params : list (string * Json))
  : M G Response :=
  h <- get_trace ;;
  emit (EvGet url params) ;;
  match http_get env h url params with
  | HttpReply r => ret r
  | HttpRaises e => raise e
  end.

(** [time.sleep(secs)]. *)
Definition time_sleep (secs : Z) : M G unit := emit (EvSleep secs).

Definition logger_info (msg : string) : M G unit := emit (EvLog INFO msg).
Definition logger_error (msg : string) : M G unit := emit (EvLog ERROR msg).

(** [time.time()]. *)
Definition py_time : M G Q :=
  h <- get_trace ;; emit EvTime ;; ret (time_time env h).

(** [datetime.now().strftime("%Y-%m-%d %H:%M:%S")]. *)
Definition now_string : M G string :=
  h <- get_trace ;; emit EvNow ;; ret (now_strftime env h).

(** [os.path.exists(path)]. *)
Definition os_path_exists (path : string) : M G bool :=
  h <- get_trace ;; emit (EvExists path) ;; ret (path_exists env h path).

(** [subprocess.run(argv, check=True)]. *)
Definition subprocess_run (argv : list string) : M G unit :=
  h <- get_trace ;;
  emit (EvRun argv) ;;
  match run_cmd env h argv with
  | None => ret tt
  | Some e => raise e
  end.

(** [subprocess.Popen(argv, ...)]: the pid of the new child, which joins
    the children not yet reaped. *)
Definition subprocess_Popen (argv : list string) : M G nat :=
  h <- get_trace ;;
  emit (EvPopen argv) ;;
  match spawn env h argv with
  | inl e => raise e
  | inr pid =>
      fun s => (Ret pid,
                mkState (trace s) (files s) (pid :: children s) (globals s))
  end.

(** [os.getpgid(pid)]: fails with ESRCH when no such process exists. *)
Definition os_getpgid (pid : nat) : M G nat :=
  h <- get_trace ;;
  emit (EvGetpgid pid) ;;
  fun s =>
    if existsb (Nat.eqb pid) (children s)
    then (Ret (getpgid env h pid), s)
    else (Raise (mkExc ProcessLookupError "[Errno 3] No such process"), s).

(** [os.killpg(pgid, sig)]: the signal goes to every process of the group.
    When that is the group of the script itself, the script receives it
    too: neither script installs a handler, the signal they send is SIGTERM,
    and its default action ends the process before the call returns. *)
Definition os_killpg (pgid : nat) (sig : string) : M G unit :=
  emit (EvKillpg pgid sig) ;;
  if Nat.eqb pgid (own_pgid env)
  then fun s => (Terminated, s)
  else ret tt.

(** Writing and reading a whole file. *)
Definition write_file (path content : string) : M G unit :=
  emit (EvWrite path content) ;;
  fun s => (Ret tt,
            mkState (trace s) ((path, content) :: files s) (children s)
                    (globals s)).

Fixpoint lookup_file (fs : list (string * string)) (path : string)
  : option string :=
  match fs with
  | [] => None
  | (p, c) :: rest => if String.eqb p path then Some c else lookup_file rest path
  end.

Definition read_file (path : string) : M G string :=
  emit (EvRead path) ;;
  fun s =>
    match lookup_file (files s) path with
    | Some c => (Ret c, s)
    | None =>
        (Raise (mkExc FileNotFoundError
                  ("[Errno 2] No such file or directory: '" ++ path ++ "'")),
         s)
    end.

End Effects.

Arguments requests_get env {G} url params.
Arguments time_sleep {G} secs.
Arguments logger_info {G} msg.
Arguments logger_error {G} msg.
Arguments py_time env {G}.
Arguments now_string env {G}.
Arguments os_path_exists env {G} path.
Arguments subprocess_run env {G} argv.
Arguments subprocess_Popen env {G} argv.
Arguments os_getpgid env {G} pid.
Arguments os_killpg env {G} pgid sig.
Arguments write_file {G} path content.
Arguments read_file {G} path.

(** ** servers_setup/start_es_server.py *)

Module StartEsServer.

Definition ES_PORT : Z := 9200.
Definition ES_INDEX : string := "documentation_data".
Definition FASTAPI_PORT : Z := 8000.
Definition ES_DOWNLOAD_URL : string :=
  "https://artifacts.elastic.co/downloads/elasticsearch/"
  ++ "elasticsearch-8.12.1-linux-x86_64.tar.gz".
Definition ES_DIR : string := "elasticsearch-8.12.1".
Definition KIBANA_PORT : Z := 5601.
Definition KIBANA_DOWNLOAD_URL : string :=
  "https://artifacts.elastic.co/downloads/kibana/"
  ++ "kibana-8.12.1-linux-x86_64.tar.gz".
Definition KIBANA_DIR : string := "kibana-8.12.1".

(** The module's one mutable global: the Elasticsearch client, recorded by
    the URL it was built for ([None] is Python's [None]). *)
Record Globals : Type := mkGlobals {
  es_client : option string
}.

Definition Py (A : Type) : Type := M Globals A.

Section WithEnv.
Variable env : Env.

(** [f"http://localhost:{port}"]. *)
Definition localhost (port : Z) : string := "http://localhost:" ++ str_int port.

Definition download_elasticsearch : Py unit :=
  present <- os_path_exists env ES_DIR ;;
  if negb present then
    logger_info ("Downloading Elasticsearch from " ++ ES_DOWNLOAD_URL) ;;
    subprocess_run env ["wget"; ES_DOWNLOAD_URL] ;;
    subprocess_run env ["tar"; "-xzf"; "elasticsearch-8.12.1-linux-x86_64.tar.gz"] ;;
    logger_info "Elasticsearch downloaded and configured"
  else ret tt.

(** The probe both start functions use, before the launch and in the loop:
    [try: response = requests.get(url); if response.status_code == 200:
    logger.info(msg); return  except ConnectionError: pass].  The answer is
    [Some tt] when the function returns. *)
Definition probe_200 (url msg : string) : Py (option unit) :=
  try_except
    (response <- requests_get env url [] ;;
     if status_code response =? 200
     then logger_info msg ;; ret (Some tt)
     else ret None)
    is_ConnectionError
    (fun _ => ret None).

(** One iteration of the waiting loop: the probe, then [time.sleep(1)]. *)
Definition poll_once (url msg : string) : Py (option unit) :=
  r <- probe_200 url msg ;;
  match r with
  | Some v => ret (Some v)
  | None => time_sleep 1 ;; ret None
  end.

Definition start_elasticsearch : Py unit :=
  present <- os_path_exists env ES_DIR ;;
  (if negb present then download_elasticsearch else ret tt) ;;
  (* Check if Elasticsearch is already running *)
  running <- probe_200 (localhost ES_PORT) "Elasticsearch is already running" ;;
  match running with
  | Some _ => ret tt
  | None =>
      logger_info "Starting Elasticsearch server..." ;;
      subprocess_Popen env [ES_DIR ++ "/bin/elasticsearch"] ;;
      (* Wait for Elasticsearch to start *)
      let max_retries := 30%nat in
      started <- for_range max_retries
                   (poll_once (localhost ES_PORT)
                      "Elasticsearch server started successfully") ;;
      match started with
      | Some _ => ret tt
      | None =>
          logger_error "Failed to start Elasticsearch server" ;;
          raise (mkExc RuntimeError "Elasticsearch server failed to start")
      end
  end.

Definition setup_elasticsearch_index : Py unit :=
  let url := "https://localhost:" ++ str_int ES_PORT in
  emit (EvEsConnect url) ;;
  set_globals (mkGlobals (Some url)) ;;
  h <- get_trace ;;
  emit (EvEsIndexExists ES_INDEX) ;;
  present <- match es_indices_exists env h ES_INDEX with
             | inl e => raise e
             | inr b => ret b
             end ;;
  if negb present then
    h' <- get_trace ;;
    emit (EvEsIndexCreate ES_INDEX) ;;
    match es_indices_create env h' ES_INDEX with
    | Some e => raise e
    | None => ret tt
    end ;;
    logger_info ("Created Elasticsearch index: " ++ ES_INDEX)
  else ret tt.

Definition download_kibana : Py unit :=
  present <- os_path_exists env KIBANA_DIR ;;
  if negb present then
    logger_info ("Downloading Kibana from " ++ KIBANA_DOWNLOAD_URL) ;;
    subprocess_run env ["wget"; KIBANA_DOWNLOAD_URL] ;;
    subprocess_run env ["tar"; "-xzf"; "kibana-8.12.1-linux-x86_64.tar.gz"] ;;
    logger_info "Kibana downloaded and extracted"
  else ret tt.

Definition start_kibana : Py unit :=
  present <- os_path_exists env KIBANA_DIR ;;
  (if negb present then download_kibana else ret tt) ;;
  (* Check if Kibana is already running *)
  running <- probe_200 (localhost KIBANA_PORT) "Kibana is already running" ;;
  match running with
  | Some _ => ret tt
  | None =>
      logger_info "Starting Kibana server..." ;;
      subprocess_Popen env [KIBANA_DIR ++ "/bin/kibana"] ;;
      (* Wait for Kibana to start *)
      let max_retries := 60%nat in
      started <- for_range max_retries
                   (poll_once (localhost KIBANA_PORT)
                      "Kibana server started successfully") ;;
      match started with
      | Some _ => ret tt
      | None =>
          logger_error "Failed to start Kibana server" ;;
          raise (mkExc RuntimeError "Kibana server failed to start")
      end
  end.

(** The FastAPI startup hook. *)
Definition startup_event : Py unit :=
  start_elasticsearch ;;
  setup_elasticsearch_index ;;
  start_kibana.

End WithEnv.

End StartEsServer.

(** ** servers_setup/verify_start_es_server.py *)

Module VerifyStartEsServer.

Definition ES_SERVER_PORT : Z := 9200.
Definition FASTAPI_PORT : Z := 8000.
Definition REPORT_PORT : Z := 8011.
Definition ES_SERVER_SCRIPT : string := "servers_setup/start_es_server.py".
Definition REPORT_DIR : string := "verification_reports".
Definition REPORT_FILE : string := REPORT_DIR ++ "/verification_report.html".

(** The constants this module binds at top level, by name.  Its imports bind
    module and class names only, and its other top-level names are the
    globals below and the functions. *)
Inductive PyConst : Type :=
| CInt (z : Z)
| CStr (s : string).

Definition module_constants : list (string * PyConst) :=
  [ ("ES_SERVER_PORT", CInt ES_SERVER_PORT);
    ("FASTAPI_PORT", CInt FASTAPI_PORT);
    ("REPORT_PORT", CInt REPORT_PORT);
    ("ES_SERVER_SCRIPT", CStr ES_SERVER_SCRIPT);
    ("REPORT_DIR", CStr REPORT_DIR);
    ("REPORT_FILE", CStr REPORT_FILE) ].

Definition str_const (c : PyConst) : string :=
  match c with
  | CInt z => str_int z
  | CStr s => s
  end.

(** A [subprocess.Popen] object. *)
Record Popen : Type := mkPopen {
  args : list string;
  pid : nat;
  returncode : option Z
}.

(** One entry of [test_results]: a dict with these five keys. *)
Record TestResult : Type := mkTestResult {
  name : string;
  success : bool;
  message : string;
  duration : string;
  timestamp : string
}.

(** The module's mutable globals. *)
Record Globals : Type := mkGlobals {
  es_server_process : option Popen;   (* [None] is Python's [None] *)
  test_results : list TestResult;
  report_generated : bool
}.

Definition initial_globals : Globals := mkGlobals None [] false.

Definition Py (A : Type) : Type := M Globals A.

Definition set_es_server_process (p : option Popen) : Py unit :=
  g <- get_globals ;;
  set_globals (mkGlobals p (test_results g) (report_generated g)).

Definition set_report_generated (b : bool) : Py unit :=
  g <- get_globals ;;
  set_globals (mkGlobals (es_server_process g) (test_results g) b).

(** [test_results.append(r)]. *)
Definition test_results_append (r : TestResult) : Py unit :=
  g <- get_globals ;;
  set_globals (mkGlobals (es_server_process g) (test_results g ++ [r])
                 (report_generated g)).

(** Reading a global name of the module: [NameError] when it is not bound. *)
Fixpoint lookup_const (l : list (string * PyConst)) (x : string)
  : option PyConst :=
  match l with
  | [] => None
  | (y, c) :: rest => if String.eqb y x then Some c else lookup_const rest x
  end.

Definition load_global (x : string) : Py PyConst :=
  match lookup_const module_constants x with
  | Some c => ret c
  | None => raise (mkExc NameError ("name '" ++ x ++ "' is not defined"))
  end.

(** *** Decoded JSON as Python sees it *)

(** [str(v)]; containers are printed by the environment's [repr]. *)
Definition py_str (repr : Json -> string) (v : Json) : string :=
  match v with
  | JNull => "None"
  | JBool true => "True"
  | JBool false => "False"
  | JInt z => str_int z
  | JStr s => s
  | JList _ | JObj _ => repr v
  end.

(** [bool(v)]. *)
Definition truthy (v : Json) : bool :=
  match v with
  | JNull => false
  | JBool b => b
  | JInt z => negb (z =? 0)
  | JStr s => negb (String.eqb s EmptyString)
  | JList l => match l with [] => false | _ => true end
  | JObj kv => match kv with [] => false | _ => true end
  end.

(** [v == n] for an int literal [n]. *)
Definition py_eq_int (v : Json) (n : Z) : bool :=
  match v with
  | JInt z => z =? n
  | JBool b => (if b then 1 else 0) =? n
  | _ => false
  end.

(** [v != s] for a string literal [s]. *)
Definition py_ne_str (v : Json) (s : string) : bool :=
  match v with
  | JStr t => negb (String.eqb t s)
  | _ => true
  end.

Fixpoint lookup_key (kv : list (string * Json)) (k : string) : option Json :=
  match kv with
  | [] => None
  | (k', v) :: rest => if String.eqb k' k then Some v else lookup_key rest k
  end.

(** [v[k]] for a string key [k] (error texts of CPython 3.11). *)
Definition getitem (v : Json) (k : string) : Res Json :=
  match v with
  | JObj kv =>
      match lookup_key kv k with
      | Some x => Ret x
      | None => Raise (mkExc KeyError ("'" ++ k ++ "'"))
      end
  | JList _ =>
      Raise (mkExc TypeError "list indices must be integers or slices, not str")
  | JStr _ => Raise (mkExc TypeError "string indices must be integers, not 'str'")
  | JInt _ => Raise (mkExc TypeError "'int' object is not subscriptable")
  | JBool _ => Raise (mkExc TypeError "'bool' object is not subscriptable")
  | JNull => Raise (mkExc TypeError "'NoneType' object is not subscriptable")
  end.

(** [response.json()]: the decoded body, or the decoder's error. *)
Definition response_json (r : Response) : Res Json :=
  match json_body r with
  | inr v => Ret v
  | inl e => Raise e
  end.

(** *** Report statistics *)

(** [a / b] on ints: true division, the quotient rounded once. *)
Definition py_truediv (a b : Z) : Res Q :=
  if b =? 0 then Raise (mkExc ZeroDivisionError "division by zero")
  else Ret (binary64 (inject_Z a / inject_Z b)).

(** [x * n] for a float [x] and an int [n] that is a float too. *)
Definition py_mul (x : Q) (n : Z) : Q := binary64 (x * inject_Z n).

Definition total_tests (results : list TestResult) : Z :=
  Z.of_nat (List.length results).

(** [sum(1 for r in test_results if r["success"])]. *)
Definition passed_tests (results : list TestResult) : Z :=
  fold_left Z.add (map (fun _ => 1) (filter success results)) 0.

Definition failed_tests (results : list TestResult) : Z :=
  total_tests results - passed_tests results.

(** [(passed_tests / total_tests) * 100 if total_tests > 0 else 0]. *)
Definition success_rate (results : list TestResult) : Res Q :=
  if 0 <? total_tests results then
    match py_truediv (passed_tests results) (total_tests results) with
    | Ret q => Ret (py_mul q 100)
    | Raise e => Raise e
    | Terminated => Terminated
    end
  else Ret (inject_Z 0).

(** *** The HTML text *)

Definition html_before_timestamp : string :=
  "
    <!DOCTYPE html>
    <html>
    <head>
        <title>Elasticsearch Server Verification Report</title>
        <style>
            body { font-family: Arial, sans-serif; margin: 20px; }
            h1, h2 { color: #333; }
            .summary { background-color: #f5f5f5; padding: 15px; border-radius: 5px; margin-bottom: 20px; }
            .summary-item { margin: 5px 0; }
            .test-results { border-collapse: collapse; width: 100%; }
            .test-results th, .test-results td { border: 1px solid #ddd; padding: 8px; text-align: left; }
            .test-results th { background-color: #f2f2f2; }
            .test-results tr:nth-child(even) { background-color: #f9f9f9; }
            .pass { color: green; }
            .fail { color: red; }
            .timestamp { color: #666; font-size: 0.9em; }
        </style>
    </head>
    <body>
        <h1>Elasticsearch Server Verification Report</h1>
        <div class=" ++ dq ++ "timestamp" ++ dq ++ ">Generated on: ".

Definition html_before_total : string :=
  "</div>
        
        <div class=" ++ dq ++ "summary" ++ dq ++ ">
            <h2>Summary</h2>
            <div class=" ++ dq ++ "summary-item" ++ dq ++ ">Total Tests: ".

Definition html_before_passed : string :=
  "</div>
            <div class=" ++ dq ++ "summary-item" ++ dq ++ ">Passed: <span class=" ++ dq ++ "pass" ++ dq ++ ">".

Definition html_before_failed : string :=
  "</span></div>
            <div class=" ++ dq ++ "summary-item" ++ dq ++ ">Failed: <span class=" ++ dq ++ "fail" ++ dq ++ ">".

Definition html_before_rate : string :=
  "</span></div>
            <div class=" ++ dq ++ "summary-item" ++ dq ++ ">Success Rate: ".

Definition html_after_rate : string :=
  "%</div>
        </div>
        
        <h2>Test Results</h2>
        <table class=" ++ dq ++ "test-results" ++ dq ++ ">
            <tr>
                <th>Test Name</th>
                <th>Status</th>
                <th>Message</th>
                <th>Duration</th>
                <th>Timestamp</th>
            </tr>
    ".

Definition row_before_name : string :=
  "
            <tr>
                <td>".

Definition row_before_class : string :=
  "</td>
                <td class=" ++ dq.

Definition row_before_status : string :=
  dq ++ ">".

Definition row_before_message : string :=
  "</td>
                <td>".

Definition row_before_duration : string :=
  "</td>
                <td>".

Definition row_before_timestamp : string :=
  "</td>
                <td>".

Definition row_end : string :=
  "</td>
            </tr>
        ".

Definition html_close : string :=
  "
        </table>
    </body>
    </html>
    ".

(** The text [generate_html_report] writes before the rows. *)
Definition html_summary (now : string) (total passed failed : Z) (rate : Q)
  : string :=
  html_before_timestamp ++ now
  ++ html_before_total ++ str_int total
  ++ html_before_passed ++ str_int passed
  ++ html_before_failed ++ str_int failed
  ++ html_before_rate ++ format_fixed 1 rate
  ++ html_after_rate.

(** One table row. *)
Definition html_row (result : TestResult) : string :=
  let status_class := if success result then "pass" else "fail" in
  let status_text := if success result then "PASS" else "FAIL" in
  row_before_name ++ name result
  ++ row_before_class ++ status_class
  ++ row_before_status ++ status_text
  ++ row_before_message ++ message result
  ++ row_before_duration ++ duration result
  ++ row_before_timestamp ++ timestamp result
  ++ row_end.

Section WithEnv.
Variable env : Env.

(** [f"http://localhost:{port}"]. *)
Definition localhost (port : Z) : string := "http://localhost:" ++ str_int port.

Definition generate_random_string (length : nat) : Py string :=
  h <- get_trace ;;
  emit (EvRandom length) ;;
  ret (random_choices env h length).

(** One iteration of the waiting loop of [start_es_server]; [Some true] when
    it executes [return True]. *)
Definition start_es_server_attempt : Py (option bool) :=
  r <- try_except
         ((* Check if Elasticsearch is running *)
          es_response <- requests_get env (localhost ES_SERVER_PORT) [] ;;
          if status_code es_response =? 200 then
            (* Check if FastAPI server is running *)
            api_response <-
              requests_get env (localhost FASTAPI_PORT ++ "/docs") [] ;;
            if status_code api_response =? 200 then
              logger_info
                "Elasticsearch and FastAPI servers started successfully" ;;
              ret (Some true)
            else ret None
          else ret None)
         is_ConnectionError
         (fun _ => ret None) ;;
  match r with
  | Some v => ret (Some v)
  | None => time_sleep 1 ;; ret None
  end.

Definition start_es_server : Py bool :=
  let argv := [sys_executable env; ES_SERVER_SCRIPT] in
  child <- subprocess_Popen env argv ;;
  set_es_server_process (Some (mkPopen argv child None)) ;;
  (* Wait for the server to start *)
  let max_retries := 30%nat in
  started <- for_range max_retries start_es_server_attempt ;;
  match started with
  | Some v => ret v
  | None =>
      logger_error "Failed to start Elasticsearch or FastAPI server" ;;
      ret false
  end.

(** [p.wait(timeout)] on the object [es_server_process] refers to: an object
    whose return code is known answers at once; otherwise the child is reaped
    when it exits within the timeout, and [TimeoutExpired] is raised when it
    does not. *)
Definition Popen_wait (p : Popen) (timeout : Z) : Py Z :=
  h <- get_trace ;;
  emit (EvWait (pid p) timeout) ;;
  match returncode p with
  | Some rc => ret rc
  | None =>
      match child_exit env h (pid p) timeout with
      | Some rc =>
          (fun s => (Ret tt,
                     mkState (trace s) (files s)
                       (filter (fun q => negb (Nat.eqb q (pid p))) (children s))
                       (globals s))) ;;
          set_es_server_process (Some (mkPopen (args p) (pid p) (Some rc))) ;;
          ret rc
      | None =>
          raise (mkExc TimeoutExpired
                   ("Command '" ++ repr env (JList (map JStr (args p)))
                    ++ "' timed out after " ++ str_int timeout ++ " seconds"))
      end
  end.

Definition stop_es_server : Py unit :=
  g <- get_globals ;;
  match es_server_process g with
  | Some p =>
      (* Send SIGTERM to the process group *)
      pgid <- os_getpgid env (pid p) ;;
      os_killpg env pgid "SIGTERM" ;;
      Popen_wait p 5 ;;
      logger_info "Elasticsearch server stopped"
  | None => ret tt
  end.

Definition run_test {A : Type} (test_name : string) (test_func : Py A)
  : Py bool :=
  start_time <- py_time env ;;
  outcome <- try_except
               (test_func ;; ret (true, "Test passed"))
               is_Exception
               (fun e => ret (false, "Test failed: " ++ exc_str e)) ;;
  let success := fst outcome in
  let message := snd outcome in
  end_time <- py_time env ;;
  let duration := (end_time - start_time)%Q in
  now <- now_string env ;;
  let test_result :=
    mkTestResult test_name success message
      (format_fixed 2 duration ++ "s") now in
  test_results_append test_result ;;
  logger_info ("Test '" ++ test_name ++ "': "
               ++ (if success then "PASSED" else "FAILED")
               ++ " - " ++ message) ;;
  ret success.

Definition py_Exception {A : Type} (msg : string) : Py A :=
  raise (mkExc PyException msg).

Definition test_elasticsearch_connection : Py Json :=
  response <- requests_get env (localhost ES_SERVER_PORT) [] ;;
  if negb (status_code response =? 200) then
    py_Exception ("Elasticsearch server returned status code "
                  ++ str_int (status_code response))
  else ret (JBool true).

Definition test_store_data : Py Json :=
  (* Generate random test data *)
  r10 <- generate_random_string 10 ;;
  let test_text := "Test data: " ++ r10 in
  r5 <- generate_random_string 5 ;;
  let test_auid := "test_" ++ r5 in
  let test_args :=
    "{" ++ dq ++ "test_key" ++ dq ++ ": " ++ dq ++ "test_value" ++ dq ++ "}" in
  (* Store the data *)
  let url := localhost FASTAPI_PORT ++ "/storedata" in
  let params := [ ("text", JStr test_text);
                  ("auid", JStr test_auid);
                  ("additional_args", JStr test_args) ] in
  response <- requests_get env url params ;;
  if negb (status_code response =? 200) then
    py_Exception ("Failed to store data: " ++ text response)
  else
    result <- lift_res (response_json response) ;;
    status <- lift_res (getitem result "status") ;;
    if py_ne_str status "success" then
      py_Exception ("Store data returned error: " ++ py_str (repr env) result)
    else lift_res (getitem result "document_id").

Definition test_get_data (auid : Json) : Py Json :=
  let url := localhost FASTAPI_PORT ++ "/getdata" in
  let params := [ ("auid", auid) ] in
  response <- requests_get env url params ;;
  if negb (status_code response =? 200) then
    py_Exception ("Failed to get data: " ++ text response)
  else
    result <- lift_res (response_json response) ;;
    status <- lift_res (getitem result "status") ;;
    if py_ne_str status "success" then
      py_Exception ("Get data returned error: " ++ py_str (repr env) result)
    else
      count <- lift_res (getitem result "count") ;;
      if py_eq_int count 0 then
        py_Exception ("No documents found for auid: " ++ py_str (repr env) auid)
      else lift_res (getitem result "documents").

Definition test_invalid_auid : Py Json :=
  let url := localhost FASTAPI_PORT ++ "/getdata" in
  let params := [ ("auid", JStr "nonexistent_auid") ] in
  response <- requests_get env url params ;;
  if negb (status_code response =? 200) then
    py_Exception ("Failed to get data: " ++ text response)
  else
    result <- lift_res (response_json response) ;;
    count <- lift_res (getitem result "count") ;;
    if negb (py_eq_int count 0) then
      count' <- lift_res (getitem result "count") ;;
      py_Exception ("Expected 0 documents for nonexistent auid, got "
                    ++ py_str (repr env) count')
    else ret (JBool true).

Definition generate_html_report : Py string :=
  (* Create report directory if it doesn't exist *)
  emit (EvMakedirs REPORT_DIR) ;;
  (* Calculate summary statistics *)
  g <- get_globals ;;
  let results := test_results g in
  rate <- lift_res (success_rate results) ;;
  (* Generate HTML content *)
  now <- now_string env ;;
  let html_content :=
    html_summary now (total_tests results) (passed_tests results)
      (failed_tests results) rate in
  (* Add test results to the table *)
  let html_content :=
    fold_left (fun acc result => acc ++ html_row result) results html_content in
  (* Close HTML tags *)
  let html_content := html_content ++ html_close in
  (* Write the report to a file *)
  write_file REPORT_FILE html_content ;;
  logger_info ("HTML report generated: " ++ REPORT_FILE) ;;
  ret REPORT_FILE.

(** The report endpoint, [GET /]. *)
Definition get_report : Py string :=
  g <- get_globals ;;
  (if negb (report_generated g) then
     (* Generate the report if it hasn't been generated yet *)
     generate_html_report ;;
     set_report_generated true
   else ret tt) ;;
  (* Read the report file *)
  read_file REPORT_FILE.

(** Lines 299-312 of [run_verification]: looking up the stored document to
    extract its auid, then the "Get Data" probe. *)
Definition get_data_step (doc_id : bool) : Py unit :=
  if doc_id then
    (* Extract auid from the stored document *)
    auid <- try_except
              (port <- load_global "ES_SERVER_PORT" ;;
               index <- load_global "ES_INDEX" ;;
               response <-
                 requests_get env
                   ("http://localhost:" ++ str_const port ++ "/"
                    ++ str_const index ++ "/_doc/"
                    ++ py_str (repr env) (JBool doc_id)) [] ;;
               if status_code response =? 200 then
                 doc <- lift_res (response_json response) ;;
                 source <- lift_res (getitem doc "_source") ;;
                 lift_res (getitem source "auid")
               else ret JNull)
              is_Exception
              (fun e =>
                 logger_error ("Error extracting auid: " ++ exc_str e) ;;
                 ret JNull) ;;
    if truthy auid then
      run_test "Get Data" (test_get_data auid) ;; ret tt
    else ret tt
  else ret tt.

(** How far [run_verification] got. *)
Inductive RunOutcome : Type :=
| ReturnedFalse     (* [return False]: the servers did not start *)
| ReturnedNone      (* an exception was caught and logged *)
| Serving.          (* inside [while True: time.sleep(1)] *)

(** Lines 294-315 of [run_verification]: the probes, in order. *)
Definition run_verification_tests : Py bool :=
  (* Run tests *)
  run_test "Elasticsearch Connection" test_elasticsearch_connection ;;
  (* Test storing and retrieving data *)
  doc_id <- run_test "Store Data" test_store_data ;;
  get_data_step doc_id ;;
  (* Test with invalid auid *)
  run_test "Invalid AUID" test_invalid_auid.

(** The [try] block of [run_verification], up to the endless loop that
    keeps the script alive to serve the report. *)
Definition run_verification_try : Py RunOutcome :=
  (* Start the Elasticsearch server *)
  started <- start_es_server ;;
  if negb started then
    logger_error "Failed to start Elasticsearch server" ;;
    ret ReturnedFalse
  else
    run_verification_tests ;;
    (* Generate the report *)
    generate_html_report ;;
    (* Start the report server *)
    emit (EvThreadStart ("uvicorn.run(report_app, host=0.0.0.0, port="
                         ++ str_int REPORT_PORT ++ ")")) ;;
    (* Open the report in a browser *)
    emit (EvBrowserOpen (localhost REPORT_PORT)) ;;
    logger_info ("Verification complete. Report available at "
                 ++ localhost REPORT_PORT) ;;
    ret Serving.

(** [run_verification] with its handlers and its [finally] clause.  The
    answer [Serving] stands for the script blocked in its endless loop, which
    only [serve_interrupted] leaves. *)
Definition run_verification : Py RunOutcome :=
  fun s =>
    match run_verification_try s with
    | (Ret Serving, s') => (Ret Serving, s')
    | (Ret out, s') => (stop_es_server ;; ret out) s'
    | (Raise e, s') =>
        ((if is_KeyboardInterrupt e
          then logger_info "Verification interrupted by user"
          else logger_error ("Verification failed: " ++ exc_str e)) ;;
         stop_es_server ;;
         ret ReturnedNone) s'
    | (Terminated, s') => (Terminated, s')
    end.

(** [KeyboardInterrupt] after [n] rounds of the endless loop. *)
Definition serve_interrupted (n : nat) : Py RunOutcome :=
  for_range n (time_sleep 1 ;; ret (@None unit)) ;;
  logger_info "Verification interrupted by user" ;;
  stop_es_server ;;
  ret ReturnedNone.

End WithEnv.

End VerifyStartEsServer.

(** ** Vocabulary of the statements *)

(** Total weight of a list of events. *)
Fixpoint weight (w : Event -> nat) (evs : list Event) : nat :=
  match evs with
  | [] => 0%nat
  | ev :: rest => (w ev + weight w rest)%nat
  end.

(** Whatever the start state, [m] appends events of total weight at most
    [n] to the trace and removes none. *)
Definition costs {G A : Type} (w : Event -> nat) (n : nat) (m : M G A) : Prop :=
  forall s, exists evs,
    trace (snd (m s)) = (trace s ++ evs)%list /\ (weight w evs <= n)%nat.

Definition is_get (ev : Event) : nat :=
  match ev with EvGet _ _ => 1%nat | _ => 0%nat end.

Definition is_get_to (target : string) (ev : Event) : nat :=
  match ev with
  | EvGet url _ => if String.eqb url target then 1%nat else 0%nat
  | _ => 0%nat
  end.

Definition is_sleep (ev : Event) : nat :=
  match ev with EvSleep _ => 1%nat | _ => 0%nat end.

Definition is_signal (ev : Event) : nat :=
  match ev with EvKillpg _ _ => 1%nat | _ => 0%nat end.

Definition is_wait (ev : Event) : nat :=
  match ev with EvWait _ _ => 1%nat | _ => 0%nat end.

(** Events only the steps after [start_elasticsearch] perform: building the
    client, touching the index, and everything that concerns Kibana. *)
Definition after_elasticsearch (ev : Event) : nat :=
  match ev with
  | EvEsConnect _ | EvEsIndexExists _ | EvEsIndexCreate _ => 1%nat
  | EvPopen argv =>
      if list_eq_dec string_dec argv [StartEsServer.KIBANA_DIR ++ "/bin/kibana"]
      then 1%nat else 0%nat
  | EvGet url _ =>
      if String.eqb url (StartEsServer.localhost StartEsServer.KIBANA_PORT)
      then 1%nat else 0%nat
  | EvExists path =>
      if String.eqb path StartEsServer.KIBANA_DIR then 1%nat else 0%nat
  | EvRun argv =>
      if list_eq_dec string_dec argv ["wget"; StartEsServer.KIBANA_DOWNLOAD_URL]
      then 1%nat
      else if list_eq_dec string_dec argv
                ["tar"; "-xzf"; "kibana-8.12.1-linux-x86_64.tar.gz"]
      then 1%nat else 0%nat
  | _ => 0%nat
  end.

(** The target [url] never shows the success signal: every request is
    answered with a status other than 200 or fails to connect. *)
Definition never_ready (env : Env) (url : string) : Prop :=
  forall h params,
    match http_get env h url params with
    | HttpReply r => status_code r <> 200
    | HttpRaises e => is_ConnectionError e = true
    end.

(** Requests to [url] fail by connection errors only. *)
Definition only_connection_errors (env : Env) (url : string) : Prop :=
  forall h params e,
    http_get env h url params = HttpRaises e -> is_ConnectionError e = true.

(** The state in which [run_test] invokes the probe: the start time has
    been read. *)
Definition call_state {G : Type} (s : State G) : State G := after EvTime s.

(** Every launch of [argv] succeeds. *)
Definition launch_succeeds (env : Env) (argv : list string) : Prop :=
  forall h, exists child, spawn env h argv = inr child.

(** The state [run_test] leaves, from the state [s1] the probe left:
    the end time and the date are read, one result is appended and one line
    is logged. *)
Definition recorded (env : Env) (test_name : string) (ok : bool)
    (msg : string) (start_time : Q) (s1 : State VerifyStartEsServer.Globals)
  : State VerifyStartEsServer.Globals :=
  let g := globals s1 in
  let r := VerifyStartEsServer.mkTestResult test_name ok msg
             (format_fixed 2 (time_time env (trace s1) - start_time)%Q ++ "s")
             (now_strftime env (trace s1 ++ [EvTime])) in
  mkState
    (trace s1
     ++ [EvTime; EvNow;
         EvLog INFO ("Test '" ++ test_name ++ "': "
                     ++ (if ok then "PASSED" else "FAILED") ++ " - " ++ msg)])
    (files s1) (children s1)
    (VerifyStartEsServer.mkGlobals
       (VerifyStartEsServer.es_server_process g)
       (VerifyStartEsServer.test_results g ++ [r])
       (VerifyStartEsServer.report_generated g)).

(** ** Concrete worlds *)

Definition ends_with (suffix s : string) : bool :=
  let n := String.length s in
  let m := String.length suffix in
  String.eqb (substring (n - m) m s) suffix.

Definition ok_reply (kv : list (string * Json)) : Response :=
  mkResponse 200 "OK" (inr (JObj kv)).

(** A world from its HTTP behaviour and from how the child reacts to
    [wait]: the clock advances by an eighth of a second per effect and the
    calendar by a second per effect, every path exists, and every launch
    yields pid 4242 in the group of the script, 4000, where [Popen] leaves
    a child that is given no session or group of its own. *)
Definition world
    (http : list Event -> string -> list (string * Json) -> HttpOutcome)
    (exit_code : option Z) : Env :=
  mkEnv http
    (fun _ _ => inr 4242%nat)
    (fun _ _ => None)
    (fun _ _ => true)
    (fun h => (inject_Z (Z.of_nat (List.length h)) / inject_Z 8)%Q)
    (fun h =>
       let n := Z.of_nat (List.length h) in
       "2024-01-01 00:" ++ pad_zeros 2 (str_int ((n / 60) mod 60))
       ++ ":" ++ pad_zeros 2 (str_int (n mod 60)))
    (fun _ k => substring 0 k "a1B2c3D4e5")
    (fun _ _ => 4000%nat)
    4000%nat
    (fun _ _ _ => exit_code)
    (fun _ _ => inr true)
    (fun _ _ => None)
    "/usr/bin/python3"
    (fun _ => "<repr>").

(** Every service answers as the probes expect: storing returns the
    document id ["X"], reading an auid other than ["nonexistent_auid"] finds
    one record, reading ["nonexistent_auid"] finds none, and Elasticsearch
    serves the stored document with its auid. *)
Definition all_ok_http (h : list Event) (url : string)
    (params : list (string * Json)) : HttpOutcome :=
  if ends_with "/storedata" url then
    HttpReply (ok_reply [ ("status", JStr "success");
                          ("message", JStr "Data stored successfully");
                          ("document_id", JStr "X") ])
  else if ends_with "/getdata" url then
    match params with
    | [ (_, JStr "nonexistent_auid") ] =>
        HttpReply (ok_reply [ ("status", JStr "success");
                              ("count", JInt 0);
                              ("documents", JList []) ])
    | _ =>
        HttpReply (ok_reply [ ("status", JStr "success");
                              ("count", JInt 1);
                              ("documents",
                               JList [ JObj [ ("auid", JStr "test_a1B2c");
                                              ("document_id", JStr "X") ] ]) ])
    end
  else
    HttpReply (ok_reply [ ("_id", JStr "X");
                          ("_source", JObj [ ("auid", JStr "test_a1B2c") ]) ]).

Definition all_ok_env : Env := world all_ok_http (Some 0).

(** Nothing listens anywhere. *)
Definition dead_http (h : list Event) (url : string)
    (params : list (string * Json)) : HttpOutcome :=
  HttpRaises (mkExc RequestsConnectionError "Connection refused").

Definition dead_env : Env := world dead_http (Some 0).

(** Elasticsearch answers 200 but the API answers 503. *)
Definition api_down_http (h : list Event) (url : string)
    (params : list (string * Json)) : HttpOutcome :=
  if String.eqb url "http://localhost:9200"
  then HttpReply (ok_reply [])
  else HttpReply (mkResponse 503 "Service Unavailable" (inl (mkExc JSONDecodeError "Expecting value: line 1 column 1 (char 0)"))).

Definition api_down_env : Env := world api_down_http (Some 0).

(** As [all_ok_http], but storing fails with status 500. *)
Definition store_fails_http (h : list Event) (url : string)
    (params : list (string * Json)) : HttpOutcome :=
  if ends_with "/storedata" url then
    HttpReply (mkResponse 500 "Internal Server Error"
                 (inr (JObj [ ("detail", JStr "Error storing data") ])))
  else all_ok_http h url params.

Definition store_fails_env : Env := world store_fails_http (Some 0).

(** The world [env] with children that have left the group of the script
    and lead groups of their own, as a server does that calls [setsid].
    Neither script makes its child do so. *)
Definition detached (env : Env) : Env :=
  mkEnv (http_get env) (spawn env) (run_cmd env) (path_exists env)
    (time_time env) (now_strftime env) (random_choices env)
    (fun _ child => child)
    (own_pgid env)
    (child_exit env) (es_indices_exists env) (es_indices_create env)
    (sys_executable env) (repr env).

Definition initial_state : State VerifyStartEsServer.Globals :=
  mkState [] [] [] VerifyStartEsServer.initial_globals.

Definition server_initial_state : State StartEsServer.Globals :=
  mkState [] [] [] (StartEsServer.mkGlobals None).


Section StopVocabulary.
Import VerifyStartEsServer.

(** The state in which the SIGTERM of a stop has been sent. *)
Definition signalled (env : Env) (p : Popen) (s : State Globals) : State Globals :=
  mkState
    ((trace s
     ++ [EvGetpgid (pid p);
         EvKillpg (getpgid env (trace s) (pid p)) "SIGTERM"])%list)
    (files s) (children s) (globals s).

(** The child [p] is where [Popen] put it: in the group of the script. *)
Definition in_own_group (env : Env) (p : Popen) (s : State Globals) : bool :=
  Nat.eqb (getpgid env (trace s) (pid p)) (own_pgid env).

(** The state after a stop that reaped the child [p] with return code
    [rc]. *)
Definition stopped (env : Env) (p : Popen) (rc : Z) (s : State Globals) : State Globals :=
  mkState
    ((trace s
     ++ [EvGetpgid (pid p);
         EvKillpg (getpgid env (trace s) (pid p)) "SIGTERM";
         EvWait (pid p) 5;
         EvLog INFO "Elasticsearch server stopped"])%list)
    (files s)
    (filter (fun q => negb (Nat.eqb q (pid p))) (children s))
    (mkGlobals (Some (mkPopen (args p) (pid p) (Some rc)))
       (test_results (globals s)) (report_generated (globals s))).

(** The state after a stop whose wait timed out. *)
Definition stop_timed_out (env : Env) (p : Popen) (s : State Globals) : State Globals :=
  mkState
    ((trace s
     ++ [EvGetpgid (pid p);
         EvKillpg (getpgid env (trace s) (pid p)) "SIGTERM";
         EvWait (pid p) 5])%list)
    (files s) (children s) (globals s).

(** The signals sent so far. *)
Definition signals (evs : list Event) : list Event :=
  filter (fun ev => match ev with EvKillpg _ _ => true | _ => false end) evs.

Definition wait_timeout_error (env : Env) (p : Popen) : Exc :=
  mkExc TimeoutExpired
    ("Command '" ++ repr env (JList (map JStr (args p)))
     ++ "' timed out after 5 seconds").

Definition no_such_process : Exc :=
  mkExc ProcessLookupError "[Errno 3] No such process".

(** The state in which the script has launched the server script and
    waited for it. *)
Definition launched_state (env : Env) : State Globals :=
  snd (start_es_server env initial_state).

(** The handle [start_es_server] stores in the concrete worlds. *)
Definition launched_handle : Popen :=
  mkPopen ["/usr/bin/python3"; ES_SERVER_SCRIPT] 4242 None.

End StopVocabulary.

Section ReportVocabulary.
Import VerifyStartEsServer.

Definition is_write (ev : Event) : nat :=
  match ev with EvWrite _ _ => 1%nat | _ => 0%nat end.

(** Passed divided by total as a percentage, 0 for no results: the exact
    number. *)
Definition exact_percentage (results : list TestResult) : Q :=
  if 0 <? total_tests results
  then (inject_Z (passed_tests results) / inject_Z (total_tests results)
        * inject_Z 100)%Q
  else inject_Z 0.

(** The same in binary64 arithmetic: the quotient is rounded, and so is its
    product with 100. *)
Definition percentage (results : list TestResult) : Q :=
  if 0 <? total_tests results
  then binary64
         (binary64 (inject_Z (passed_tests results)
                    / inject_Z (total_tests results))
          * inject_Z 100)
  else inject_Z 0.

(** The whole report for [results], generated at the date [now]. *)
Definition report_text (now : string) (results : list TestResult) : string :=
  (fold_left (fun acc result => acc ++ html_row result) results
     (html_summary now (total_tests results) (passed_tests results)
        (failed_tests results) (percentage results))
   ++ html_close)%string.

(** The state [generate_html_report] leaves. *)
Definition report_written (env : Env) (s : State Globals) : State Globals :=
  let content :=
    report_text (now_strftime env (trace s ++ [EvMakedirs REPORT_DIR])%list)
      (test_results (globals s)) in
  mkState
    (trace s
     ++ [EvMakedirs REPORT_DIR; EvNow; EvWrite REPORT_FILE content;
         EvLog INFO ("HTML report generated: " ++ REPORT_FILE)])%list
    ((REPORT_FILE, content) :: files s)
    (children s) (globals s).

(** A result of a probe that passed, and one of a probe that failed. *)
Definition passed_result : TestResult :=
  mkTestResult "Elasticsearch Connection" true
    "Test passed" "0.25s" "2024-01-01 00:00:07".

Definition failed_result : TestResult :=
  mkTestResult "Store Data" false
    "Test failed: Failed to store data: Internal Server Error" "0.50s"
    "2024-01-01 00:00:14".

End ReportVocabulary.

(** * Properties *)

Open Scope list_scope.

(** ** The monad and the trace *)

Lemma weight_app (w : Event -> nat) (a b : list Event) :
  weight w (a ++ b) = (weight w a + weight w b)%nat.
Proof.
  induction a as [|ev a IH]; simpl; [reflexivity|].
  rewrite IH. lia.
Qed.

Lemma weight_zero_Forall (w : Event -> nat) (evs : list Event) :
  (weight w evs <= 0)%nat -> Forall (fun ev => w ev = 0%nat) evs.
Proof.
  induction evs as [|ev evs IH]; simpl; intros H; constructor.
  - lia.
  - apply IH. lia.
Qed.

Section Costs.
Variables (G : Type) (w : Event -> nat).

Lemma costs_weaken (A : Type) (m : M G A) (a b : nat) :
  costs w a m -> (a <= b)%nat -> costs w b m.
Proof.
  intros H Hab s. destruct (H s) as (evs & Ht & Hw).
  exists evs. split; [exact Ht | lia].
Qed.

Lemma costs_pure (A : Type) (m : M G A) :
  (forall s, trace (snd (m s)) = trace s) -> costs w 0 m.
Proof.
  intros H s. exists []. rewrite H, app_nil_r. split; [reflexivity | simpl; lia].
Qed.

Lemma costs_ret (A : Type) (a : A) : costs w 0 (@ret G A a).
Proof. apply costs_pure. reflexivity. Qed.

Lemma costs_raise (A : Type) (e : Exc) : costs w 0 (@raise G A e).
Proof. apply costs_pure. reflexivity. Qed.

Lemma costs_lift_res (A : Type) (r : Res A) : costs w 0 (@lift_res G A r).
Proof. apply costs_pure. reflexivity. Qed.

Lemma costs_get_trace : costs w 0 (@get_trace G).
Proof. apply costs_pure. reflexivity. Qed.

Lemma costs_get_globals : costs w 0 (@get_globals G).
Proof. apply costs_pure. reflexivity. Qed.

Lemma costs_set_globals (g : G) : costs w 0 (set_globals g).
Proof. apply costs_pure. reflexivity. Qed.

Lemma costs_emit (ev : Event) : costs w (w ev) (@emit G ev).
Proof.
  intros s. exists [ev]. split; [reflexivity | simpl; lia].
Qed.

Lemma costs_bind (A B : Type) (m : M G A) (k : A -> M G B) (a b : nat) :
  costs w a m -> (forall x, costs w b (k x)) -> costs w (a + b) (bind m k).
Proof.
  intros Hm Hk s. unfold bind.
  destruct (Hm s) as (evs1 & Ht1 & Hw1).
  destruct (m s) as [[x|e|] s1]; simpl in Ht1.
  - destruct (Hk x s1) as (evs2 & Ht2 & Hw2).
    exists (evs1 ++ evs2). rewrite Ht2, Ht1, app_assoc, weight_app.
    split; [reflexivity | lia].
  - exists evs1. simpl. split; [exact Ht1 | lia].
  - exists evs1. simpl. split; [exact Ht1 | lia].
Qed.

Lemma costs_try_except (A : Type) (m : M G A) (c : Exc -> bool)
    (h : Exc -> M G A) (a b : nat) :
  costs w a m -> (forall e, costs w b (h e)) ->
  costs w (a + b) (try_except m c h).
Proof.
  intros Hm Hh s. unfold try_except.
  destruct (Hm s) as (evs1 & Ht1 & Hw1).
  destruct (m s) as [[x|e|] s1]; simpl in Ht1.
  - exists evs1. simpl. split; [exact Ht1 | lia].
  - destruct (c e).
    + destruct (Hh e s1) as (evs2 & Ht2 & Hw2).
      exists (evs1 ++ evs2). rewrite Ht2, Ht1, app_assoc, weight_app.
      split; [reflexivity | lia].
    + exists evs1. simpl. split; [exact Ht1 | lia].
  - exists evs1. simpl. split; [exact Ht1 | lia].
Qed.

Lemma costs_for_range (A : Type) (body : M G (option A)) (a n : nat) :
  costs w a body -> costs w (n * a) (for_range n body).
Proof.
  intros Hb. induction n as [|n IH]; simpl.
  - apply costs_ret.
  - apply costs_bind; [exact Hb|].
    intros [v|].
    + eapply costs_weaken; [apply costs_ret | lia].
    + exact IH.
Qed.

Lemma costs_if (A : Type) (c : bool) (m1 m2 : M G A) (a b : nat) :
  costs w a m1 -> costs w b m2 ->
  costs w (Nat.max a b) (if c then m1 else m2).
Proof.
  intros H1 H2. destruct c.
  - eapply costs_weaken; [exact H1 | lia].
  - eapply costs_weaken; [exact H2 | lia].
Qed.

End Costs.

Section PrimitiveCosts.
Variables (env : Env) (G : Type) (w : Event -> nat).

Lemma costs_match_option (A B : Type) (o : option A) (f : A -> M G B)
    (m : M G B) (a b : nat) :
  (forall x, costs w a (f x)) -> costs w b m ->
  costs w (Nat.max a b) (match o with Some x => f x | None => m end).
Proof.
  intros Hf Hm. destruct o as [x|].
  - eapply costs_weaken; [apply Hf | lia].
  - eapply costs_weaken; [exact Hm | lia].
Qed.

(** An effect that appends the event [ev] and then only answers. *)
Lemma costs_effect (A : Type) (ev : Event) (k : list Event -> M G A) :
  (forall h s, trace (snd (k h s)) = trace s) ->
  costs w (w ev) (h <- get_trace ;; emit ev ;; k h).
Proof.
  intros Hk s. exists [ev]. unfold bind, get_trace, emit. simpl.
  rewrite Hk. simpl. split; [reflexivity | lia].
Qed.

Lemma costs_requests_get (url : string) (params : list (string * Json)) :
  costs w (w (EvGet url params)) (@requests_get env G url params).
Proof.
  apply costs_effect. intros h s.
  destruct (http_get env h url params); reflexivity.
Qed.

Lemma costs_time_sleep (secs : Z) : costs w (w (EvSleep secs)) (@time_sleep G secs).
Proof. apply costs_emit. Qed.

Lemma costs_logger_info (msg : string) :
  costs w (w (EvLog INFO msg)) (@logger_info G msg).
Proof. apply costs_emit. Qed.

Lemma costs_logger_error (msg : string) :
  costs w (w (EvLog ERROR msg)) (@logger_error G msg).
Proof. apply costs_emit. Qed.

Lemma costs_py_time : costs w (w EvTime) (@py_time env G).
Proof. apply costs_effect. reflexivity. Qed.

Lemma costs_now_string : costs w (w EvNow) (@now_string env G).
Proof. apply costs_effect. reflexivity. Qed.

Lemma costs_os_path_exists (path : string) :
  costs w (w (EvExists path)) (@os_path_exists env G path).
Proof. apply costs_effect. reflexivity. Qed.

Lemma costs_subprocess_run (argv : list string) :
  costs w (w (EvRun argv)) (@subprocess_run env G argv).
Proof.
  apply costs_effect. intros h s. destruct (run_cmd env h argv); reflexivity.
Qed.

Lemma costs_subprocess_Popen (argv : list string) :
  costs w (w (EvPopen argv)) (@subprocess_Popen env G argv).
Proof.
  apply costs_effect. intros h s. destruct (spawn env h argv); reflexivity.
Qed.

Lemma costs_os_getpgid (p : nat) :
  costs w (w (EvGetpgid p)) (@os_getpgid env G p).
Proof.
  apply costs_effect. intros h s.
  destruct (existsb (Nat.eqb p) (children s)); reflexivity.
Qed.

Lemma costs_os_killpg (pgid : nat) (sig : string) :
  costs w (w (EvKillpg pgid sig)) (@os_killpg env G pgid sig).
Proof.
  intros s. exists [EvKillpg pgid sig]. unfold os_killpg, bind, emit.
  destruct (Nat.eqb pgid (own_pgid env)); simpl;
    (split; [reflexivity | lia]).
Qed.

Lemma costs_write_file (path content : string) :
  costs w (w (EvWrite path content)) (@write_file G path content).
Proof.
  intros s. exists [EvWrite path content]. simpl.
  split; [reflexivity | lia].
Qed.

Lemma costs_read_file (path : string) :
  costs w (w (EvRead path)) (@read_file G path).
Proof.
  intros s. exists [EvRead path]. unfold read_file, bind, emit. simpl.
  destruct (lookup_file (files s) path); simpl; (split; [reflexivity | lia]).
Qed.

End PrimitiveCosts.

(** One structural step of a cost derivation; the bound of an effect is
    computed from its event. *)
Ltac costs_effect_with lem :=
  eapply costs_weaken; [ eapply lem | cbv; apply le_n ].

Ltac costs_step :=
  lazymatch goal with
  | |- costs _ _ (bind _ _) => eapply costs_bind; [ | intros ]
  | |- costs _ _ (try_except _ _ _) => eapply costs_try_except; [ | intros ]
  | |- costs _ _ (for_range _ _) => eapply costs_for_range
  | |- costs _ _ (match _ with Some _ => _ | None => _ end) =>
      eapply costs_match_option; [ intros | ]
  | |- costs _ _ (if _ then _ else _) => eapply costs_if
  | |- costs _ _ (ret _) => eapply costs_ret
  | |- costs _ _ (raise _) => eapply costs_raise
  | |- costs _ _ (lift_res _) => eapply costs_lift_res
  | |- costs _ _ get_trace => eapply costs_get_trace
  | |- costs _ _ get_globals => eapply costs_get_globals
  | |- costs _ _ (set_globals _) => eapply costs_set_globals
  | |- costs _ _ (emit _) => costs_effect_with costs_emit
  | |- costs _ _ (requests_get _ _ _) => costs_effect_with costs_requests_get
  | |- costs _ _ (time_sleep _) => costs_effect_with costs_time_sleep
  | |- costs _ _ (logger_info _) => costs_effect_with costs_logger_info
  | |- costs _ _ (logger_error _) => costs_effect_with costs_logger_error
  | |- costs _ _ (py_time _) => costs_effect_with costs_py_time
  | |- costs _ _ (now_string _) => costs_effect_with costs_now_string
  | |- costs _ _ (os_path_exists _ _) => costs_effect_with costs_os_path_exists
  | |- costs _ _ (subprocess_run _ _) => costs_effect_with costs_subprocess_run
  | |- costs _ _ (subprocess_Popen _ _) => costs_effect_with costs_subprocess_Popen
  | |- costs _ _ (os_getpgid _ _) => costs_effect_with costs_os_getpgid
  | |- costs _ _ (os_killpg _ _ _) => costs_effect_with costs_os_killpg
  | |- costs _ _ (write_file _ _) => costs_effect_with costs_write_file
  | |- costs _ _ (read_file _) => costs_effect_with costs_read_file
  end.

(** Derive [costs w n m] for a bound [n] that the structure of [m] meets. *)
Ltac costs_upto :=
  eapply costs_weaken; [ repeat costs_step | cbv; lia ].

(** *** What each effect computes *)

Section Equations.
Variables (env : Env) (G : Type).
Implicit Type s : State G.

Lemma bind_eq (A B : Type) (m : M G A) (k : A -> M G B) s :
  bind m k s
  = match m s with
    | (Ret a, s') => k a s'
    | (Raise e, s') => (Raise e, s')
    | (Terminated, s') => (Terminated, s')
    end.
Proof. reflexivity. Qed.

Lemma try_except_eq (A : Type) (m : M G A) (c : Exc -> bool)
    (h : Exc -> M G A) s :
  try_except m c h s
  = match m s with
    | (Ret a, s') => (Ret a, s')
    | (Raise e, s') => if c e then h e s' else (Raise e, s')
    | (Terminated, s') => (Terminated, s')
    end.
Proof. reflexivity. Qed.

Lemma emit_eq (ev : Event) s : emit ev s = (Ret tt, after ev s).
Proof. reflexivity. Qed.

Lemma requests_get_eq (url : string) (params : list (string * Json)) s :
  requests_get env url params s
  = (match http_get env (trace s) url params with
     | HttpReply r => Ret r
     | HttpRaises e => Raise e
     end, after (EvGet url params) s).
Proof.
  unfold requests_get, bind, get_trace, emit.
  destruct (http_get env (trace s) url params); reflexivity.
Qed.

Lemma py_time_eq s :
  py_time env s = (Ret (time_time env (trace s)), after EvTime s).
Proof. reflexivity. Qed.

Lemma now_string_eq s :
  now_string env s = (Ret (now_strftime env (trace s)), after EvNow s).
Proof. reflexivity. Qed.

Lemma os_path_exists_eq (path : string) s :
  os_path_exists env path s
  = (Ret (path_exists env (trace s) path), after (EvExists path) s).
Proof. reflexivity. Qed.

Lemma subprocess_Popen_eq (argv : list string) s :
  subprocess_Popen env argv s
  = match spawn env (trace s) argv with
    | inl e => (Raise e, after (EvPopen argv) s)
    | inr child =>
        (Ret child,
         mkState (trace s ++ [EvPopen argv]) (files s) (child :: children s)
           (globals s))
    end.
Proof.
  unfold subprocess_Popen, bind, get_trace, emit.
  destruct (spawn env (trace s) argv); reflexivity.
Qed.

Lemma os_getpgid_eq (p : nat) s :
  os_getpgid env p s
  = (if existsb (Nat.eqb p) (children s)
     then Ret (getpgid env (trace s) p)
     else Raise (mkExc ProcessLookupError "[Errno 3] No such process"),
     after (EvGetpgid p) s).
Proof.
  unfold os_getpgid, bind, get_trace, emit. simpl.
  destruct (existsb (Nat.eqb p) (children s)); reflexivity.
Qed.

Lemma os_killpg_eq (pgid : nat) (sig : string) s :
  os_killpg env pgid sig s
  = (if Nat.eqb pgid (own_pgid env) then Terminated else Ret tt,
     after (EvKillpg pgid sig) s).
Proof.
  unfold os_killpg, bind, emit.
  destruct (Nat.eqb pgid (own_pgid env)); reflexivity.
Qed.

End Equations.

(** [m] never ends the script. *)
Definition survives {G A : Type} (m : M G A) : Prop :=
  forall s s', m s <> (Terminated, s').

Section Survives.
Variable G : Type.

Lemma survives_ret (A : Type) (a : A) : survives (@ret G A a).
Proof. intros s s' H. discriminate H. Qed.

Lemma survives_raise (A : Type) (e : Exc) : survives (@raise G A e).
Proof. intros s s' H. discriminate H. Qed.

Lemma survives_lift_res (A : Type) (r : Res A) :
  r <> Terminated -> survives (@lift_res G A r).
Proof. intros Hr s s' H. injection H as -> _. apply Hr. reflexivity. Qed.

Lemma survives_bind (A B : Type) (m : M G A) (k : A -> M G B) :
  survives m -> (forall a, survives (k a)) -> survives (bind m k).
Proof.
  intros Hm Hk s s'. rewrite bind_eq.
  destruct (m s) as [[a|e|] s1] eqn:Hms; intros H.
  - exact (Hk a _ _ H).
  - discriminate H.
  - exact (Hm _ _ Hms).
Qed.

Lemma survives_if (A : Type) (c : bool) (m1 m2 : M G A) :
  survives m1 -> survives m2 -> survives (if c then m1 else m2).
Proof. intros H1 H2. destruct c; assumption. Qed.

Lemma survives_emit (ev : Event) : survives (@emit G ev).
Proof. intros s s' H. discriminate H. Qed.

Lemma survives_get_trace : survives (@get_trace G).
Proof. intros s s' H. discriminate H. Qed.

Lemma survives_requests_get (env : Env) (url : string)
    (params : list (string * Json)) :
  survives (@requests_get env G url params).
Proof.
  intros s s'. rewrite requests_get_eq.
  destruct (http_get env (trace s) url params); discriminate.
Qed.

Lemma survives_try_except (A : Type) (m : M G A) (c : Exc -> bool)
    (h : Exc -> M G A) :
  survives m -> (forall e, survives (h e)) -> survives (try_except m c h).
Proof.
  intros Hm Hh s s'. rewrite try_except_eq.
  destruct (m s) as [[a|e|] s1] eqn:Hms; intros H.
  - discriminate H.
  - destruct (c e); [exact (Hh e _ _ H) | discriminate H].
  - exact (Hm _ _ Hms).
Qed.

Lemma survives_for_range (A : Type) (body : M G (option A)) (n : nat) :
  survives body -> survives (for_range n body).
Proof.
  intros Hb. induction n as [|n IH]; cbn [for_range].
  - apply survives_ret.
  - apply survives_bind; [exact Hb|].
    intros [v|]; [apply survives_ret | exact IH].
Qed.

Lemma survives_match_option (A B : Type) (o : option A) (f : A -> M G B)
    (m : M G B) :
  (forall x, survives (f x)) -> survives m ->
  survives (match o with Some x => f x | None => m end).
Proof. intros Hf Hm. destruct o; [apply Hf | exact Hm]. Qed.

Lemma survives_os_path_exists (env : Env) (path : string) :
  survives (@os_path_exists env G path).
Proof. intros s s' H. discriminate H. Qed.

Lemma survives_subprocess_run (env : Env) (argv : list string) :
  survives (@subprocess_run env G argv).
Proof.
  intros s s'. unfold subprocess_run, bind, get_trace, emit.
  destruct (run_cmd env (trace s) argv); discriminate.
Qed.

Lemma survives_subprocess_Popen (env : Env) (argv : list string) :
  survives (@subprocess_Popen env G argv).
Proof.
  intros s s'. rewrite subprocess_Popen_eq.
  destruct (spawn env (trace s) argv); discriminate.
Qed.

Lemma survives_get_globals : survives (@get_globals G).
Proof. intros s s' H. discriminate H. Qed.

Lemma survives_set_globals (g : G) : survives (set_globals g).
Proof. intros s s' H. discriminate H. Qed.

End Survives.

(** One structural step of a proof that a computation never ends the
    script. *)
Ltac survives_step :=
  lazymatch goal with
  | |- survives (bind _ _) => apply survives_bind; [ | intros ]
  | |- survives (try_except _ _ _) => apply survives_try_except; [ | intros ]
  | |- survives (for_range _ _) => apply survives_for_range
  | |- survives (match _ with Some _ => _ | None => _ end) =>
      apply survives_match_option; [ intros | ]
  | |- survives (if _ then _ else _) => apply survives_if
  | |- survives (ret _) => apply survives_ret
  | |- survives (raise _) => apply survives_raise
  | |- survives (emit _) => apply survives_emit
  | |- survives (time_sleep _) => apply survives_emit
  | |- survives (logger_info _) => apply survives_emit
  | |- survives (logger_error _) => apply survives_emit
  | |- survives get_trace => apply survives_get_trace
  | |- survives get_globals => apply survives_get_globals
  | |- survives (set_globals _) => apply survives_set_globals
  | |- survives (requests_get _ _ _) => apply survives_requests_get
  | |- survives (os_path_exists _ _) => apply survives_os_path_exists
  | |- survives (subprocess_run _ _) => apply survives_subprocess_run
  | |- survives (subprocess_Popen _ _) => apply survives_subprocess_Popen
  end.

(** ** [start_es_server.py]: bringing the services up *)

Section StartEsServerFacts.
Import StartEsServer.
Variable env : Env.

Lemma start_elasticsearch_stays_home :
  costs after_elasticsearch 0 (start_elasticsearch env).
Proof.
  unfold start_elasticsearch, download_elasticsearch, poll_once, probe_200.
  costs_upto.
Qed.

Lemma start_elasticsearch_requests :
  costs is_get 31 (start_elasticsearch env).
Proof.
  unfold start_elasticsearch, download_elasticsearch, poll_once, probe_200.
  costs_upto.
Qed.

Lemma start_elasticsearch_sleeps :
  costs is_sleep 30 (start_elasticsearch env).
Proof.
  unfold start_elasticsearch, download_elasticsearch, poll_once, probe_200.
  costs_upto.
Qed.

Lemma start_kibana_requests : costs is_get 61 (start_kibana env).
Proof.
  unfold start_kibana, download_kibana, poll_once, probe_200.
  costs_upto.
Qed.

Lemma start_kibana_sleeps : costs is_sleep 60 (start_kibana env).
Proof.
  unfold start_kibana, download_kibana, poll_once, probe_200.
  costs_upto.
Qed.

(** A probe of a target that never shows the success signal answers
    "not yet" and raises nothing. *)
Lemma probe_200_unready (url msg : string) :
  never_ready env url ->
  forall s, exists s', probe_200 env url msg s = (Ret None, s').
Proof.
  intros Hn s. specialize (Hn (trace s) []).
  unfold probe_200. rewrite try_except_eq, bind_eq, requests_get_eq.
  destruct (http_get env (trace s) url []) as [r|e].
  - apply Z.eqb_neq in Hn. rewrite Hn. eexists. reflexivity.
  - rewrite Hn. eexists. reflexivity.
Qed.

Lemma poll_once_unready (url msg : string) :
  never_ready env url ->
  forall s, exists s', poll_once env url msg s = (Ret None, s').
Proof.
  intros Hn s. unfold poll_once, bind.
  destruct (probe_200_unready msg Hn s) as (s1 & ->).
  eexists. reflexivity.
Qed.

End StartEsServerFacts.

(** A loop whose body never returns runs out of rounds. *)
Lemma for_range_exhausted (G A : Type) (body : M G (option A)) :
  (forall s, exists s', body s = (Ret None, s')) ->
  forall n s, exists s', for_range n body s = (Ret None, s').
Proof.
  intros Hb n. induction n as [|n IH]; intros s; simpl.
  - eexists. reflexivity.
  - unfold bind. destruct (Hb s) as (s1 & ->). apply IH.
Qed.

Section StartEsServerExhaustion.
Import StartEsServer.
Variable env : Env.

Lemma start_elasticsearch_exhausted (s : State Globals) :
  never_ready env (localhost ES_PORT) ->
  path_exists env (trace s) ES_DIR = true ->
  launch_succeeds env [ES_DIR ++ "/bin/elasticsearch"]%string ->
  fst (start_elasticsearch env s)
  = Raise (mkExc RuntimeError "Elasticsearch server failed to start").
Proof.
  intros Hn Hp Hl. unfold start_elasticsearch.
  rewrite bind_eq, os_path_exists_eq, Hp. cbn [negb].
  rewrite bind_eq. cbn [ret].
  rewrite bind_eq.
  match goal with
  | |- context [probe_200 env ?u ?m ?st] =>
      destruct (probe_200_unready m Hn st) as (s1 & ->)
  end.
  rewrite bind_eq. unfold logger_info. rewrite emit_eq.
  rewrite bind_eq, subprocess_Popen_eq.
  match goal with
  | |- context [spawn env ?h ?a] => destruct (Hl h) as (child & ->)
  end.
  cbv zeta. rewrite bind_eq.
  match goal with
  | |- context [for_range ?n ?b ?st] =>
      destruct (@for_range_exhausted _ _ b
                  (poll_once_unready _ Hn) n st) as (s2 & ->)
  end.
  reflexivity.
Qed.

Lemma start_kibana_exhausted (s : State Globals) :
  never_ready env (localhost KIBANA_PORT) ->
  path_exists env (trace s) KIBANA_DIR = true ->
  launch_succeeds env [KIBANA_DIR ++ "/bin/kibana"]%string ->
  fst (start_kibana env s)
  = Raise (mkExc RuntimeError "Kibana server failed to start").
Proof.
  intros Hn Hp Hl. unfold start_kibana.
  rewrite bind_eq, os_path_exists_eq, Hp. cbn [negb].
  rewrite bind_eq. cbn [ret].
  rewrite bind_eq.
  match goal with
  | |- context [probe_200 env ?u ?m ?st] =>
      destruct (probe_200_unready m Hn st) as (s1 & ->)
  end.
  rewrite bind_eq. unfold logger_info. rewrite emit_eq.
  rewrite bind_eq, subprocess_Popen_eq.
  match goal with
  | |- context [spawn env ?h ?a] => destruct (Hl h) as (child & ->)
  end.
  cbv zeta. rewrite bind_eq.
  match goal with
  | |- context [for_range ?n ?b ?st] =>
      destruct (@for_range_exhausted _ _ b
                  (poll_once_unready _ Hn) n st) as (s2 & ->)
  end.
  reflexivity.
Qed.

End StartEsServerExhaustion.

(** C2.  When [start_elasticsearch] fails, in particular when its 30
    attempts are used up without a 200 answer, the startup hook stops there:
    it fails with the same exception in the same state, and nothing that
    belongs to a later step has happened: the Elasticsearch client was not
    built, and Kibana was neither looked for, downloaded, probed nor
    launched. *)
Theorem startup_halts_when_elasticsearch_fails
    (env : Env) (s : State StartEsServer.Globals) (e : Exc) :
  fst (StartEsServer.start_elasticsearch env s) = Raise e ->
  StartEsServer.startup_event env s = StartEsServer.start_elasticsearch env s
  /\ exists evs,
       trace (snd (StartEsServer.startup_event env s)) = trace s ++ evs
       /\ Forall (fun ev => after_elasticsearch ev = 0%nat) evs.
Proof.
  intros Hfail.
  assert (Heq : StartEsServer.startup_event env s
                = StartEsServer.start_elasticsearch env s).
  { unfold StartEsServer.startup_event. rewrite bind_eq.
    destruct (StartEsServer.start_elasticsearch env s) as [[u|e'|] s'].
    - discriminate Hfail.
    - reflexivity.
    - discriminate Hfail. }
  split; [exact Heq|].
  rewrite Heq.
  destruct (start_elasticsearch_stays_home env s) as (evs & Ht & Hw).
  exists evs. split; [exact Ht|].
  apply weight_zero_Forall. exact Hw.
Qed.

(** In a world where nothing ever listens, Elasticsearch uses up its budget
    and the hook halts before Kibana. *)
Lemma startup_halts_in_dead_world :
  fst (StartEsServer.start_elasticsearch dead_env server_initial_state)
  = Raise (mkExc RuntimeError "Elasticsearch server failed to start")
  /\ (StartEsServer.startup_event dead_env server_initial_state
      = StartEsServer.start_elasticsearch dead_env server_initial_state
      /\ exists evs,
           trace (snd (StartEsServer.startup_event dead_env
                         server_initial_state))
           = trace server_initial_state ++ evs
           /\ Forall (fun ev => after_elasticsearch ev = 0%nat) evs).
Proof.
  split.
  - vm_compute. reflexivity.
  - apply (@startup_halts_when_elasticsearch_fails dead_env
             server_initial_state
             (mkExc RuntimeError "Elasticsearch server failed to start")).
    vm_compute. reflexivity.
Defined.

(** ** [verify_start_es_server.py]: waiting for the servers *)

Section StartEsServerPolling.
Import VerifyStartEsServer.
Variable env : Env.

Lemma start_es_server_requests : costs is_get 60 (start_es_server env).
Proof.
  unfold start_es_server, start_es_server_attempt, set_es_server_process.
  costs_upto.
Qed.

Lemma start_es_server_requests_elasticsearch :
  costs (is_get_to "http://localhost:9200") 30 (start_es_server env).
Proof.
  unfold start_es_server, start_es_server_attempt, set_es_server_process.
  costs_upto.
Qed.

Lemma start_es_server_requests_api :
  costs (is_get_to "http://localhost:8000/docs") 30 (start_es_server env).
Proof.
  unfold start_es_server, start_es_server_attempt, set_es_server_process.
  costs_upto.
Qed.

Lemma start_es_server_sleeps : costs is_sleep 30 (start_es_server env).
Proof.
  unfold start_es_server, start_es_server_attempt, set_es_server_process.
  costs_upto.
Qed.

(** An attempt fails quietly when Elasticsearch is not ready, and also when
    Elasticsearch answers but the API is not ready. *)
Lemma start_es_server_attempt_unready :
  never_ready env (localhost ES_SERVER_PORT)
  \/ (only_connection_errors env (localhost ES_SERVER_PORT)
      /\ never_ready env (localhost FASTAPI_PORT ++ "/docs")%string) ->
  forall s, exists s', start_es_server_attempt env s = (Ret None, s').
Proof.
  intros H s. unfold start_es_server_attempt.
  rewrite bind_eq, try_except_eq, bind_eq, requests_get_eq.
  destruct (http_get env (trace s) (localhost ES_SERVER_PORT) []) as [r|e] eqn:Hes.
  - destruct (status_code r =? 200) eqn:Hst.
    + destruct H as [Hn | [_ Hn]].
      * specialize (Hn (trace s) []). rewrite Hes in Hn.
        apply Z.eqb_eq in Hst. contradiction.
      * rewrite bind_eq, requests_get_eq.
        match goal with
        | |- context [http_get env ?h ?u ?p] =>
            specialize (Hn h p); destruct (http_get env h u p) as [r2|e2]
        end.
        -- apply Z.eqb_neq in Hn. rewrite Hn. eexists. reflexivity.
        -- rewrite Hn. eexists. reflexivity.
    + eexists. reflexivity.
  - assert (Hc : is_ConnectionError e = true).
    { destruct H as [Hn | [Ho _]].
      - specialize (Hn (trace s) []). rewrite Hes in Hn. exact Hn.
      - exact (Ho _ _ _ Hes). }
    rewrite Hc. eexists. reflexivity.
Qed.

Lemma start_es_server_exhausted (s : State Globals) :
  never_ready env (localhost ES_SERVER_PORT)
  \/ (only_connection_errors env (localhost ES_SERVER_PORT)
      /\ never_ready env (localhost FASTAPI_PORT ++ "/docs")%string) ->
  launch_succeeds env [sys_executable env; ES_SERVER_SCRIPT] ->
  fst (start_es_server env s) = Ret false.
Proof.
  intros Hn Hl. unfold start_es_server. cbv zeta.
  rewrite bind_eq, subprocess_Popen_eq.
  destruct (Hl (trace s)) as (child & ->).
  rewrite bind_eq. unfold set_es_server_process at 1.
  rewrite bind_eq. cbn [get_globals set_globals].
  rewrite bind_eq.
  match goal with
  | |- context [for_range ?n ?b ?st] =>
      destruct (@for_range_exhausted _ _ b
                  (start_es_server_attempt_unready Hn) n st) as (s2 & ->)
  end.
  reflexivity.
Qed.

End StartEsServerPolling.

Lemma costs_both (G A : Type) (w1 w2 : Event -> nat) (a b : nat) (m : M G A) :
  costs w1 a m -> costs w2 b m ->
  forall s, exists evs,
    trace (snd (m s)) = trace s ++ evs
    /\ (weight w1 evs <= a)%nat /\ (weight w2 evs <= b)%nat.
Proof.
  intros H1 H2 s.
  destruct (H1 s) as (evs & Ht & Hw1).
  destruct (H2 s) as (evs' & Ht' & Hw2).
  rewrite Ht in Ht'. apply app_inv_head in Ht'. subst evs'.
  exists evs. auto.
Qed.

(** *** The rounds of a waiting loop *)

(** The events of [k] failed rounds of a waiting loop on [url]: one request
    and one sleep of a second each. *)
Fixpoint polling (url : string) (k : nat) : list Event :=
  match k with
  | O => []
  | S k' => EvGet url [] :: EvSleep 1 :: polling url k'
  end.

(** The events of the failed attempts of [start_es_server]: a request to
    Elasticsearch, a request to the API in the attempts marked [true] (those
    in which Elasticsearch answered 200), and a sleep of a second. *)
Fixpoint attempts (rounds : list bool) : list Event :=
  match rounds with
  | [] => []
  | api :: rest =>
      EvGet (VerifyStartEsServer.localhost VerifyStartEsServer.ES_SERVER_PORT)
        []
      :: (if api
          then [EvGet (VerifyStartEsServer.localhost
                         VerifyStartEsServer.FASTAPI_PORT ++ "/docs")%string
                  []]
          else [])
      ++ EvSleep 1 :: attempts rest
  end.

(** Two traces that differ in how their parts are grouped. *)
Ltac same_trace :=
  rewrite <- ?app_assoc; cbn [app polling attempts]; rewrite ?app_nil_r;
  rewrite <- ?app_assoc; cbn [app]; reflexivity.

Section PollingRounds.
Import StartEsServer.
Variable env : Env.

Lemma probe_200_cases (url msg : string) (s : State Globals) :
  match probe_200 env url msg s with
  | (Ret (Some _), s1) => trace s1 = trace s ++ [EvGet url []; EvLog INFO msg]
  | (Ret None, s1) => trace s1 = trace s ++ [EvGet url []]
  | (Raise e, s1) =>
      trace s1 = trace s ++ [EvGet url []] /\ is_ConnectionError e = false
  | (Terminated, _) => False
  end.
Proof.
  unfold probe_200. rewrite try_except_eq, bind_eq, requests_get_eq.
  destruct (http_get env (trace s) url []) as [r|e].
  - destruct (status_code r =? 200).
    + rewrite bind_eq. unfold logger_info. rewrite emit_eq.
      cbn [ret after trace]. rewrite <- app_assoc. reflexivity.
    + reflexivity.
  - destruct (is_ConnectionError e) eqn:He; [reflexivity|].
    split; [reflexivity | exact He].
Qed.

Lemma poll_once_cases (url msg : string) (s : State Globals) :
  match poll_once env url msg s with
  | (Ret (Some _), s1) => trace s1 = trace s ++ [EvGet url []; EvLog INFO msg]
  | (Ret None, s1) => trace s1 = trace s ++ [EvGet url []; EvSleep 1]
  | (Raise e, s1) =>
      trace s1 = trace s ++ [EvGet url []] /\ is_ConnectionError e = false
  | (Terminated, _) => False
  end.
Proof.
  unfold poll_once. rewrite bind_eq.
  pose proof (probe_200_cases url msg s) as H.
  destruct (probe_200 env url msg s) as [[[v|]|e|] s1].
  - exact H.
  - cbn [time_sleep bind emit ret after trace]. rewrite H, <- app_assoc.
    reflexivity.
  - exact H.
  - exact H.
Qed.

(** The loop, round by round. *)
Lemma polling_loop (url msg : string) (n : nat) (s : State Globals) :
  exists k ending,
    trace (snd (for_range n (poll_once env url msg) s))
    = trace s ++ polling url k ++ ending
    /\ match fst (for_range n (poll_once env url msg) s) with
       | Ret (Some _) =>
           (k < n)%nat /\ ending = [EvGet url []; EvLog INFO msg]
       | Ret None => k = n /\ ending = []
       | Raise e =>
           (k < n)%nat /\ ending = [EvGet url []]
           /\ is_ConnectionError e = false
       | Terminated => False
       end.
Proof.
  revert s. induction n as [|n IH]; intros s.
  - exists 0%nat, []. cbn. rewrite app_nil_r. auto.
  - cbn [for_range]. rewrite bind_eq.
    pose proof (poll_once_cases url msg s) as H.
    destruct (poll_once env url msg s) as [[[v|]|e|] s1].
    + exists 0%nat, [EvGet url []; EvLog INFO msg]. cbn [fst snd ret polling app].
      split; [exact H|]. split; [lia | reflexivity].
    + destruct (IH s1) as (k & ending & Ht & Hr).
      exists (S k), ending. split.
      * rewrite Ht, H, <- app_assoc. reflexivity.
      * destruct (fst (for_range n (poll_once env url msg) s1)) as [[v|]|e|].
        -- destruct Hr as [Hk He]. split; [lia | exact He].
        -- destruct Hr as [Hk He]. split; [lia | exact He].
        -- destruct Hr as (Hk & He & Hc). repeat split; [lia | exact He | exact Hc].
        -- exact Hr.
    + destruct H as [Ht Hc].
      exists 0%nat, [EvGet url []]. cbn [fst snd polling app].
      split; [exact Ht|]. repeat split; [lia | exact Hc].
    + contradiction H.
Qed.

(** What follows the download in both start functions: the first probe,
    the launch and the loop. *)
Lemma wait_for_service (url up starting ok failed : string)
    (argv : list string) (n : nat) (err : Exc) (s : State Globals) :
  let wait :=
    (running <- probe_200 env url up ;;
     match running with
     | Some _ => ret tt
     | None =>
         logger_info starting ;;
         subprocess_Popen env argv ;;
         started <- for_range n (poll_once env url ok) ;;
         match started with
         | Some _ => ret tt
         | None => logger_error failed ;; raise err
         end
     end) in
  exists before k ending,
    trace (snd (wait s)) = trace s ++ before ++ polling url k ++ ending
    /\ weight is_sleep before = 0%nat
    /\ (weight is_get before <= 1)%nat
    /\ match fst (wait s) with
       | Ret _ =>
           ((k < n)%nat /\ ending = [EvGet url []; EvLog INFO ok])
           \/ (k = 0%nat /\ ending = [])
       | Raise e =>
           (k = n /\ ending = [EvLog ERROR failed] /\ e = err)
           \/ ((k < n)%nat /\ ending = [EvGet url []]
               /\ is_ConnectionError e = false)
           \/ (k = 0%nat /\ ending = [])
       | Terminated => False
       end.
Proof.
  intros wait. subst wait.
  match goal with
  | |- context [fst ?run] => destruct run as [r s'] eqn:Hrun
  end.
  cbn [fst snd]. rewrite bind_eq in Hrun.
  pose proof (probe_200_cases url up s) as H.
  destruct (probe_200 env url up s) as [[[v|]|e|] s1].
  - injection Hrun as <- <-.
    exists [EvGet url []; EvLog INFO up], 0%nat, []. rewrite H.
    split; [same_trace|]. split; [reflexivity|]. split; [cbn; lia|].
    right. auto.
  - rewrite bind_eq in Hrun. unfold logger_info at 1 in Hrun.
    rewrite emit_eq, bind_eq, subprocess_Popen_eq in Hrun.
    destruct (spawn env _ argv) as [e|child].
    + injection Hrun as <- <-.
      exists [EvGet url []; EvLog INFO starting; EvPopen argv], 0%nat, [].
      cbn [after trace]. rewrite H.
      split; [same_trace|]. split; [reflexivity|]. split; [cbn; lia|].
      right. right. auto.
    + rewrite bind_eq in Hrun.
      match type of Hrun with
      | context [for_range n _ ?st] =>
          destruct (polling_loop url ok n st) as (k & ending & Ht & Hr);
          destruct (for_range n (poll_once env url ok) st)
            as [[[v|]|e|] s2]
      end; cbn [fst snd trace after] in Ht, Hr.
      * injection Hrun as <- <-.
        exists [EvGet url []; EvLog INFO starting; EvPopen argv], k, ending.
        rewrite Ht, H.
        split; [same_trace|]. split; [reflexivity|]. split; [cbn; lia|].
        left. exact Hr.
      * destruct Hr as [-> ->].
        rewrite bind_eq in Hrun. unfold logger_error in Hrun.
        rewrite emit_eq in Hrun. injection Hrun as <- <-.
        exists [EvGet url []; EvLog INFO starting; EvPopen argv], n,
          [EvLog ERROR failed].
        cbn [after trace]. rewrite Ht, H.
        split; [same_trace|]. split; [reflexivity|]. split; [cbn; lia|].
        left. auto.
      * injection Hrun as <- <-.
        exists [EvGet url []; EvLog INFO starting; EvPopen argv], k, ending.
        rewrite Ht, H.
        split; [same_trace|]. split; [reflexivity|]. split; [cbn; lia|].
        right. left. exact Hr.
      * contradiction Hr.
  - destruct H as [Ht Hc]. injection Hrun as <- <-.
    exists [EvGet url []], 0%nat, []. rewrite Ht.
    split; [same_trace|]. split; [reflexivity|]. split; [cbn; lia|].
    right. right. auto.
  - contradiction H.
Qed.

Lemma download_elasticsearch_survives : survives (download_elasticsearch env).
Proof. unfold download_elasticsearch. repeat survives_step. Qed.

Lemma download_kibana_survives : survives (download_kibana env).
Proof. unfold download_kibana. repeat survives_step. Qed.

(** A start function: the download when the directory is missing, then the
    wait. *)
Lemma start_with_download (dir : string) (download wait : M Globals unit)
    (url ok failed : string) (n : nat) (err : Exc) (s : State Globals) :
  costs is_sleep 0 download -> costs is_get 0 download ->
  survives download ->
  (forall s1, exists before k ending,
     trace (snd (wait s1)) = trace s1 ++ before ++ polling url k ++ ending
     /\ weight is_sleep before = 0%nat
     /\ (weight is_get before <= 1)%nat
     /\ match fst (wait s1) with
        | Ret _ =>
            ((k < n)%nat /\ ending = [EvGet url []; EvLog INFO ok])
            \/ (k = 0%nat /\ ending = [])
        | Raise e =>
            (k = n /\ ending = [EvLog ERROR failed] /\ e = err)
            \/ ((k < n)%nat /\ ending = [EvGet url []]
                /\ is_ConnectionError e = false)
            \/ (k = 0%nat /\ ending = [])
        | Terminated => False
        end) ->
  let start :=
    (present <- os_path_exists env dir ;;
     (if negb present then download else ret tt) ;;
     wait) in
  exists before k ending,
    trace (snd (start s)) = trace s ++ before ++ polling url k ++ ending
    /\ weight is_sleep before = 0%nat
    /\ (weight is_get before <= 1)%nat
    /\ match fst (start s) with
       | Ret _ =>
           ((k < n)%nat /\ ending = [EvGet url []; EvLog INFO ok])
           \/ (k = 0%nat /\ ending = [])
       | Raise e =>
           (k = n /\ ending = [EvLog ERROR failed] /\ e = err)
           \/ ((k < n)%nat /\ ending = [EvGet url []]
               /\ is_ConnectionError e = false)
           \/ (k = 0%nat /\ ending = [])
       | Terminated => False
       end.
Proof.
  intros Hsleep Hget Hlive Hwait start. subst start.
  match goal with
  | |- context [fst ?run] => destruct run as [r s'] eqn:Hrun
  end.
  cbn [fst snd]. rewrite bind_eq, os_path_exists_eq in Hrun.
  set (s0 := after (EvExists dir) s) in Hrun.
  assert (Hd : exists evs,
             trace (snd ((if negb (path_exists env (trace s) dir)
                          then download else ret tt) s0))
             = trace s0 ++ evs
             /\ weight is_sleep evs = 0%nat /\ weight is_get evs = 0%nat).
  { destruct (negb (path_exists env (trace s) dir)).
    - destruct (costs_both Hsleep Hget s0) as (evs & Ht & H1 & H2).
      exists evs. split; [exact Ht|]. split; lia.
    - exists []. cbn [ret snd]. rewrite app_nil_r. auto. }
  destruct Hd as (evs & Ht & Hs0 & Hg0).
  rewrite bind_eq in Hrun.
  destruct ((if negb (path_exists env (trace s) dir) then download else ret tt)
              s0) as [[u|e|] s1] eqn:Hdl; cbn [snd] in Ht.
  - destruct (Hwait s1) as (before & k & ending & Hw & Hs1 & Hg1 & Hr).
    rewrite Hrun in Hw, Hr. cbn [fst snd] in Hw, Hr.
    exists (EvExists dir :: evs ++ before), k, ending.
    rewrite Hw, Ht. subst s0. cbn [after trace].
    split; [same_trace|].
    split; [cbn [weight is_sleep]; rewrite weight_app; lia|].
    split; [cbn [weight is_get]; rewrite weight_app; lia|].
    exact Hr.
  - injection Hrun as <- <-.
    exists (EvExists dir :: evs), 0%nat, [].
    rewrite Ht. subst s0. cbn [after trace].
    split; [same_trace|].
    split; [cbn [weight is_sleep]; lia|].
    split; [cbn [weight is_get]; lia|].
    right. right. auto.
  - exfalso. destruct (negb (path_exists env (trace s) dir)).
    + exact (Hlive _ _ Hdl).
    + discriminate Hdl.
Qed.

End PollingRounds.

Section AttemptRounds.
Import VerifyStartEsServer.
Variable env : Env.

Lemma start_es_server_attempt_cases (s : State Globals) :
  match start_es_server_attempt env s with
  | (Ret (Some v), s1) =>
      v = true
      /\ trace s1
         = trace s
           ++ [EvGet (localhost ES_SERVER_PORT) [];
               EvGet (localhost FASTAPI_PORT ++ "/docs")%string [];
               EvLog INFO
                 "Elasticsearch and FastAPI servers started successfully"]
  | (Ret None, s1) => exists api, trace s1 = trace s ++ attempts [api]
  | (Raise e, s1) =>
      is_ConnectionError e = false
      /\ (trace s1 = trace s ++ [EvGet (localhost ES_SERVER_PORT) []]
          \/ trace s1
             = trace s
               ++ [EvGet (localhost ES_SERVER_PORT) [];
                   EvGet (localhost FASTAPI_PORT ++ "/docs")%string []])
  | (Terminated, _) => False
  end.
Proof.
  unfold start_es_server_attempt.
  rewrite bind_eq, try_except_eq, bind_eq, requests_get_eq.
  destruct (http_get env (trace s) (localhost ES_SERVER_PORT) []) as [r|e].
  - destruct (status_code r =? 200).
    + rewrite bind_eq, requests_get_eq.
      destruct (http_get env _ (localhost FASTAPI_PORT ++ "/docs")%string [])
        as [r2|e2].
      * destruct (status_code r2 =? 200);
          cbv [bind ret emit logger_info time_sleep after];
          cbn [trace].
        -- split; [reflexivity | same_trace].
        -- exists true. same_trace.
      * destruct (is_ConnectionError e2) eqn:He;
          cbv [bind ret emit logger_info time_sleep after];
          cbn [trace].
        -- exists true. same_trace.
        -- split; [exact He|]. right. same_trace.
    + cbv [bind ret emit logger_info time_sleep after]. cbn [trace].
      exists false. same_trace.
  - destruct (is_ConnectionError e) eqn:He;
      cbv [bind ret emit logger_info time_sleep after]; cbn [trace].
    + exists false. same_trace.
    + split; [exact He|]. left. reflexivity.
Qed.

Lemma attempts_app (a b : list bool) :
  attempts (a ++ b) = attempts a ++ attempts b.
Proof.
  induction a as [|api a IH]; [reflexivity|].
  cbn [app attempts]. rewrite IH, <- !app_assoc. reflexivity.
Qed.

Lemma attempts_loop (n : nat) (s : State Globals) :
  exists rounds ending,
    trace (snd (for_range n (start_es_server_attempt env) s))
    = trace s ++ attempts rounds ++ ending
    /\ match fst (for_range n (start_es_server_attempt env) s) with
       | Ret (Some v) =>
           v = true /\ (List.length rounds < n)%nat
           /\ ending
              = [EvGet (localhost ES_SERVER_PORT) [];
                 EvGet (localhost FASTAPI_PORT ++ "/docs")%string [];
                 EvLog INFO
                   "Elasticsearch and FastAPI servers started successfully"]
       | Ret None => List.length rounds = n /\ ending = []
       | Raise e =>
           (List.length rounds < n)%nat /\ is_ConnectionError e = false
           /\ (ending = [EvGet (localhost ES_SERVER_PORT) []]
               \/ ending
                  = [EvGet (localhost ES_SERVER_PORT) [];
                     EvGet (localhost FASTAPI_PORT ++ "/docs")%string []])
       | Terminated => False
       end.
Proof.
  revert s. induction n as [|n IH]; intros s.
  - exists [], []. cbn. rewrite app_nil_r. auto.
  - cbn [for_range]. rewrite bind_eq.
    pose proof (start_es_server_attempt_cases s) as H.
    destruct (start_es_server_attempt env s) as [[[v|]|e|] s1].
    + destruct H as [Hv Ht]. eexists [], _.
      cbn [fst snd ret attempts app List.length].
      split; [exact Ht|]. repeat split; [exact Hv | lia].
    + destruct H as (api & Ht1).
      destruct (IH s1) as (rounds & ending & Ht & Hr).
      exists (api :: rounds), ending. split.
      * rewrite Ht, Ht1.
        change (api :: rounds) with ([api] ++ rounds).
        rewrite attempts_app, <- !app_assoc. reflexivity.
      * cbn [List.length].
        destruct (fst (for_range n (start_es_server_attempt env) s1))
          as [[v|]|e|].
        -- destruct Hr as (Hv & Hk & He). repeat split; [exact Hv | lia | exact He].
        -- destruct Hr as [Hk He]. split; [lia | exact He].
        -- destruct Hr as (Hk & Hc & He). repeat split; [lia | exact Hc | exact He].
        -- exact Hr.
    + destruct H as [Hc Ht].
      destruct Ht as [Ht|Ht]; eexists [], _;
        cbn [fst snd attempts app List.length];
        (split; [exact Ht|]); repeat split; try lia; try exact Hc; auto.
    + contradiction H.
Qed.

End AttemptRounds.


Lemma dead_world_never_ready (url : string) : never_ready dead_env url.
Proof. intros h params. reflexivity. Qed.

Lemma world_launch_succeeds
    (http : list Event -> string -> list (string * Json) -> HttpOutcome)
    (exit_code : option Z) (argv : list string) :
  launch_succeeds (world http exit_code) argv.
Proof. intros h. exists 4242%nat. reflexivity. Qed.


(** ** [verify_start_es_server.py]: stopping the server *)

Section StopEsServer.
Import VerifyStartEsServer.
Variable env : Env.

(** What [stop_es_server] does on a handle that was launched and never
    waited for. *)
Lemma stop_es_server_live (s : State Globals) (p : Popen) :
  es_server_process (globals s) = Some p ->
  returncode p = None ->
  stop_es_server env s
  = if existsb (Nat.eqb (pid p)) (children s) then
      if in_own_group env p s then (Terminated, signalled env p s)
      else
        match child_exit env
                (trace s ++ [EvGetpgid (pid p);
                             EvKillpg (getpgid env (trace s) (pid p)) "SIGTERM"])
                (pid p) 5 with
        | Some rc => (Ret tt, stopped env p rc s)
        | None => (Raise (wait_timeout_error env p), stop_timed_out env p s)
        end
    else (Raise no_such_process, after (EvGetpgid (pid p)) s).
Proof.
  intros Hp Hrc. unfold stop_es_server.
  rewrite bind_eq. cbn [get_globals]. rewrite Hp.
  rewrite bind_eq, os_getpgid_eq.
  destruct (existsb (Nat.eqb (pid p)) (children s)); [|reflexivity].
  rewrite bind_eq, os_killpg_eq.
  unfold in_own_group.
  destruct (Nat.eqb (getpgid env (trace s) (pid p)) (own_pgid env)).
  { unfold signalled, after. cbn [trace files children globals].
    rewrite <- !app_assoc. reflexivity. }
  cbv beta iota. rewrite bind_eq. unfold Popen_wait.
  rewrite bind_eq. cbn [get_trace]. rewrite bind_eq, emit_eq, Hrc.
  cbn [after trace files children globals]. rewrite <- !app_assoc. cbn [app].
  destruct (child_exit env _ (pid p) 5) as [rc|].
  - unfold stopped, bind, set_es_server_process, bind, get_globals,
      set_globals, logger_info, emit, after, ret.
    cbn [trace files children globals es_server_process test_results
         report_generated].
    rewrite <- !app_assoc. reflexivity.
  - unfold stop_timed_out, raise, wait_timeout_error, after.
    cbn [trace files children globals].
    rewrite <- !app_assoc. reflexivity.
Qed.

(** What it does on a handle whose child is gone. *)
Lemma stop_es_server_gone (s : State Globals) (p : Popen) :
  es_server_process (globals s) = Some p ->
  existsb (Nat.eqb (pid p)) (children s) = false ->
  stop_es_server env s = (Raise no_such_process, after (EvGetpgid (pid p)) s).
Proof.
  intros Hp Hgone. unfold stop_es_server.
  rewrite bind_eq. cbn [get_globals]. rewrite Hp.
  rewrite bind_eq, os_getpgid_eq, Hgone. reflexivity.
Qed.

Lemma reaped_is_gone (child : nat) (l : list nat) :
  existsb (Nat.eqb child) (filter (fun q => negb (Nat.eqb q child)) l) = false.
Proof.
  induction l as [|q l IH]; simpl; [reflexivity|].
  destruct (Nat.eqb q child) eqn:Hq; simpl; [exact IH|].
  rewrite Nat.eqb_sym, Hq. exact IH.
Qed.

End StopEsServer.

Lemma existsb_eqb_In (child : nat) (l : list nat) :
  In child l -> existsb (Nat.eqb child) l = true.
Proof.
  intros H. apply existsb_exists. exists child.
  split; [exact H | apply Nat.eqb_refl].
Qed.

(** C7, on the code.  On a launched handle whose child still exists,
    [stop_es_server] asks for the child's process group and sends SIGTERM to
    it.  [start_es_server] leaves the child in the group of the script, so
    the signal reaches the script as well and ends it there: it does not
    wait, does not log and sends nothing more.  Only when the child has
    moved to another group does the stop go on: it waits 5 seconds (the
    grace period is fixed); a child that exits in time is reaped and the
    stop is logged; for one that does not, the wait's [TimeoutExpired]
    leaves [stop_es_server], nothing more is sent and the child stays among
    the unreaped children.  In no case is a second signal sent. *)
Theorem stop_ends_the_script_with_the_group
    (env : Env) (s : State VerifyStartEsServer.Globals)
    (p : VerifyStartEsServer.Popen) :
  VerifyStartEsServer.es_server_process (globals s) = Some p ->
  VerifyStartEsServer.returncode p = None ->
  In (VerifyStartEsServer.pid p) (children s) ->
  let child := VerifyStartEsServer.pid p in
  let sent :=
    trace s ++ [EvGetpgid child;
                EvKillpg (getpgid env (trace s) child) "SIGTERM"] in
  let s' := snd (VerifyStartEsServer.stop_es_server env s) in
  if Nat.eqb (getpgid env (trace s) child) (own_pgid env) then
    fst (VerifyStartEsServer.stop_es_server env s) = Terminated
    /\ trace s' = sent
    /\ children s' = children s
  else
    match child_exit env sent child 5 with
    | Some rc =>
        fst (VerifyStartEsServer.stop_es_server env s) = Ret tt
        /\ trace s' = sent
                      ++ [EvWait child 5;
                          EvLog INFO "Elasticsearch server stopped"]
        /\ existsb (Nat.eqb child) (children s') = false
    | None =>
        fst (VerifyStartEsServer.stop_es_server env s)
        = Raise (wait_timeout_error env p)
        /\ trace s' = sent ++ [EvWait child 5]
        /\ children s' = children s
    end.
Proof.
  intros Hp Hrc Hin child sent s'. subst s'.
  rewrite (stop_es_server_live env s Hp Hrc).
  rewrite (existsb_eqb_In _ _ Hin).
  subst sent child. unfold in_own_group.
  destruct (Nat.eqb (getpgid env (trace s) (VerifyStartEsServer.pid p))
              (own_pgid env)).
  - cbn [fst snd signalled trace children]. repeat split.
  - destruct (child_exit env _ (VerifyStartEsServer.pid p) 5) as [rc|].
    + cbn [fst snd stopped trace children].
      rewrite <- app_assoc. repeat split. apply reaped_is_gone.
    + cbn [fst snd stop_timed_out trace children].
      rewrite <- app_assoc. repeat split.
Qed.

(** The stop at the end of a run in which everything worked: the script
    ends with its own signal. *)
Lemma stop_in_working_world :
  (VerifyStartEsServer.es_server_process
     (globals (launched_state all_ok_env)) = Some launched_handle
   /\ VerifyStartEsServer.returncode launched_handle = None
   /\ In (VerifyStartEsServer.pid launched_handle)
         (children (launched_state all_ok_env)))
  /\ fst (VerifyStartEsServer.stop_es_server all_ok_env
            (launched_state all_ok_env)) = Terminated
  /\ signals (trace (snd (VerifyStartEsServer.stop_es_server all_ok_env
                            (launched_state all_ok_env))))
     = [EvKillpg 4000 "SIGTERM"]
  /\ weight is_wait
       (trace (snd (VerifyStartEsServer.stop_es_server all_ok_env
                      (launched_state all_ok_env)))) = 0%nat.
Proof.
  assert (H1 : VerifyStartEsServer.es_server_process
                 (globals (launched_state all_ok_env))
               = Some launched_handle) by (vm_compute; reflexivity).
  assert (H2 : VerifyStartEsServer.returncode launched_handle = None)
    by reflexivity.
  assert (H3 : In (VerifyStartEsServer.pid launched_handle)
                  (children (launched_state all_ok_env)))
    by (vm_compute; left; reflexivity).
  split; [auto|].
  pose proof (@stop_ends_the_script_with_the_group all_ok_env
                (launched_state all_ok_env) launched_handle H1 H2 H3) as H.
  cbv zeta in H.
  change (Nat.eqb (getpgid all_ok_env (trace (launched_state all_ok_env))
                     (VerifyStartEsServer.pid launched_handle))
            (own_pgid all_ok_env)) with true in H.
  cbv iota in H. destruct H as (Hend & Htrace & _).
  split; [exact Hend|].
  rewrite Htrace. split; vm_compute; reflexivity.
Defined.



(** ** [verify_start_es_server.py]: the test runner *)

Lemma length_append (a b : string) :
  String.length (a ++ b) = (String.length a + String.length b)%nat.
Proof.
  induction a as [|c a IH]; simpl; [reflexivity|].
  rewrite IH. reflexivity.
Qed.

Lemma length_zeros (n : nat) : String.length (zeros n) = n.
Proof.
  induction n as [|n IH]; simpl; [reflexivity|].
  rewrite IH. reflexivity.
Qed.

Section RunTest.
Import VerifyStartEsServer.
Variable env : Env.

(** [run_test] in one equation: the probe runs once, in the state after the
    start time was read; an [Exception] it raises is absorbed. *)
Lemma run_test_eq (A : Type) (test_name : string) (test_func : Py A)
    (s : State Globals) :
  run_test env test_name test_func s
  = match test_func (call_state s) with
    | (Ret _, s1) =>
        (Ret true,
         recorded env test_name true "Test passed" (time_time env (trace s)) s1)
    | (Raise e, s1) =>
        if is_Exception e
        then (Ret false,
              recorded env test_name false ("Test failed: " ++ exc_str e)
                (time_time env (trace s)) s1)
        else (Raise e, s1)
    | (Terminated, s1) => (Terminated, s1)
    end.
Proof.
  unfold run_test. rewrite bind_eq, py_time_eq.
  rewrite bind_eq, try_except_eq, bind_eq.
  fold (call_state s).
  destruct (test_func (call_state s)) as [[v|e|] s1].
  - cbv [recorded ret bind py_time now_string test_results_append
         logger_info get_trace get_globals set_globals emit after
         fst snd trace files children globals].
    rewrite <- !app_assoc. reflexivity.
  - destruct (is_Exception e); [|reflexivity].
    cbv [recorded ret bind py_time now_string test_results_append
         logger_info get_trace get_globals set_globals emit after
         fst snd trace files children globals].
    rewrite <- !app_assoc. reflexivity.
  - reflexivity.
Qed.

(** The result [run_test] appended, read back from the state it left. *)
Lemma recorded_results (test_name msg : string) (ok : bool) (t0 : Q)
    (s1 : State Globals) :
  exists r,
    test_results (globals (recorded env test_name ok msg t0 s1))
    = test_results (globals s1) ++ [r]
    /\ name r = test_name /\ success r = ok /\ message r = msg.
Proof.
  eexists. unfold recorded. cbn [globals test_results].
  split; [reflexivity|]. repeat split.
Qed.

(** With [doc_id] false the step is empty; with [doc_id] true the lookup of
    the stored document stops at the unbound name [ES_INDEX], the
    [NameError] is logged, [auid] stays [None] and the probe is skipped. *)
Lemma get_data_step_eq (doc_id : bool) (s : State Globals) :
  get_data_step env doc_id s
  = (Ret tt,
     if doc_id
     then after (EvLog ERROR
                   "Error extracting auid: name 'ES_INDEX' is not defined") s
     else s).
Proof. destruct doc_id; reflexivity. Qed.

End RunTest.

(** C10.  [run_test] hands back the success flag of the one result it
    appends and nothing else: whatever is done with the value the probe
    returns, the outcome and the state are the same; a probe that returns
    gives [True] and a result with [success] true; a probe that raises an
    [Exception] gives [False] and a result with [success] false; a probe
    interrupted by [KeyboardInterrupt] gives no value and no result, and
    neither does one in which the script is ended. *)
Theorem run_test_returns_only_the_success_flag
    (env : Env) (A B : Type) (f : A -> B) (test_name : string)
    (test_func : VerifyStartEsServer.Py A)
    (s : State VerifyStartEsServer.Globals) :
  VerifyStartEsServer.run_test env test_name test_func s
  = VerifyStartEsServer.run_test env test_name
      (v <- test_func ;; ret (f v)) s
  /\ match test_func (call_state s) with
     | (Ret v, s1) =>
         exists r s',
           VerifyStartEsServer.run_test env test_name test_func s
           = (Ret true, s')
           /\ VerifyStartEsServer.test_results (globals s')
              = VerifyStartEsServer.test_results (globals s1) ++ [r]
           /\ VerifyStartEsServer.success r = true
     | (Raise e, s1) =>
         if is_Exception e then
           exists r s',
             VerifyStartEsServer.run_test env test_name test_func s
             = (Ret false, s')
             /\ VerifyStartEsServer.test_results (globals s')
                = VerifyStartEsServer.test_results (globals s1) ++ [r]
             /\ VerifyStartEsServer.success r = false
         else
           VerifyStartEsServer.run_test env test_name test_func s
           = (Raise e, s1)
     | (Terminated, s1) =>
         VerifyStartEsServer.run_test env test_name test_func s
         = (Terminated, s1)
     end.
Proof.
  split.
  - rewrite !run_test_eq, bind_eq.
    destruct (test_func (call_state s)) as [[v|e|] s1]; reflexivity.
  - rewrite run_test_eq.
    destruct (test_func (call_state s)) as [[v|e|] s1]; [| |reflexivity].
    + destruct (recorded_results env test_name "Test passed" true
                  (time_time env (trace s)) s1) as (r & Hr & _ & Hs & _).
      exists r. eexists. split; [reflexivity|]. split; assumption.
    + destruct (is_Exception e); [|reflexivity].
      destruct (recorded_results env test_name
                  ("Test failed: " ++ exc_str e) false
                  (time_time env (trace s)) s1) as (r & Hr & _ & Hs & _).
      exists r. eexists. split; [reflexivity|]. split; assumption.
Qed.

(** C9, as the code has it.  The result recorded for a probe that raised
    an [Exception] carries ["Test failed: "] followed by the whole text of
    the exception: 13 characters more than that text, whatever its length. *)
Theorem failure_message_is_not_truncated
    (env : Env) (A : Type) (test_name : string)
    (test_func : VerifyStartEsServer.Py A)
    (s s1 : State VerifyStartEsServer.Globals) (e : Exc) :
  test_func (call_state s) = (Raise e, s1) ->
  is_Exception e = true ->
  exists r,
    VerifyStartEsServer.test_results
      (globals (snd (VerifyStartEsServer.run_test env test_name test_func s)))
    = VerifyStartEsServer.test_results (globals s1) ++ [r]
    /\ VerifyStartEsServer.message r = ("Test failed: " ++ exc_str e)%string
    /\ String.length (VerifyStartEsServer.message r)
       = (13 + String.length (exc_str e))%nat.
Proof.
  intros Hraise Hexc. rewrite run_test_eq, Hraise, Hexc. cbn [snd].
  destruct (recorded_results env test_name ("Test failed: " ++ exc_str e)
              false (time_time env (trace s)) s1) as (r & Hr & _ & _ & Hm).
  exists r. split; [exact Hr|]. split; [exact Hm|].
  rewrite Hm, length_append. reflexivity.
Qed.

(** A probe that raises an exception with a 40-character text: the recorded
    message has 53 characters. *)
Lemma failure_message_of_forty_zeros :
  (@VerifyStartEsServer.py_Exception unit (zeros 40) (call_state initial_state)
   = (Raise (mkExc PyException (zeros 40)), call_state initial_state)
   /\ is_Exception (mkExc PyException (zeros 40)) = true)
  /\ exists r,
       VerifyStartEsServer.test_results
         (globals (snd (VerifyStartEsServer.run_test all_ok_env "probe"
                          (@VerifyStartEsServer.py_Exception unit (zeros 40))
                          initial_state)))
       = [r]
       /\ String.length (VerifyStartEsServer.message r) = 53%nat.
Proof.
  split; [split; reflexivity|].
  destruct (@failure_message_is_not_truncated all_ok_env unit "probe"
              (@VerifyStartEsServer.py_Exception unit (zeros 40))
              initial_state (call_state initial_state)
              (mkExc PyException (zeros 40)) eq_refl eq_refl)
    as (r & Hr & _ & Hlen).
  exists r. split; [exact Hr | exact Hlen].
Defined.

(** C9 as stated fails: no bound holds for the length of the recorded
    message. *)
Lemma recorded_message_has_no_bound :
  ~ exists bound : nat,
      forall msg : string,
        Forall (fun r => (String.length (VerifyStartEsServer.message r)
                          <= bound)%nat)
          (VerifyStartEsServer.test_results
             (globals (snd (VerifyStartEsServer.run_test all_ok_env "probe"
                              (@VerifyStartEsServer.py_Exception unit msg)
                              initial_state)))).
Proof.
  intros (bound & H). specialize (H (zeros (S bound))).
  rewrite run_test_eq in H.
  change (@VerifyStartEsServer.py_Exception unit (zeros (S bound))
            (call_state initial_state))
    with (@Raise unit (mkExc PyException (zeros (S bound))),
          call_state initial_state) in H.
  cbn [is_Exception exc_class ExcClass_eqb negb snd recorded globals
       call_state after initial_state VerifyStartEsServer.test_results
       VerifyStartEsServer.initial_globals app exc_str] in H.
  inversion H as [|r l Hlen _]. subst.
  cbn [VerifyStartEsServer.message String.length] in Hlen.
  rewrite length_zeros in Hlen. lia.
Qed.

(** C3, as the code has it.  A probe that raises an [Exception] does not
    stop the run: [run_test] answers [False] and appends exactly one result,
    which records the failure.  The read probe depends on the write probe
    and is guarded by it: when the write probe was recorded as failed the
    guarded step does nothing at all (no request, no result, no error), and
    the run goes on with the negative lookup in the very state the write
    probe left. *)
Theorem failed_probe_is_recorded_and_read_probe_skipped (env : Env) :
  (forall (A : Type) (test_name : string)
          (test_func : VerifyStartEsServer.Py A) s s1 e,
     test_func (call_state s) = (Raise e, s1) ->
     is_Exception e = true ->
     exists r s',
       VerifyStartEsServer.run_test env test_name test_func s = (Ret false, s')
       /\ VerifyStartEsServer.test_results (globals s')
          = VerifyStartEsServer.test_results (globals s1) ++ [r]
       /\ VerifyStartEsServer.name r = test_name
       /\ VerifyStartEsServer.success r = false
       /\ VerifyStartEsServer.message r
          = ("Test failed: " ++ exc_str e)%string)
  /\ (forall s, VerifyStartEsServer.get_data_step env false s = (Ret tt, s))
  /\ (forall s b s1 s2,
        VerifyStartEsServer.run_test env "Elasticsearch Connection"
          (VerifyStartEsServer.test_elasticsearch_connection env) s
        = (Ret b, s1) ->
        VerifyStartEsServer.run_test env "Store Data"
          (VerifyStartEsServer.test_store_data env) s1
        = (Ret false, s2) ->
        VerifyStartEsServer.run_verification_tests env s
        = VerifyStartEsServer.run_test env "Invalid AUID"
            (VerifyStartEsServer.test_invalid_auid env) s2).
Proof.
  split; [|split].
  - intros A test_name test_func s s1 e Hraise Hexc.
    rewrite run_test_eq, Hraise, Hexc.
    destruct (recorded_results env test_name ("Test failed: " ++ exc_str e)
                false (time_time env (trace s)) s1)
      as (r & Hr & Hn & Hs & Hm).
    exists r. eexists. split; [reflexivity|]. auto.
  - intros s. apply get_data_step_eq.
  - intros s b s1 s2 H1 H2.
    unfold VerifyStartEsServer.run_verification_tests.
    rewrite bind_eq, H1, bind_eq, H2, bind_eq, get_data_step_eq.
    reflexivity.
Qed.

(** The run in the world where storing fails with status 500. *)
Lemma read_probe_skipped_when_store_fails :
  let env := store_fails_env in
  let s := launched_state env in
  let s1 := snd (VerifyStartEsServer.run_test env "Elasticsearch Connection"
                   (VerifyStartEsServer.test_elasticsearch_connection env) s) in
  let s2 := snd (VerifyStartEsServer.run_test env "Store Data"
                   (VerifyStartEsServer.test_store_data env) s1) in
  (VerifyStartEsServer.run_test env "Elasticsearch Connection"
     (VerifyStartEsServer.test_elasticsearch_connection env) s = (Ret true, s1)
   /\ VerifyStartEsServer.run_test env "Store Data"
        (VerifyStartEsServer.test_store_data env) s1 = (Ret false, s2))
  /\ VerifyStartEsServer.run_verification_tests env s
     = VerifyStartEsServer.run_test env "Invalid AUID"
         (VerifyStartEsServer.test_invalid_auid env) s2.
Proof.
  intros env s s1 s2.
  assert (H1 : VerifyStartEsServer.run_test env "Elasticsearch Connection"
                 (VerifyStartEsServer.test_elasticsearch_connection env) s
               = (Ret true, s1)) by (vm_compute; reflexivity).
  assert (H2 : VerifyStartEsServer.run_test env "Store Data"
                 (VerifyStartEsServer.test_store_data env) s1
               = (Ret false, s2)) by (vm_compute; reflexivity).
  split; [split; assumption|].
  exact (proj2 (proj2 (failed_probe_is_recorded_and_read_probe_skipped env))
           s true s1 s2 H1 H2).
Defined.

(** C3 as stated fails: when storing fails, the run ends with three
    results; the read probe was not executed and has no failed result. *)
Lemma dependent_probe_is_skipped_not_failed :
  let s' := snd (VerifyStartEsServer.run_verification store_fails_env
                   initial_state) in
  fst (VerifyStartEsServer.run_verification store_fails_env initial_state)
  = Ret VerifyStartEsServer.Serving
  /\ map (fun r => (VerifyStartEsServer.name r, VerifyStartEsServer.success r))
         (VerifyStartEsServer.test_results (globals s'))
     = [ ("Elasticsearch Connection", true);
         ("Store Data", false);
         ("Invalid AUID", true) ]
  /\ weight is_get (trace s') = 5%nat.
Proof. repeat split; vm_compute; reflexivity. Qed.

(** ** Binary64 rounding *)

Section Binary64.
Open Scope Z_scope.

Lemma round_half_even_near (num den : Z) :
  0 < den -> 0 <= num ->
  - den <= 2 * (round_half_even num den * den - num) <= den.
Proof.
  intros Hd Hn. unfold round_half_even.
  pose proof (Z.div_mod num den ltac:(lia)) as Hdm.
  pose proof (Z.mod_pos_bound num den Hd) as Hr.
  remember (num / den) as k. remember (num mod den) as r.
  clear Heqk Heqr. subst num.
  destruct (den <? 2 * r) eqn:H1.
  - apply Z.ltb_lt in H1. lia.
  - apply Z.ltb_ge in H1.
    destruct ((2 * r =? den) && Z.odd k) eqn:H2; [|lia].
    apply andb_true_iff in H2. destruct H2 as [H2 _].
    apply Z.eqb_eq in H2. lia.
Qed.

Lemma round_half_even_le (num den N : Z) :
  0 < den -> 0 <= num -> num <= N * den -> round_half_even num den <= N.
Proof.
  intros Hd Hn H. pose proof (round_half_even_near Hd Hn). nia.
Qed.

Lemma round_half_even_ge (num den N : Z) :
  0 < den -> 0 <= num -> N * den <= num -> N <= round_half_even num den.
Proof.
  intros Hd Hn H. pose proof (round_half_even_near Hd Hn). nia.
Qed.

(** [2 ^ ilog2 n d <= n / d]. *)
Lemma ilog2_below (n d : Z) :
  0 < n -> 0 < d ->
  (0 <= ilog2 n d -> d * 2 ^ ilog2 n d <= n)
  /\ (ilog2 n d < 0 -> d <= n * 2 ^ (- ilog2 n d)).
Proof.
  intros Hn Hd. unfold ilog2.
  set (e := Z.log2 n - Z.log2 d).
  pose proof (Z.log2_spec n Hn) as [Hn1 _].
  pose proof (Z.log2_spec d Hd) as [_ Hd2].
  pose proof (Z.log2_nonneg n) as Hln.
  pose proof (Z.log2_nonneg d) as Hld.
  replace (Z.succ (Z.log2 d)) with (Z.log2 d + 1) in Hd2 by lia.
  destruct (0 <=? e) eqn:He.
  - apply Z.leb_le in He.
    destruct (d * 2 ^ e <=? n) eqn:Ht.
    + apply Z.leb_le in Ht. split; intros; [exact Ht | lia].
    + split; intros Hk.
      * assert (Hpow : 2 ^ Z.log2 n = 2 ^ (Z.log2 d + 1) * 2 ^ (e - 1)).
        { rewrite <- Z.pow_add_r by lia. f_equal. unfold e. lia. }
        assert (0 < 2 ^ (e - 1)) by (apply Z.pow_pos_nonneg; lia).
        nia.
      * assert (E0 : e = 0) by lia.
        replace (- (e - 1)) with 1 by lia. change (2 ^ 1) with 2.
        assert (HL : Z.log2 n = Z.log2 d) by (unfold e in E0; lia).
        rewrite HL in Hn1.
        rewrite Z.pow_add_r in Hd2 by lia. change (2 ^ 1) with 2 in Hd2.
        lia.
  - apply Z.leb_gt in He.
    destruct (d <=? n * 2 ^ (- e)) eqn:Ht.
    + apply Z.leb_le in Ht. split; intros; [lia | exact Ht].
    + split; intros Hk; [lia|].
      assert (Hpow : 2 ^ (Z.log2 d + 1) = 2 ^ Z.log2 n * 2 ^ (- (e - 1))).
      { rewrite <- Z.pow_add_r by lia. f_equal. unfold e. lia. }
      assert (0 < 2 ^ (- (e - 1))) by (apply Z.pow_pos_nonneg; lia).
      nia.
Qed.

(** [n / d < 2 ^ (ilog2 n d + 1)]. *)
Lemma ilog2_above (n d : Z) :
  0 < n -> 0 < d ->
  (0 <= ilog2 n d + 1 -> n < d * 2 ^ (ilog2 n d + 1))
  /\ (ilog2 n d + 1 < 0 -> n * 2 ^ (- (ilog2 n d + 1)) < d).
Proof.
  intros Hn Hd. unfold ilog2.
  set (e := Z.log2 n - Z.log2 d).
  pose proof (Z.log2_spec n Hn) as [_ Hn2].
  pose proof (Z.log2_spec d Hd) as [Hd1 _].
  pose proof (Z.log2_nonneg n) as Hln.
  pose proof (Z.log2_nonneg d) as Hld.
  replace (Z.succ (Z.log2 n)) with (Z.log2 n + 1) in Hn2 by lia.
  destruct (0 <=? e) eqn:He.
  - apply Z.leb_le in He.
    destruct (d * 2 ^ e <=? n) eqn:Ht.
    + split; intros Hk; [|lia].
      assert (Hpow : 2 ^ (Z.log2 n + 1) = 2 ^ Z.log2 d * 2 ^ (e + 1)).
      { rewrite <- Z.pow_add_r by lia. f_equal. unfold e. lia. }
      assert (0 < 2 ^ (e + 1)) by (apply Z.pow_pos_nonneg; lia).
      nia.
    + apply Z.leb_gt in Ht. replace (e - 1 + 1) with e by lia.
      split; intros; [exact Ht | lia].
  - apply Z.leb_gt in He.
    destruct (d <=? n * 2 ^ (- e)) eqn:Ht.
    + split; intros Hk.
      * assert (E : e = -1) by lia. rewrite E. change (2 ^ (-1 + 1)) with 1.
        assert (HL : Z.log2 n + 1 = Z.log2 d) by (unfold e in E; lia).
        rewrite HL in Hn2. lia.
      * (* n * 2^(-(e+1)) < d :  n < 2^(Ln+1), 2^(Ln+1) * 2^(-(e+1)) = 2^Ld <= d *)
        assert (Hpow : 2 ^ Z.log2 d = 2 ^ (Z.log2 n + 1) * 2 ^ (- (e + 1))).
        { rewrite <- Z.pow_add_r by lia. f_equal. unfold e. lia. }
        assert (0 < 2 ^ (- (e + 1))) by (apply Z.pow_pos_nonneg; lia).
        nia.
    + apply Z.leb_gt in Ht. replace (e - 1 + 1) with e by lia.
      split; intros; [lia | exact Ht].
Qed.

Lemma binary64_zero (q : Q) : Qnum q = 0 -> binary64 q = 0%Q.
Proof. intros H. unfold binary64. rewrite H. reflexivity. Qed.

(** Below [2 ^ j], for [j <= 52], a positive number is rounded to a
    multiple of [1 / P] for a power of two [P >= 2 ^ (53 - j)]. *)
Lemma binary64_small (q : Q) (j : Z) :
  0 <= j <= 52 -> 0 < Qnum q ->
  Qnum q < 2 ^ j * Z.pos (Qden q) ->
  exists P,
    2 ^ (53 - j) <= P
    /\ binary64 q
       = Qmake (round_half_even (Qnum q * P) (Z.pos (Qden q))) (Z.to_pos P).
Proof.
  intros Hj Hn Hlt. unfold binary64.
  set (n := Qnum q) in *. set (d := Z.pos (Qden q)) in *.
  assert (Hd : 0 < d) by (unfold d; lia).
  rewrite (Z.abs_eq n) by lia.
  destruct (n =? 0) eqn:Hz; [apply Z.eqb_eq in Hz; lia|].
  assert (Hneg : (n <? 0) = false) by (apply Z.ltb_ge; lia).
  rewrite Hneg.
  destruct (ilog2_below Hn Hd) as [Hb1 Hb2].
  assert (Hk : ilog2 n d < j).
  { destruct (Z_lt_le_dec (ilog2 n d) j) as [|Hge]; [assumption|].
    exfalso.
    assert (H0 : 0 <= ilog2 n d) by lia.
    specialize (Hb1 H0).
    assert (2 ^ j <= 2 ^ ilog2 n d) by (apply Z.pow_le_mono_r; lia).
    nia. }
  set (e := Z.max (ilog2 n d - 52) (-1074)).
  assert (He : e <= j - 53) by (unfold e; lia).
  assert (He0 : (0 <=? e) = false) by (apply Z.leb_gt; lia).
  rewrite He0.
  exists (2 ^ (- e)). split; [|reflexivity].
  apply Z.pow_le_mono_r; lia.
Qed.

Lemma binary64_nonneg (q : Q) : (0 <= q)%Q -> (0 <= binary64 q)%Q.
Proof.
  intros H. unfold Qle in H. cbn in H. rewrite Z.mul_1_r in H.
  unfold binary64. rewrite (Z.abs_eq (Qnum q)) by exact H.
  destruct (Qnum q =? 0) eqn:Hz; [discriminate|].
  apply Z.eqb_neq in Hz.
  assert (Hneg : (Qnum q <? 0) = false) by (apply Z.ltb_ge; lia).
  rewrite Hneg. cbv zeta.
  destruct (0 <=? Z.max (ilog2 (Qnum q) (Z.pos (Qden q)) - 52) (-1074)) eqn:He.
  - apply Z.leb_le in He. rewrite <- (Zle_Qle 0).
    apply Z.mul_nonneg_nonneg; [|apply Z.pow_nonneg; lia].
    apply round_half_even_ge; [|lia|lia].
    apply Z.mul_pos_pos; [lia | apply Z.pow_pos_nonneg; lia].
  - unfold Qle. cbn. rewrite Z.mul_1_r.
    apply round_half_even_ge; [lia| |lia].
    apply Z.mul_nonneg_nonneg; [lia | apply Z.pow_nonneg; lia].
Qed.

Lemma binary64_le (q : Q) (N j : Z) :
  0 <= j <= 52 -> N <= 2 ^ j - 1 ->
  (0 <= q)%Q -> (q <= inject_Z N)%Q -> (binary64 q <= inject_Z N)%Q.
Proof.
  intros Hj HN H0 HqN.
  unfold Qle in H0, HqN. cbn in H0, HqN. rewrite Z.mul_1_r in H0, HqN.
  destruct (Z.eq_dec (Qnum q) 0) as [Hz|Hz].
  - rewrite (binary64_zero _ Hz). unfold Qle. cbn. lia.
  - assert (Hn : 0 < Qnum q) by lia.
    assert (Hlt : Qnum q < 2 ^ j * Z.pos (Qden q)) by nia.
    destruct (binary64_small q Hj Hn Hlt) as (P & HP & ->).
    assert (0 < 2 ^ (53 - j)) by (apply Z.pow_pos_nonneg; lia).
    assert (HP0 : 0 < P) by lia.
    unfold Qle. cbn. rewrite Z.mul_1_r, Z2Pos.id by exact HP0.
    apply round_half_even_le; [lia| nia | nia].
Qed.

(** The rounding error below [2 ^ j]. *)
Lemma binary64_error (q : Q) (j : Z) :
  0 <= j <= 52 -> (0 <= q)%Q -> (q < inject_Z (2 ^ j))%Q ->
  (Qabs (binary64 q - q) <= 1 # Z.to_pos (2 ^ (54 - j)))%Q.
Proof.
  intros Hj H0 Hlt.
  unfold Qle in H0. unfold Qlt in Hlt. cbn [Qnum Qden inject_Z] in H0, Hlt.
  rewrite Z.mul_1_r in H0, Hlt. rewrite Z.mul_0_l in H0.
  assert (Hp : 0 < 2 ^ (54 - j)) by (apply Z.pow_pos_nonneg; lia).
  assert (H53 : 0 < 2 ^ (53 - j)) by (apply Z.pow_pos_nonneg; lia).
  assert (H54 : 2 ^ (54 - j) = 2 * 2 ^ (53 - j)).
  { replace (54 - j) with (Z.succ (53 - j)) by lia.
    apply Z.pow_succ_r. lia. }
  assert (HE : Z.pos (Z.to_pos (2 ^ (54 - j))) = 2 * 2 ^ (53 - j)).
  { rewrite Z2Pos.id by exact Hp. exact H54. }
  generalize dependent (Z.to_pos (2 ^ (54 - j))). intros E HE.
  apply Qabs_Qle_condition.
  destruct (Z.eq_dec (Qnum q) 0) as [Hz|Hz].
  - rewrite (binary64_zero _ Hz).
    unfold Qle, Qminus, Qplus, Qopp. cbn [Qnum Qden]. rewrite Hz. lia.
  - assert (Hn : 0 < Qnum q) by lia.
    destruct (binary64_small q Hj Hn Hlt) as (P & HP & ->).
    assert (HP0 : 0 < P) by lia.
    assert (HnP : 0 <= Qnum q * P) by (apply Z.mul_nonneg_nonneg; lia).
    pose proof (@round_half_even_near (Qnum q * P) (Z.pos (Qden q))
                  ltac:(lia) HnP) as Hnear.
    assert (HPP : Z.pos (Z.to_pos P) = P) by (apply Z2Pos.id; exact HP0).
    generalize dependent (Z.to_pos P). intros PP HPP.
    generalize dependent (round_half_even (Qnum q * P) (Z.pos (Qden q))).
    intros m Hnear.
    destruct q as [n d]. cbn [Qnum Qden] in *.
    unfold Qle, Qminus, Qplus, Qopp. cbn [Qnum Qden].
    rewrite !Pos2Z.inj_mul, HPP, HE.
    change (Z.neg 1) with (-1). change (Z.pos 1) with 1.
    split; nia.
Qed.

(** The same with the power of two named. *)
Lemma binary64_scale (q : Q) (j : Z) :
  0 <= j <= 52 -> 0 < Qnum q ->
  Qnum q < 2 ^ j * Z.pos (Qden q) ->
  exists a,
    53 - j <= a
    /\ binary64 q
       = Qmake (round_half_even (Qnum q * 2 ^ a) (Z.pos (Qden q)))
           (Z.to_pos (2 ^ a)).
Proof.
  intros Hj Hn Hlt. unfold binary64.
  set (n := Qnum q) in *. set (d := Z.pos (Qden q)) in *.
  assert (Hd : 0 < d) by (unfold d; lia).
  rewrite (Z.abs_eq n) by lia.
  destruct (n =? 0) eqn:Hz; [apply Z.eqb_eq in Hz; lia|].
  assert (Hneg : (n <? 0) = false) by (apply Z.ltb_ge; lia).
  rewrite Hneg.
  destruct (ilog2_below Hn Hd) as [Hb1 Hb2].
  assert (Hk : ilog2 n d < j).
  { destruct (Z_lt_le_dec (ilog2 n d) j) as [|Hge]; [assumption|].
    exfalso.
    assert (H0 : 0 <= ilog2 n d) by lia.
    specialize (Hb1 H0).
    assert (2 ^ j <= 2 ^ ilog2 n d) by (apply Z.pow_le_mono_r; lia).
    nia. }
  set (e := Z.max (ilog2 n d - 52) (-1074)).
  assert (He : e <= j - 53) by (unfold e; lia).
  assert (He0 : (0 <=? e) = false) by (apply Z.leb_gt; lia).
  rewrite He0.
  exists (- e). split; [lia | reflexivity].
Qed.

(** Rounding does not cross a number [M / 2 ^ K] that binary64 has at this
    scale. *)
Lemma binary64_le_dyadic (q : Q) (M K j : Z) :
  0 <= j <= 52 -> 0 <= K <= 53 - j ->
  (0 <= q)%Q -> (q < inject_Z (2 ^ j))%Q ->
  (q <= M # Z.to_pos (2 ^ K))%Q ->
  (binary64 q <= M # Z.to_pos (2 ^ K))%Q.
Proof.
  intros Hj HK H0 Hlt Hle.
  assert (HpK : 0 < 2 ^ K) by (apply Z.pow_pos_nonneg; lia).
  unfold Qle in H0, Hle. unfold Qlt in Hlt.
  cbn [Qnum Qden inject_Z] in H0, Hlt, Hle.
  rewrite Z.mul_1_r in H0, Hlt. rewrite Z.mul_0_l in H0.
  rewrite Z2Pos.id in Hle by exact HpK.
  destruct (Z.eq_dec (Qnum q) 0) as [Hz|Hz].
  - rewrite (binary64_zero _ Hz). rewrite Hz in Hle.
    unfold Qle. cbn [Qnum Qden]. rewrite Z2Pos.id by exact HpK. lia.
  - assert (Hn : 0 < Qnum q) by lia.
    destruct (binary64_scale q Hj Hn Hlt) as (a & Ha & ->).
    assert (Hpa : 0 < 2 ^ a) by (apply Z.pow_pos_nonneg; lia).
    assert (Hsplit : 2 ^ a = 2 ^ K * 2 ^ (a - K)).
    { rewrite <- Z.pow_add_r by lia. f_equal. lia. }
    assert (Hpr : 0 < 2 ^ (a - K)) by (apply Z.pow_pos_nonneg; lia).
    unfold Qle. cbn [Qnum Qden]. rewrite !Z2Pos.id by assumption.
    assert (Hm : round_half_even (Qnum q * 2 ^ a) (Z.pos (Qden q))
                 <= M * 2 ^ (a - K)).
    { apply round_half_even_le; [lia | nia |].
      rewrite Hsplit. nia. }
    rewrite Hsplit at 2. nia.
Qed.

Lemma binary64_ge (q : Q) (N j : Z) :
  0 <= j <= 52 -> 0 < N ->
  (inject_Z N <= q)%Q -> (q < inject_Z (2 ^ j))%Q ->
  (inject_Z N <= binary64 q)%Q.
Proof.
  intros Hj HN Hge Hlt.
  unfold Qle in Hge. unfold Qlt in Hlt.
  cbn [Qnum Qden inject_Z] in Hge, Hlt.
  rewrite Z.mul_1_r in Hge, Hlt.
  assert (Hn : 0 < Qnum q) by nia.
  destruct (binary64_scale q Hj Hn Hlt) as (a & Ha & ->).
  assert (Hpa : 0 < 2 ^ a) by (apply Z.pow_pos_nonneg; lia).
  unfold Qle. cbn [Qnum Qden inject_Z].
  rewrite Z.mul_1_r, Z2Pos.id by exact Hpa.
  apply round_half_even_ge; [lia | nia | nia].
Qed.

(** A number at or above [1 / 2 ^ K], for [K <= 1022], is not rounded
    below it. *)
Lemma binary64_ge_pow2 (q : Q) (K : Z) :
  0 <= K <= 1022 ->
  (1 # Z.to_pos (2 ^ K) <= q)%Q -> (q < inject_Z (2 ^ 52))%Q ->
  (1 # Z.to_pos (2 ^ K) <= binary64 q)%Q.
Proof.
  intros HK Hge Hlt.
  assert (HpK : 0 < 2 ^ K) by (apply Z.pow_pos_nonneg; lia).
  unfold Qle in Hge. unfold Qlt in Hlt.
  cbn [Qnum Qden inject_Z] in Hge, Hlt.
  rewrite Z.mul_1_r in Hlt. rewrite Z.mul_1_l in Hge.
  rewrite Z2Pos.id in Hge by exact HpK.
  set (n := Qnum q) in *. set (d := Z.pos (Qden q)) in *.
  assert (Hd : 0 < d) by (unfold d; lia).
  assert (Hn : 0 < n) by nia.
  destruct (ilog2_below Hn Hd) as [Hb1 Hb2].
  destruct (ilog2_above Hn Hd) as [Ha1 Ha2].
  set (k := ilog2 n d) in *.
  assert (Hk52 : k < 52).
  { destruct (Z_lt_le_dec k 52) as [|Hge52]; [assumption|]. exfalso.
    assert (H0 : 0 <= k) by lia. specialize (Hb1 H0).
    assert (2 ^ 52 <= 2 ^ k) by (apply Z.pow_le_mono_r; lia). nia. }
  assert (HkK : - K <= k).
  { destruct (Z_le_gt_dec (- K) k) as [|Hgt]; [assumption|]. exfalso.
    assert (Hneg : k + 1 <= 0) by lia.
    destruct (Z.eq_dec (k + 1) 0) as [E|E].
    - assert (H0 : 0 <= k + 1) by lia. specialize (Ha1 H0).
      rewrite E in Ha1. change (2 ^ 0) with 1 in Ha1.
      assert (EK : K = 0) by lia. rewrite EK in Hge.
      change (2 ^ 0) with 1 in Hge. lia.
    - assert (H0 : k + 1 < 0) by lia. specialize (Ha2 H0).
      assert (2 ^ K <= 2 ^ (- (k + 1))) by (apply Z.pow_le_mono_r; lia).
      nia. }
  unfold binary64. cbv zeta. fold n d.
  rewrite (Z.abs_eq n) by lia. fold k.
  destruct (n =? 0) eqn:Hz; [apply Z.eqb_eq in Hz; lia|].
  assert (Hnneg : (n <? 0) = false) by (apply Z.ltb_ge; lia).
  rewrite Hnneg.
  replace (Z.max (k - 52) (-1074)) with (k - 52) by lia.
  assert (He0 : (0 <=? k - 52) = false) by (apply Z.leb_gt; lia).
  rewrite He0.
  replace (- (k - 52)) with (52 - k) by lia.
  assert (Hp : 0 < 2 ^ (52 - k)) by (apply Z.pow_pos_nonneg; lia).
  assert (Hm : 2 ^ 52 <= round_half_even (n * 2 ^ (52 - k)) d).
  { apply round_half_even_ge; [lia | nia |].
    destruct (Z_lt_le_dec k 0) as [Hk0|Hk0].
    - specialize (Hb2 Hk0).
      replace (52 - k) with (52 + - k) by lia.
      rewrite Z.pow_add_r by lia.
      assert (0 < 2 ^ 52) by (apply Z.pow_pos_nonneg; lia). nia.
    - specialize (Hb1 Hk0).
      assert (Hs : 2 ^ 52 = 2 ^ k * 2 ^ (52 - k)).
      { rewrite <- Z.pow_add_r by lia. f_equal. lia. }
      rewrite Hs. nia. }
  unfold Qle. cbn [Qnum Qden]. rewrite Z.mul_1_l, !Z2Pos.id by assumption.
  assert (Hs : 2 ^ (52 - k) <= 2 ^ 52 * 2 ^ K).
  { rewrite <- Z.pow_add_r by lia. apply Z.pow_le_mono_r; lia. }
  nia.
Qed.

(** The Standard Library's specification of IEEE 754 arithmetic, read as
    rationals. *)
Definition SF2Q (f : spec_float) : option Q :=
  match f with
  | S754_zero _ => Some 0%Q
  | S754_finite s m e =>
      let v := if 0 <=? e then inject_Z (Z.pos m * 2 ^ e)
               else Qmake (Z.pos m) (Z.to_pos (2 ^ (- e))) in
      Some (if s then (- v)%Q else v)
  | _ => None
  end.

Definition SF_of_Z (z : Z) : spec_float := binary_normalize 53 1024 z 0 false.

(** [(p / t) * 100] for ints of at most 53 bits, by that specification. *)
Definition SF_rate (p t : Z) : spec_float :=
  SFmul 53 1024 (SFdiv 53 1024 (SF_of_Z p) (SF_of_Z t)) (SF_of_Z 100).

Definition rates_agree (p t : Z) : bool :=
  match SF2Q (SF_rate p t) with
  | Some q =>
      Qeq_bool q (binary64 (binary64 (inject_Z p / inject_Z t) * inject_Z 100))
  | None => false
  end.

(** For every total up to 128 and every number of passed results, the two
    roundings give the number the Standard Library's IEEE 754 division and
    multiplication give. *)
Lemma binary64_agrees_with_SpecFloat :
  forallb (fun t => forallb (fun p => rates_agree p t)
                      (map Z.of_nat (seq 0 (S (Z.to_nat t)))))
    (map Z.of_nat (seq 1 128)) = true.
Proof. vm_compute. reflexivity. Qed.

End Binary64.

(** ** [verify_start_es_server.py]: the report *)

Section Report.
Import VerifyStartEsServer.

Lemma fold_left_ones (A : Type) (l : list A) (a : Z) :
  fold_left Z.add (map (fun _ => 1) l) a = a + Z.of_nat (List.length l).
Proof.
  revert a. induction l as [|x l IH]; intros a.
  - simpl. lia.
  - cbn [map fold_left List.length]. rewrite IH. lia.
Qed.

Lemma passed_tests_count (results : list TestResult) :
  passed_tests results = Z.of_nat (List.length (filter success results)).
Proof. unfold passed_tests. rewrite fold_left_ones. lia. Qed.

Lemma passed_tests_bounds (results : list TestResult) :
  0 <= passed_tests results <= total_tests results.
Proof.
  rewrite passed_tests_count. unfold total_tests.
  pose proof (filter_length_le success results). lia.
Qed.

(** The guard keeps the division away from zero: the rate is always a
    value. *)
Lemma success_rate_total (results : list TestResult) :
  success_rate results = Ret (percentage results).
Proof.
  unfold success_rate, percentage, py_truediv.
  destruct (0 <? total_tests results) eqn:Hpos; [|reflexivity].
  apply Z.ltb_lt in Hpos.
  destruct (total_tests results =? 0) eqn:Hz; [|reflexivity].
  apply Z.eqb_eq in Hz. lia.
Qed.

Lemma ratio_bounds (p t : Z) :
  0 <= p <= t -> 0 < t -> (0 <= inject_Z p / inject_Z t <= 1)%Q.
Proof.
  intros Hp Ht.
  assert (HT : (0 < inject_Z t)%Q) by (rewrite <- (Zlt_Qlt 0); exact Ht).
  split.
  - apply Qle_shift_div_l; [exact HT|].
    rewrite Qmult_0_l. rewrite <- (Zle_Qle 0). lia.
  - apply Qle_shift_div_r; [exact HT|].
    rewrite Qmult_1_l. rewrite <- Zle_Qle. lia.
Qed.

(** Neither rounding leaves the range of a percentage. *)
Lemma percentage_bounds (results : list TestResult) :
  (0 <= percentage results <= inject_Z 100)%Q.
Proof.
  unfold percentage.
  destruct (0 <? total_tests results) eqn:Hpos; [|split; discriminate].
  apply Z.ltb_lt in Hpos.
  destruct (ratio_bounds (passed_tests_bounds results) Hpos) as [Hx0 Hx1].
  set (x := (inject_Z (passed_tests results)
             / inject_Z (total_tests results))%Q) in *.
  assert (Hq0 : (0 <= binary64 x)%Q) by (apply binary64_nonneg; exact Hx0).
  assert (Hq1 : (binary64 x <= inject_Z 1)%Q).
  { apply (@binary64_le _ 1 1); [lia | reflexivity | exact Hx0 | exact Hx1]. }
  assert (Hy0 : (0 <= binary64 x * inject_Z 100)%Q).
  { apply Qmult_le_0_compat; [exact Hq0 | discriminate]. }
  assert (Hy1 : (binary64 x * inject_Z 100 <= inject_Z 100)%Q).
  { apply Qle_trans with (inject_Z 1 * inject_Z 100)%Q; [|discriminate].
    apply Qmult_le_compat_r; [exact Hq1 | discriminate]. }
  split.
  - apply binary64_nonneg. exact Hy0.
  - apply (@binary64_le _ 100 7);
      [lia | vm_compute; discriminate | exact Hy0 | exact Hy1].
Qed.

(** The two roundings move the rate by less than [2 ^ -45]. *)
Lemma percentage_error (results : list TestResult) :
  (Qabs (percentage results - exact_percentage results)
   <= 1 # 35184372088832)%Q.
Proof.
  unfold percentage, exact_percentage.
  destruct (0 <? total_tests results) eqn:Hpos; [|discriminate].
  apply Z.ltb_lt in Hpos.
  destruct (ratio_bounds (passed_tests_bounds results) Hpos) as [Hx0 Hx1].
  set (x := (inject_Z (passed_tests results)
             / inject_Z (total_tests results))%Q) in *.
  assert (Hq0 : (0 <= binary64 x)%Q) by (apply binary64_nonneg; exact Hx0).
  assert (Hq1 : (binary64 x <= inject_Z 1)%Q).
  { apply (@binary64_le _ 1 1); [lia | reflexivity | exact Hx0 | exact Hx1]. }
  assert (He1 : (Qabs (binary64 x - x) <= 1 # Z.to_pos (2 ^ (54 - 1)))%Q).
  { apply binary64_error; [lia | exact Hx0 |].
    apply Qle_lt_trans with 1%Q; [exact Hx1 | reflexivity]. }
  set (y := (binary64 x * inject_Z 100)%Q) in *.
  assert (Hy0 : (0 <= y)%Q).
  { apply Qmult_le_0_compat; [exact Hq0 | discriminate]. }
  assert (Hy1 : (y <= inject_Z 100)%Q).
  { apply Qle_trans with (inject_Z 1 * inject_Z 100)%Q; [|discriminate].
    apply Qmult_le_compat_r; [exact Hq1 | discriminate]. }
  assert (He2 : (Qabs (binary64 y - y) <= 1 # Z.to_pos (2 ^ (54 - 7)))%Q).
  { apply binary64_error; [lia | exact Hy0 |].
    apply Qle_lt_trans with (inject_Z 100); [exact Hy1 | reflexivity]. }
  assert (Hsplit : (binary64 y - x * inject_Z 100
                    == (binary64 y - y) + (binary64 x - x) * inject_Z 100)%Q).
  { unfold y. ring. }
  rewrite Hsplit.
  eapply Qle_trans; [apply Qabs_triangle|].
  rewrite Qabs_Qmult.
  change (Qabs (inject_Z 100)) with (inject_Z 100).
  apply Qle_trans
    with ((1 # Z.to_pos (2 ^ (54 - 7)))
          + (1 # Z.to_pos (2 ^ (54 - 1))) * inject_Z 100)%Q.
  - apply Qplus_le_compat; [exact He2|].
    apply Qmult_le_compat_r; [exact He1 | discriminate].
  - vm_compute. discriminate.
Qed.

Variable env : Env.

Lemma generate_html_report_eq (s : State Globals) :
  generate_html_report env s = (Ret REPORT_FILE, report_written env s).
Proof.
  unfold generate_html_report.
  rewrite bind_eq, emit_eq, bind_eq. cbn [get_globals].
  rewrite bind_eq. cbn [lift_res after globals].
  rewrite success_rate_total.
  cbv [report_written report_text ret bind now_string write_file logger_info
       get_trace emit after fst snd trace files children globals].
  rewrite <- !app_assoc. reflexivity.
Qed.

(** The endpoint: it writes the report anew unless the flag is set, then
    serves the file. *)
Lemma get_report_eq (s : State Globals) :
  get_report env s
  = if report_generated (globals s)
    then read_file REPORT_FILE s
    else read_file REPORT_FILE
           (snd (set_report_generated true (report_written env s))).
Proof.
  unfold get_report. rewrite bind_eq. cbn [get_globals].
  destruct (report_generated (globals s)); cbn [negb].
  - rewrite bind_eq. reflexivity.
  - rewrite bind_eq, bind_eq, generate_html_report_eq.
    reflexivity.
Qed.

End Report.



(** *** The run in the world where everything works *)

(** C1, on the code.  In the world where every service answers as the
    probes expect (the connectivity check passes, storing returns an
    identifier, reading the stored auid finds a record, reading an unknown
    auid finds none, and Elasticsearch serves the stored document), the run
    records three results, not four, and the report shows 3 tests, 3 passed,
    0 failed and 100.0: the read probe is never run.  In every world the
    step that should run it sends no request and records nothing, because
    the lookup that precedes it stops at the unbound name [ES_INDEX]. *)
Theorem read_probe_is_never_run :
  (forall env doc_id s,
     exists s',
       VerifyStartEsServer.get_data_step env doc_id s = (Ret tt, s')
       /\ VerifyStartEsServer.test_results (globals s')
          = VerifyStartEsServer.test_results (globals s)
       /\ weight is_get (trace s') = weight is_get (trace s))
  /\ (fst (VerifyStartEsServer.test_elasticsearch_connection all_ok_env
             initial_state) = Ret (JBool true)
      /\ fst (VerifyStartEsServer.test_store_data all_ok_env initial_state)
         = Ret (JStr "X")
      /\ fst (VerifyStartEsServer.test_get_data all_ok_env
                (JStr "test_a1B2c") initial_state)
         = Ret (JList [ JObj [ ("auid", JStr "test_a1B2c");
                               ("document_id", JStr "X") ] ])
      /\ fst (VerifyStartEsServer.test_invalid_auid all_ok_env initial_state)
         = Ret (JBool true))
  /\ let s' := snd (VerifyStartEsServer.run_verification all_ok_env
                      initial_state) in
     let results := VerifyStartEsServer.test_results (globals s') in
     fst (VerifyStartEsServer.run_verification all_ok_env initial_state)
     = Ret VerifyStartEsServer.Serving
     /\ map (fun r => (VerifyStartEsServer.name r,
                       VerifyStartEsServer.success r)) results
        = [ ("Elasticsearch Connection", true);
            ("Store Data", true);
            ("Invalid AUID", true) ]
     /\ lookup_file (files s') VerifyStartEsServer.REPORT_FILE
        = Some (fold_left
                  (fun acc r => acc ++ VerifyStartEsServer.html_row r)%string
                  results
                  (VerifyStartEsServer.html_summary "2024-01-01 00:00:23"
                     3 3 0 (inject_Z 100))
                ++ VerifyStartEsServer.html_close)%string.
Proof.
  split; [|split].
  - intros env doc_id s. rewrite get_data_step_eq.
    eexists. split; [reflexivity|].
    destruct doc_id; cbn [after trace globals]; split; try reflexivity.
    rewrite weight_app. simpl. lia.
  - split; [|split; [|split]]; vm_compute; reflexivity.
  - cbv zeta. split; [|split]; vm_compute; reflexivity.
Qed.

(** C5, on the code.  In the same world, [run_verification] writes the
    report and leaves [report_generated] false; the first request to the
    endpoint therefore writes it again, from the same results, and what it
    serves differs from what [run_verification] wrote (the two carry
    different generation dates).  Only from then on is the file served
    without being rewritten. *)
Theorem report_is_generated_twice :
  let s1 := snd (VerifyStartEsServer.run_verification all_ok_env
                   initial_state) in
  let once := VerifyStartEsServer.get_report all_ok_env s1 in
  let twice := VerifyStartEsServer.get_report all_ok_env (snd once) in
  VerifyStartEsServer.report_generated (globals s1) = false
  /\ VerifyStartEsServer.test_results (globals (snd once))
     = VerifyStartEsServer.test_results (globals s1)
  /\ (exists written served,
        lookup_file (files s1) VerifyStartEsServer.REPORT_FILE = Some written
        /\ fst once = Ret served
        /\ written <> served)
  /\ fst twice = fst once
  /\ weight is_write (trace s1) = 1%nat
  /\ weight is_write (trace (snd once)) = 2%nat
  /\ weight is_write (trace (snd twice)) = 2%nat.
Proof.
  intros s1 once twice.
  split; [vm_compute; reflexivity|].
  split; [vm_compute; reflexivity|].
  split.
  - eexists. eexists.
    split; [vm_compute; reflexivity|].
    split; [vm_compute; reflexivity|].
    apply String.eqb_neq. vm_compute. reflexivity.
  - split; [|split; [|split]]; vm_compute; reflexivity.
Qed.

(** * More of the two scripts *)

(** ** Relations a computation keeps between its start and end states *)

(** [m] relates every start state to the state it leaves. *)
Definition keeps {G A : Type} (R : State G -> State G -> Prop) (m : M G A)
  : Prop :=
  forall s, R s (snd (m s)).

(** The trace only grows. *)
Definition extends {G : Type} (s s' : State G) : Prop :=
  exists evs, trace s' = trace s ++ evs.

(** The module globals are untouched. *)
Definition same_globals {G : Type} (s s' : State G) : Prop :=
  globals s' = globals s.

(** The request [EvGet url []] was sent between [s] and [s'] and answered
    with status 200. *)
Definition saw_200 {G : Type} (env : Env) (url : string) (s s' : State G)
  : Prop :=
  exists pre r post,
    http_get env (trace s ++ pre) url [] = HttpReply r
    /\ status_code r = 200
    /\ trace s' = trace s ++ pre ++ EvGet url [] :: post.

Section Keeps.
Variables (G : Type) (R : State G -> State G -> Prop).
Hypothesis R_refl : forall s, R s s.
Hypothesis R_trans : forall a b c, R a b -> R b c -> R a c.
Hypothesis R_emit : forall ev s, R s (after ev s).

Lemma keeps_still (A : Type) (m : M G A) :
  (forall s, snd (m s) = s) -> keeps R m.
Proof. intros H s. rewrite H. apply R_refl. Qed.

Lemma keeps_ret (A : Type) (a : A) : keeps R (@ret G A a).
Proof. apply keeps_still. reflexivity. Qed.

Lemma keeps_raise (A : Type) (e : Exc) : keeps R (@raise G A e).
Proof. apply keeps_still. reflexivity. Qed.

Lemma keeps_lift_res (A : Type) (r : Res A) : keeps R (@lift_res G A r).
Proof. apply keeps_still. reflexivity. Qed.

Lemma keeps_get_trace : keeps R (@get_trace G).
Proof. apply keeps_still. reflexivity. Qed.

Lemma keeps_get_globals : keeps R (@get_globals G).
Proof. apply keeps_still. reflexivity. Qed.

Lemma keeps_emit (ev : Event) : keeps R (@emit G ev).
Proof. intros s. apply R_emit. Qed.

Lemma keeps_bind (A B : Type) (m : M G A) (k : A -> M G B) :
  keeps R m -> (forall x, keeps R (k x)) -> keeps R (bind m k).
Proof.
  intros Hm Hk s. rewrite bind_eq. specialize (Hm s).
  destruct (m s) as [[x|e|] s1]; cbn [snd] in *.
  - eapply R_trans; [exact Hm | apply Hk].
  - exact Hm.
  - exact Hm.
Qed.

Lemma keeps_try_except (A : Type) (m : M G A) (c : Exc -> bool)
    (h : Exc -> M G A) :
  keeps R m -> (forall e, keeps R (h e)) -> keeps R (try_except m c h).
Proof.
  intros Hm Hh s. rewrite try_except_eq. specialize (Hm s).
  destruct (m s) as [[x|e|] s1]; cbn [snd] in *.
  - exact Hm.
  - destruct (c e).
    + eapply R_trans; [exact Hm | apply Hh].
    + exact Hm.
  - exact Hm.
Qed.

Lemma keeps_for_range (A : Type) (body : M G (option A)) (n : nat) :
  keeps R body -> keeps R (for_range n body).
Proof.
  intros Hb. induction n as [|n IH]; cbn [for_range].
  - apply keeps_ret.
  - apply keeps_bind; [exact Hb|].
    intros [v|]; [apply keeps_ret | exact IH].
Qed.

Lemma keeps_if (A : Type) (c : bool) (m1 m2 : M G A) :
  keeps R m1 -> keeps R m2 -> keeps R (if c then m1 else m2).
Proof. intros H1 H2. destruct c; assumption. Qed.

Lemma keeps_match_option (A B : Type) (o : option A) (f : A -> M G B)
    (m : M G B) :
  (forall x, keeps R (f x)) -> keeps R m ->
  keeps R (match o with Some x => f x | None => m end).
Proof. intros Hf Hm. destruct o; [apply Hf | exact Hm]. Qed.

Variable env : Env.

Lemma keeps_requests_get (url : string) (params : list (string * Json)) :
  keeps R (@requests_get env G url params).
Proof. intros s. rewrite requests_get_eq. apply R_emit. Qed.

Lemma keeps_py_time : keeps R (@py_time env G).
Proof. intros s. apply R_emit. Qed.

Lemma keeps_now_string : keeps R (@now_string env G).
Proof. intros s. apply R_emit. Qed.

Lemma keeps_os_path_exists (path : string) :
  keeps R (@os_path_exists env G path).
Proof. intros s. apply R_emit. Qed.

Lemma keeps_subprocess_run (argv : list string) :
  keeps R (@subprocess_run env G argv).
Proof.
  intros s. unfold subprocess_run, bind, get_trace, emit. cbn [fst snd].
  destruct (run_cmd env (trace s) argv); apply R_emit.
Qed.

Lemma keeps_os_getpgid (p : nat) : keeps R (@os_getpgid env G p).
Proof. intros s. rewrite os_getpgid_eq. apply R_emit. Qed.

Lemma keeps_os_killpg (pgid : nat) (sig : string) :
  keeps R (@os_killpg env G pgid sig).
Proof. intros s. rewrite os_killpg_eq. apply R_emit. Qed.

Lemma keeps_read_file (path : string) : keeps R (@read_file G path).
Proof.
  intros s. unfold read_file. rewrite bind_eq, emit_eq.
  destruct (lookup_file (files (after (EvRead path) s)) path); apply R_emit.
Qed.

(** Launching a child, for a relation that does not look at the children. *)
Lemma keeps_subprocess_Popen (argv : list string) :
  (forall s child,
     R s (mkState (trace s ++ [EvPopen argv]) (files s) (child :: children s)
            (globals s))) ->
  keeps R (@subprocess_Popen env G argv).
Proof.
  intros Hc s. rewrite subprocess_Popen_eq.
  destruct (spawn env (trace s) argv); [apply R_emit | apply Hc].
Qed.

End Keeps.

Lemma extends_refl (G : Type) (s : State G) : extends s s.
Proof. exists []. symmetry. apply app_nil_r. Qed.

Lemma extends_trans (G : Type) (a b c : State G) :
  extends a b -> extends b c -> extends a c.
Proof.
  intros (e1 & H1) (e2 & H2). exists (e1 ++ e2).
  rewrite H2, H1, app_assoc. reflexivity.
Qed.

Lemma extends_emit (G : Type) (ev : Event) (s : State G) :
  extends s (after ev s).
Proof. exists [ev]. reflexivity. Qed.

Lemma same_globals_refl (G : Type) (s : State G) : same_globals s s.
Proof. reflexivity. Qed.

Lemma same_globals_trans (G : Type) (a b c : State G) :
  same_globals a b -> same_globals b c -> same_globals a c.
Proof. unfold same_globals. intros H1 H2. rewrite H2. exact H1. Qed.

Lemma same_globals_emit (G : Type) (ev : Event) (s : State G) :
  same_globals s (after ev s).
Proof. reflexivity. Qed.

(** One structural step of a derivation of [keeps R m], from the three
    facts about [R]. *)
Ltac keeps_step Rr Rt Re :=
  lazymatch goal with
  | |- keeps _ (bind _ _) => apply (@keeps_bind _ _ Rt); [ | intros ]
  | |- keeps _ (try_except _ _ _) =>
      apply (@keeps_try_except _ _ Rt); [ | intros ]
  | |- keeps _ (for_range _ _) => apply (@keeps_for_range _ _ Rr Rt)
  | |- keeps _ (match _ with Some _ => _ | None => _ end) =>
      apply keeps_match_option; [ intros | ]
  | |- keeps _ (if _ then _ else _) => apply keeps_if
  | |- keeps _ (ret _) => apply (@keeps_ret _ _ Rr)
  | |- keeps _ (raise _) => apply (@keeps_raise _ _ Rr)
  | |- keeps _ (lift_res _) => apply (@keeps_lift_res _ _ Rr)
  | |- keeps _ get_trace => apply (@keeps_get_trace _ _ Rr)
  | |- keeps _ get_globals => apply (@keeps_get_globals _ _ Rr)
  | |- keeps _ (emit _) => apply (@keeps_emit _ _ Re)
  | |- keeps _ (time_sleep _) => apply (@keeps_emit _ _ Re)
  | |- keeps _ (logger_info _) => apply (@keeps_emit _ _ Re)
  | |- keeps _ (logger_error _) => apply (@keeps_emit _ _ Re)
  | |- keeps _ (os_killpg _ _ _) => apply (@keeps_os_killpg _ _ Re)
  | |- keeps _ (requests_get _ _ _) => apply (@keeps_requests_get _ _ Re)
  | |- keeps _ (py_time _) => apply (@keeps_py_time _ _ Re)
  | |- keeps _ (now_string _) => apply (@keeps_now_string _ _ Re)
  | |- keeps _ (os_path_exists _ _) => apply (@keeps_os_path_exists _ _ Re)
  | |- keeps _ (subprocess_run _ _) => apply (@keeps_subprocess_run _ _ Re)
  | |- keeps _ (os_getpgid _ _) => apply (@keeps_os_getpgid _ _ Re)
  | |- keeps _ (read_file _) => apply (@keeps_read_file _ _ Re)
  | |- keeps _ (subprocess_Popen _ _) =>
      apply (@keeps_subprocess_Popen _ _ Re); intros
  end.

Lemma keeps_set_globals (G : Type) (R : State G -> State G -> Prop) (g : G) :
  (forall s, R s (mkState (trace s) (files s) (children s) g)) ->
  keeps R (set_globals g).
Proof. intros H s. apply H. Qed.

Lemma keeps_result (G A : Type) (R : State G -> State G -> Prop) (m : M G A)
    (s s' : State G) (r : Res A) :
  keeps R m -> m s = (r, s') -> R s s'.
Proof. intros Hk Hm. specialize (Hk s). rewrite Hm in Hk. exact Hk. Qed.

(** A sequence that returns: its first part returned too. *)
Lemma bind_ret_inv (G A B : Type) (m : M G A) (k : A -> M G B)
    (s s' : State G) (b : B) :
  bind m k s = (Ret b, s') ->
  exists a s1, m s = (Ret a, s1) /\ k a s1 = (Ret b, s').
Proof.
  rewrite bind_eq. destruct (m s) as [[a|e|] s1]; intros H.
  - exists a, s1. split; [reflexivity | exact H].
  - discriminate H.
  - discriminate H.
Qed.

Lemma saw_200_later (G : Type) (env : Env) (url : string)
    (s s1 s2 : State G) :
  extends s s1 -> saw_200 env url s1 s2 -> saw_200 env url s s2.
Proof.
  intros (e1 & H1) (pre & r & post & Hget & Hst & Ht).
  exists (e1 ++ pre), r, post.
  rewrite H1 in Hget, Ht. rewrite <- app_assoc in Hget, Ht.
  rewrite <- app_assoc. auto.
Qed.

Lemma saw_200_earlier (G : Type) (env : Env) (url : string)
    (s s1 s2 : State G) :
  saw_200 env url s s1 -> extends s1 s2 -> saw_200 env url s s2.
Proof.
  intros (pre & r & post & Hget & Hst & Ht) (e2 & H2).
  exists pre, r, (post ++ e2).
  rewrite H2, Ht. rewrite <- !app_assoc. auto.
Qed.

(** A loop that returns a value got it from one round of its body; what
    holds of that round holds of the loop, as long as it survives earlier
    rounds. *)
Lemma for_range_returned (G A : Type) (P : State G -> State G -> Prop)
    (body : M G (option A)) :
  keeps extends body ->
  (forall s s1 s2, extends s s1 -> P s1 s2 -> P s s2) ->
  (forall s v s', body s = (Ret (Some v), s') -> P s s') ->
  forall n s v s', for_range n body s = (Ret (Some v), s') -> P s s'.
Proof.
  intros Hext Hlater Hbody n.
  induction n as [|n IH]; intros s v s' H; cbn [for_range] in H.
  - discriminate H.
  - apply bind_ret_inv in H as (r & s1 & Hb & H).
    destruct r as [v1|].
    + injection H as <- <-. eapply Hbody. exact Hb.
    + apply (Hlater s s1 s').
      * exact (@keeps_result _ _ _ _ s s1 _ Hext Hb).
      * eapply IH. exact H.
Qed.

Section Readiness.
Import StartEsServer.
Variable env : Env.

Lemma probe_200_extends (url msg : string) :
  keeps extends (probe_200 env url msg).
Proof.
  unfold probe_200.
  repeat keeps_step (@extends_refl Globals) (@extends_trans Globals)
                    (@extends_emit Globals).
Qed.

Lemma poll_once_extends (url msg : string) :
  keeps extends (poll_once env url msg).
Proof.
  unfold poll_once, probe_200.
  repeat keeps_step (@extends_refl Globals) (@extends_trans Globals)
                    (@extends_emit Globals).
Qed.

Lemma download_elasticsearch_extends :
  keeps extends (download_elasticsearch env).
Proof.
  unfold download_elasticsearch.
  repeat keeps_step (@extends_refl Globals) (@extends_trans Globals)
                    (@extends_emit Globals).
Qed.

Lemma download_kibana_extends : keeps extends (download_kibana env).
Proof.
  unfold download_kibana.
  repeat keeps_step (@extends_refl Globals) (@extends_trans Globals)
                    (@extends_emit Globals).
Qed.

Lemma subprocess_Popen_extends (argv : list string) :
  keeps extends (@subprocess_Popen env Globals argv).
Proof.
  apply (@keeps_subprocess_Popen _ _ (@extends_emit Globals)).
  intros s child. exists [EvPopen argv]. reflexivity.
Qed.

(** The probe answers "ready" only on a 200. *)
Lemma probe_200_ready (url msg : string) (s s' : State Globals) (u : unit) :
  probe_200 env url msg s = (Ret (Some u), s') -> saw_200 env url s s'.
Proof.
  unfold probe_200. rewrite try_except_eq, bind_eq, requests_get_eq.
  destruct (http_get env (trace s) url []) as [r|e] eqn:Hget.
  - destruct (status_code r =? 200) eqn:Hst.
    + rewrite bind_eq. unfold logger_info. rewrite emit_eq.
      intros H. injection H as _ <-.
      exists [], r, [EvLog INFO msg].
      rewrite app_nil_r. apply Z.eqb_eq in Hst.
      repeat split; [exact Hget | exact Hst |].
      cbn [after trace app]. rewrite <- app_assoc. reflexivity.
    + intros H. discriminate H.
  - destruct (is_ConnectionError e); intros H; discriminate H.
Qed.

Lemma poll_once_ready (url msg : string) (s s' : State Globals) (u : unit) :
  poll_once env url msg s = (Ret (Some u), s') -> saw_200 env url s s'.
Proof.
  unfold poll_once. intros H.
  apply bind_ret_inv in H as (r & s1 & Hp & H).
  destruct r as [v|].
  - injection H as <- <-. eapply probe_200_ready. exact Hp.
  - rewrite bind_eq in H. discriminate H.
Qed.

Lemma polling_ready (url msg : string) (n : nat) (s s' : State Globals)
    (u : unit) :
  for_range n (poll_once env url msg) s = (Ret (Some u), s') ->
  saw_200 env url s s'.
Proof.
  apply (@for_range_returned Globals unit (saw_200 env url)).
  - apply poll_once_extends.
  - intros a b c. apply saw_200_later.
  - intros a v b. apply poll_once_ready.
Qed.

End Readiness.

Section ReadinessOfServices.
Import StartEsServer.
Variable env : Env.

Lemma start_elasticsearch_ready (s s' : State Globals) :
  start_elasticsearch env s = (Ret tt, s') ->
  saw_200 env (localhost ES_PORT) s s'.
Proof.
  unfold start_elasticsearch. intros H.
  apply bind_ret_inv in H as (present & s1 & H1 & H).
  apply bind_ret_inv in H as (u & s2 & H2 & H).
  apply bind_ret_inv in H as (running & s3 & H3 & H).
  assert (E12 : extends s s2).
  { apply (@extends_trans _ s s1 s2).
    - exact (@keeps_result _ _ _ _ s s1 _
               (@keeps_os_path_exists _ _ (@extends_emit Globals) env ES_DIR) H1).
    - destruct (negb present).
      + exact (@keeps_result _ _ _ _ s1 s2 _ (download_elasticsearch_extends env) H2).
      + injection H2 as _ <-. apply extends_refl. }
  destruct running as [v|].
  - injection H as <-.
    apply (saw_200_later E12). eapply probe_200_ready. exact H3.
  - assert (E23 : extends s2 s3)
      by exact (@keeps_result _ _ _ _ s2 s3 _ (probe_200_extends env _ _) H3).
    apply bind_ret_inv in H as (u1 & s4 & H4 & H).
    apply bind_ret_inv in H as (child & s5 & H5 & H).
    cbv zeta in H.
    apply bind_ret_inv in H as (started & s6 & H6 & H).
    destruct started as [v|].
    + injection H as <-.
      apply (saw_200_later E12). apply (saw_200_later E23).
      apply (@saw_200_later _ env _ s3 s4 s6).
      { exact (@keeps_result _ _ _ _ s3 s4 _
                 (@keeps_emit _ _ (@extends_emit Globals) _) H4). }
      apply (@saw_200_later _ env _ s4 s5 s6).
      { exact (@keeps_result _ _ _ _ s4 s5 _ (subprocess_Popen_extends env _) H5). }
      eapply polling_ready. exact H6.
    + rewrite bind_eq in H. discriminate H.
Qed.

Lemma start_kibana_ready (s s' : State Globals) :
  start_kibana env s = (Ret tt, s') ->
  saw_200 env (localhost KIBANA_PORT) s s'.
Proof.
  unfold start_kibana. intros H.
  apply bind_ret_inv in H as (present & s1 & H1 & H).
  apply bind_ret_inv in H as (u & s2 & H2 & H).
  apply bind_ret_inv in H as (running & s3 & H3 & H).
  assert (E12 : extends s s2).
  { apply (@extends_trans _ s s1 s2).
    - exact (@keeps_result _ _ _ _ s s1 _
               (@keeps_os_path_exists _ _ (@extends_emit Globals) env KIBANA_DIR) H1).
    - destruct (negb present).
      + exact (@keeps_result _ _ _ _ s1 s2 _ (download_kibana_extends env) H2).
      + injection H2 as _ <-. apply extends_refl. }
  destruct running as [v|].
  - injection H as <-.
    apply (saw_200_later E12). eapply probe_200_ready. exact H3.
  - assert (E23 : extends s2 s3)
      by exact (@keeps_result _ _ _ _ s2 s3 _ (probe_200_extends env _ _) H3).
    apply bind_ret_inv in H as (u1 & s4 & H4 & H).
    apply bind_ret_inv in H as (child & s5 & H5 & H).
    cbv zeta in H.
    apply bind_ret_inv in H as (started & s6 & H6 & H).
    destruct started as [v|].
    + injection H as <-.
      apply (saw_200_later E12). apply (saw_200_later E23).
      apply (@saw_200_later _ env _ s3 s4 s6).
      { exact (@keeps_result _ _ _ _ s3 s4 _
                 (@keeps_emit _ _ (@extends_emit Globals) _) H4). }
      apply (@saw_200_later _ env _ s4 s5 s6).
      { exact (@keeps_result _ _ _ _ s4 s5 _ (subprocess_Popen_extends env _) H5). }
      eapply polling_ready. exact H6.
    + rewrite bind_eq in H. discriminate H.
Qed.

End ReadinessOfServices.

Section StartupSucceeds.
Import StartEsServer.
Variable env : Env.

Lemma start_kibana_same_globals : keeps same_globals (start_kibana env).
Proof.
  unfold start_kibana, download_kibana, poll_once, probe_200.
  repeat keeps_step (@same_globals_refl Globals) (@same_globals_trans Globals)
                    (@same_globals_emit Globals);
    reflexivity.
Qed.

Lemma start_elasticsearch_extends : keeps extends (start_elasticsearch env).
Proof.
  unfold start_elasticsearch, download_elasticsearch, poll_once, probe_200.
  repeat keeps_step (@extends_refl Globals) (@extends_trans Globals)
                    (@extends_emit Globals).
  exists [EvPopen [ES_DIR ++ "/bin/elasticsearch"]%string]. reflexivity.
Qed.

(** The index setup binds the client before anything can fail. *)
Ltac finish_setup :=
  unfold raise, ret, bind, logger_info, emit, after, extends;
  cbn [fst snd trace globals es_client];
  split; [reflexivity|]; eexists; rewrite <- ?app_assoc; reflexivity.

Lemma setup_elasticsearch_index_binds_client (s : State Globals) :
  es_client (globals (snd (setup_elasticsearch_index env s)))
  = Some ("https://localhost:" ++ str_int ES_PORT)%string
  /\ extends s (snd (setup_elasticsearch_index env s)).
Proof.
  unfold setup_elasticsearch_index. cbv zeta.
  rewrite bind_eq, emit_eq, bind_eq. cbn [set_globals].
  rewrite bind_eq. cbn [get_trace]. rewrite bind_eq, emit_eq.
  rewrite bind_eq.
  match goal with
  | |- context [es_indices_exists env ?h ?i] =>
      destruct (es_indices_exists env h i) as [e|present]
  end.
  - finish_setup.
  - cbn [ret]. destruct present; cbn [negb].
    + finish_setup.
    + rewrite bind_eq. cbn [get_trace]. rewrite bind_eq, emit_eq, bind_eq.
      match goal with
      | |- context [es_indices_create env ?h ?i] =>
          destruct (es_indices_create env h i) as [e|]
      end.
      * finish_setup.
      * finish_setup.
Qed.

End StartupSucceeds.

(** X1.  The startup hook returns only after both services have shown the
    success signal, in order: a request to Elasticsearch was answered 200
    before [start_elasticsearch] returned, a request to Kibana was answered
    200 after that, and the Elasticsearch client is bound when the hook
    returns. *)
Theorem startup_returns_only_after_both_are_ready
    (env : Env) (s s' : State StartEsServer.Globals) :
  StartEsServer.startup_event env s = (Ret tt, s') ->
  exists s1 s2,
    StartEsServer.start_elasticsearch env s = (Ret tt, s1)
    /\ saw_200 env (StartEsServer.localhost StartEsServer.ES_PORT) s s1
    /\ extends s1 s2
    /\ saw_200 env (StartEsServer.localhost StartEsServer.KIBANA_PORT) s2 s'
    /\ StartEsServer.es_client (globals s') = Some "https://localhost:9200".
Proof.
  unfold StartEsServer.startup_event. intros H.
  apply bind_ret_inv in H as ([] & s1 & H1 & H).
  apply bind_ret_inv in H as ([] & s2 & H2 & H).
  exists s1, s2.
  split; [exact H1|].
  split; [apply start_elasticsearch_ready; exact H1|].
  destruct (setup_elasticsearch_index_binds_client env s1) as [Hc He].
  rewrite H2 in Hc, He. cbn [snd] in Hc, He.
  split; [exact He|].
  split; [apply start_kibana_ready; exact H|].
  rewrite (@keeps_result _ _ _ _ s2 s' _ (start_kibana_same_globals env) H).
  exact Hc.
Qed.

(** Where both services are already up, the hook returns. *)
Lemma startup_in_working_world :
  StartEsServer.startup_event all_ok_env server_initial_state
  = (Ret tt, snd (StartEsServer.startup_event all_ok_env server_initial_state))
  /\ StartEsServer.es_client
       (globals (snd (StartEsServer.startup_event all_ok_env
                        server_initial_state)))
     = Some "https://localhost:9200".
Proof.
  assert (H : StartEsServer.startup_event all_ok_env server_initial_state
              = (Ret tt, snd (StartEsServer.startup_event all_ok_env
                                server_initial_state)))
    by (vm_compute; reflexivity).
  split; [exact H|].
  destruct (startup_returns_only_after_both_are_ready _ _ H)
    as (s1 & s2 & _ & _ & _ & _ & Hc).
  exact Hc.
Defined.

(** Between [s] and [s'], the last three things that happened were a
    request to Elasticsearch answered 200, a request to the API answered
    200, and the log line that announces both. *)
Definition saw_both_200 (env : Env)
    (s s' : State VerifyStartEsServer.Globals) : Prop :=
  exists pre r1 r2,
    http_get env (trace s ++ pre) "http://localhost:9200" [] = HttpReply r1
    /\ status_code r1 = 200
    /\ http_get env (trace s ++ pre ++ [EvGet "http://localhost:9200" []])
         "http://localhost:8000/docs" [] = HttpReply r2
    /\ status_code r2 = 200
    /\ trace s'
       = trace s ++ pre
         ++ [EvGet "http://localhost:9200" [];
             EvGet "http://localhost:8000/docs" [];
             EvLog INFO
               "Elasticsearch and FastAPI servers started successfully"].

Section VerifyReadiness.
Import VerifyStartEsServer.
Variable env : Env.

Lemma saw_both_200_later (s s1 s2 : State Globals) :
  extends s s1 -> saw_both_200 env s1 s2 -> saw_both_200 env s s2.
Proof.
  intros (e1 & H1) (pre & r1 & r2 & Hg1 & Hs1 & Hg2 & Hs2 & Ht).
  exists (e1 ++ pre), r1, r2.
  rewrite H1 in Hg1, Hg2, Ht. rewrite <- !app_assoc in *.
  auto.
Qed.

Lemma start_es_server_attempt_extends :
  keeps extends (start_es_server_attempt env).
Proof.
  unfold start_es_server_attempt.
  repeat keeps_step (@extends_refl Globals) (@extends_trans Globals)
                    (@extends_emit Globals).
Qed.

Lemma start_es_server_attempt_ready (s s' : State Globals) (v : bool) :
  start_es_server_attempt env s = (Ret (Some v), s') -> saw_both_200 env s s'.
Proof.
  unfold start_es_server_attempt. intros H.
  apply bind_ret_inv in H as (r & s1 & Ht & H).
  destruct r as [v1|]; [|rewrite bind_eq in H; discriminate H].
  injection H as _ <-.
  rewrite try_except_eq, bind_eq, requests_get_eq in Ht.
  change (localhost ES_SERVER_PORT) with "http://localhost:9200" in Ht.
  destruct (http_get env (trace s) "http://localhost:9200" []) as [r1|e]
    eqn:Hg1.
  - destruct (status_code r1 =? 200) eqn:Hs1; [|discriminate Ht].
    rewrite bind_eq, requests_get_eq in Ht.
    change (localhost FASTAPI_PORT ++ "/docs")%string
      with "http://localhost:8000/docs" in Ht.
    cbn [after trace] in Ht.
    destruct (http_get env (trace s ++ [EvGet "http://localhost:9200" []])
                "http://localhost:8000/docs" []) as [r2|e] eqn:Hg2.
    + destruct (status_code r2 =? 200) eqn:Hs2; [|discriminate Ht].
      rewrite bind_eq in Ht. unfold logger_info in Ht. rewrite emit_eq in Ht.
      injection Ht as _ <-.
      exists [], r1, r2. rewrite app_nil_r. cbn [app].
      apply Z.eqb_eq in Hs1, Hs2.
      repeat split; try assumption.
      unfold after. cbn [trace]. rewrite <- !app_assoc. reflexivity.
    + destruct (is_ConnectionError e); discriminate Ht.
  - destruct (is_ConnectionError e); discriminate Ht.
Qed.

End VerifyReadiness.

(** X2.  [start_es_server] answers [True] only when, in one and the same
    attempt, Elasticsearch and then the API answered 200; it returns right
    after logging that, without a further request or sleep. *)
Theorem start_es_server_true_only_after_both_200
    (env : Env) (s s' : State VerifyStartEsServer.Globals) :
  VerifyStartEsServer.start_es_server env s = (Ret true, s') ->
  saw_both_200 env s s'.
Proof.
  unfold VerifyStartEsServer.start_es_server. cbv zeta. intros H.
  apply bind_ret_inv in H as (child & s1 & H1 & H).
  apply bind_ret_inv in H as (u & s2 & H2 & H).
  apply bind_ret_inv in H as (started & s3 & H3 & H).
  assert (E1 : extends s s1).
  { rewrite subprocess_Popen_eq in H1.
    destruct (spawn env (trace s) _); [discriminate H1|].
    injection H1 as _ <-. eexists. reflexivity. }
  assert (E2 : extends s1 s2).
  { unfold VerifyStartEsServer.set_es_server_process in H2.
    rewrite bind_eq in H2. cbn in H2. injection H2 as _ <-.
    exists []. cbn [trace]. symmetry. apply app_nil_r. }
  destruct started as [v|].
  - injection H as -> <-.
    apply (saw_both_200_later E1). apply (saw_both_200_later E2).
    revert H3.
    apply (@for_range_returned _ bool (saw_both_200 env)).
    + apply start_es_server_attempt_extends.
    + intros a b c. apply saw_both_200_later.
    + intros a v b. apply start_es_server_attempt_ready.
  - rewrite bind_eq in H. discriminate H.
Qed.

(** In the world where everything works the first attempt succeeds. *)
Lemma start_es_server_in_working_world :
  VerifyStartEsServer.start_es_server all_ok_env initial_state
  = (Ret true, launched_state all_ok_env)
  /\ saw_both_200 all_ok_env initial_state (launched_state all_ok_env).
Proof.
  assert (H : VerifyStartEsServer.start_es_server all_ok_env initial_state
              = (Ret true, launched_state all_ok_env))
    by (vm_compute; reflexivity).
  split; [exact H|].
  exact (start_es_server_true_only_after_both_200 _ _ H).
Defined.

(** ** What a run costs *)

Definition is_launch (ev : Event) : nat :=
  match ev with EvPopen _ => 1%nat | _ => 0%nat end.

(** A launch of anything but the commands in [allowed]. *)
Definition is_launch_outside (allowed : list (list string)) (ev : Event)
  : nat :=
  match ev with
  | EvPopen argv =>
      if existsb (fun a => if list_eq_dec string_dec a argv then true else false)
           allowed
      then 0%nat else 1%nat
  | _ => 0%nat
  end.

(** A signal other than SIGTERM. *)
Definition is_other_signal (ev : Event) : nat :=
  match ev with
  | EvKillpg _ sig => if String.eqb sig "SIGTERM" then 0%nat else 1%nat
  | _ => 0%nat
  end.

(** A weight that ignores the clock, the calendar and the log. *)
Definition quiet (w : Event -> nat) : Prop :=
  w EvTime = 0%nat /\ w EvNow = 0%nat /\ forall l m, w (EvLog l m) = 0%nat.

Lemma costs_weight (G A : Type) (w : Event -> nat) (n : nat) (m : M G A)
    (s : State G) (evs : list Event) :
  costs w n m -> trace (snd (m s)) = trace s ++ evs ->
  (weight w evs <= n)%nat.
Proof.
  intros Hc Ht. destruct (Hc s) as (evs' & Ht' & Hw).
  rewrite Ht in Ht'. apply app_inv_head in Ht'. subst evs'. exact Hw.
Qed.

Section VerifyCosts.
Import VerifyStartEsServer.
Variables (env : Env) (w : Event -> nat).
Hypothesis w_quiet : quiet w.

Lemma costs_run_test (A : Type) (test_name : string) (test_func : Py A)
    (a : nat) :
  costs w a test_func -> costs w a (run_test env test_name test_func).
Proof.
  destruct w_quiet as (Ht & Hn & Hl).
  intros Hp s. rewrite run_test_eq.
  destruct (Hp (call_state s)) as (evs & Hev & Hw).
  destruct (test_func (call_state s)) as [[v|e|] s1]; cbn [snd] in Hev.
  - eexists ([EvTime] ++ evs ++ [EvTime; EvNow; EvLog INFO _]).
    unfold recorded. cbn [snd trace]. rewrite Hev.
    unfold call_state, after. cbn [trace].
    rewrite <- !app_assoc. split; [reflexivity|].
    rewrite !weight_app. cbn [weight]. rewrite Ht, Hn, Hl. lia.
  - destruct (is_Exception e).
    + eexists ([EvTime] ++ evs ++ [EvTime; EvNow; EvLog INFO _]).
      unfold recorded. cbn [snd trace]. rewrite Hev.
      unfold call_state, after. cbn [trace].
      rewrite <- !app_assoc. split; [reflexivity|].
      rewrite !weight_app. cbn [weight]. rewrite Ht, Hn, Hl. lia.
    + exists ([EvTime] ++ evs). cbn [snd]. rewrite Hev.
      unfold call_state, after. cbn [trace].
      rewrite <- !app_assoc. split; [reflexivity|].
      rewrite !weight_app. cbn [weight]. rewrite Ht. lia.
  - exists ([EvTime] ++ evs). cbn [snd]. rewrite Hev.
    unfold call_state, after. cbn [trace].
    rewrite <- !app_assoc. split; [reflexivity|].
    rewrite !weight_app. cbn [weight]. rewrite Ht. lia.
Qed.

Lemma costs_get_data_step (doc_id : bool) :
  costs w 0 (get_data_step env doc_id).
Proof.
  destruct w_quiet as (_ & _ & Hl).
  intros s. rewrite get_data_step_eq. destruct doc_id; cbn [snd].
  - eexists [_]. split; [reflexivity|]. cbn [weight]. rewrite Hl. lia.
  - exists []. rewrite app_nil_r. split; [reflexivity | simpl; lia].
Qed.

Lemma costs_Popen_wait (p : Popen) (timeout : Z) :
  costs w (w (EvWait (pid p) timeout)) (Popen_wait env p timeout).
Proof.
  unfold Popen_wait. apply costs_effect. intros h s.
  destruct (returncode p); [reflexivity|].
  destruct (child_exit env h (pid p) timeout); reflexivity.
Qed.

(** [run_verification] from its two parts. *)
Lemma costs_run_verification (a b : nat) :
  costs w a (run_verification_try env) ->
  costs w b (stop_es_server env) ->
  costs w (a + b) (run_verification env).
Proof.
  destruct w_quiet as (_ & _ & Hl).
  intros Ha Hb s. unfold run_verification.
  destruct (Ha s) as (evs & Hev & Hw).
  destruct (run_verification_try env s) as [[out|e|] s1]; cbn [snd] in Hev.
  - assert (Hstop : exists evs2,
               trace (snd ((stop_es_server env ;; ret out) s1))
               = trace s1 ++ evs2 /\ (weight w evs2 <= b)%nat).
    { rewrite bind_eq. destruct (Hb s1) as (evs2 & He2 & Hw2).
      exists evs2. destruct (stop_es_server env s1) as [[u|e|] s2];
        cbn [snd] in *; auto. }
    destruct out.
    + destruct Hstop as (evs2 & He2 & Hw2).
      exists (evs ++ evs2). rewrite He2, Hev, app_assoc, weight_app.
      split; [reflexivity | lia].
    + destruct Hstop as (evs2 & He2 & Hw2).
      exists (evs ++ evs2). rewrite He2, Hev, app_assoc, weight_app.
      split; [reflexivity | lia].
    + exists evs. cbn [snd]. split; [exact Hev | lia].
  - rewrite bind_eq.
    assert (Hlog : exists ev,
               (if is_KeyboardInterrupt e
                then logger_info "Verification interrupted by user"
                else logger_error ("Verification failed: " ++ exc_str e)) s1
               = (Ret tt, after ev s1) /\ w ev = 0%nat).
    { destruct (is_KeyboardInterrupt e); eexists; split;
        try reflexivity; apply Hl. }
    destruct Hlog as (ev & -> & Hev0).
    rewrite bind_eq. destruct (Hb (after ev s1)) as (evs2 & He2 & Hw2).
    exists (evs ++ [ev] ++ evs2).
    destruct (stop_es_server env (after ev s1)) as [[u|e2|] s2];
      cbn [snd ret] in *; rewrite He2; cbn [after trace]; rewrite Hev;
      rewrite <- !app_assoc; (split; [reflexivity|]);
      rewrite !weight_app; cbn [weight]; rewrite Hev0; lia.
  - exists evs. cbn [snd]. split; [exact Hev | lia].
Qed.

End VerifyCosts.

(** A structural step that also knows the functions of the verification
    script. *)
Ltac costs_verify_step :=
  lazymatch goal with
  | |- costs _ _ (VerifyStartEsServer.run_test _ _ _) =>
      eapply costs_run_test;
      [ repeat split; intros; reflexivity | ]
  | |- costs _ _ (VerifyStartEsServer.get_data_step _ _) =>
      eapply costs_get_data_step; repeat split; intros; reflexivity
  | |- costs _ _ (VerifyStartEsServer.Popen_wait _ _ _) =>
      costs_effect_with costs_Popen_wait
  | |- costs _ _ (VerifyStartEsServer.generate_random_string _ _) =>
      unfold VerifyStartEsServer.generate_random_string
  | |- costs _ _ (VerifyStartEsServer.py_Exception _) =>
      unfold VerifyStartEsServer.py_Exception
  | |- costs _ _ (VerifyStartEsServer.set_es_server_process _) =>
      unfold VerifyStartEsServer.set_es_server_process
  | |- _ => costs_step
  end.

Ltac costs_verify :=
  unfold VerifyStartEsServer.run_verification_try,
    VerifyStartEsServer.run_verification_tests,
    VerifyStartEsServer.start_es_server,
    VerifyStartEsServer.start_es_server_attempt,
    VerifyStartEsServer.stop_es_server,
    VerifyStartEsServer.generate_html_report,
    VerifyStartEsServer.test_elasticsearch_connection,
    VerifyStartEsServer.test_store_data,
    VerifyStartEsServer.test_invalid_auid;
  eapply costs_weaken; [ repeat costs_verify_step | cbv; lia ].

Section VerifyBudget.
Import VerifyStartEsServer.
Variable env : Env.

Lemma run_verification_try_requests :
  costs is_get 63 (run_verification_try env).
Proof. costs_verify. Qed.

Lemma run_verification_try_sleeps :
  costs is_sleep 30 (run_verification_try env).
Proof. costs_verify. Qed.

Lemma run_verification_try_launches :
  costs is_launch 1 (run_verification_try env).
Proof. costs_verify. Qed.

Lemma run_verification_try_signals :
  costs is_signal 0 (run_verification_try env).
Proof. costs_verify. Qed.

Lemma run_verification_try_writes :
  costs is_write 1 (run_verification_try env).
Proof. costs_verify. Qed.

Lemma stop_es_server_requests : costs is_get 0 (stop_es_server env).
Proof. costs_verify. Qed.

Lemma stop_es_server_sleeps : costs is_sleep 0 (stop_es_server env).
Proof. costs_verify. Qed.

Lemma stop_es_server_launches : costs is_launch 0 (stop_es_server env).
Proof. costs_verify. Qed.

Lemma stop_es_server_signals : costs is_signal 1 (stop_es_server env).
Proof. costs_verify. Qed.

Lemma stop_es_server_other_signals :
  costs is_other_signal 0 (stop_es_server env).
Proof. costs_verify. Qed.

Lemma stop_es_server_writes : costs is_write 0 (stop_es_server env).
Proof. costs_verify. Qed.

Lemma run_verification_try_other_signals :
  costs is_other_signal 0 (run_verification_try env).
Proof. costs_verify. Qed.

End VerifyBudget.

Lemma quiet_by_cases (w : Event -> nat) :
  w EvTime = 0%nat -> w EvNow = 0%nat ->
  (forall l m, w (EvLog l m) = 0%nat) -> quiet w.
Proof. intros H1 H2 H3. repeat split; assumption. Qed.


Section StartupBudget.
Import StartEsServer.
Variable env : Env.

Definition is_run (ev : Event) : nat :=
  match ev with EvRun _ => 1%nat | _ => 0%nat end.

(** Calls on the Elasticsearch client that address the server:
    [indices.exists] and [indices.create].  Constructing the client sends
    nothing. *)
Definition is_client_call (ev : Event) : nat :=
  match ev with
  | EvEsIndexExists _ | EvEsIndexCreate _ => 1%nat
  | _ => 0%nat
  end.

Definition service_binaries : list (list string) :=
  [ [ES_DIR ++ "/bin/elasticsearch"]%string;
    [KIBANA_DIR ++ "/bin/kibana"]%string ].

Ltac costs_startup :=
  unfold startup_event, start_elasticsearch, start_kibana,
    download_elasticsearch, download_kibana, poll_once, probe_200;
  eapply costs_weaken; [ repeat costs_step | cbv; lia ].

Lemma costs_setup_elasticsearch_index (w : Event -> nat) :
  costs w (w (EvEsConnect ("https://localhost:" ++ str_int ES_PORT))
           + w (EvEsIndexExists ES_INDEX) + w (EvEsIndexCreate ES_INDEX)
           + w (EvLog INFO ("Created Elasticsearch index: " ++ ES_INDEX)))
    (setup_elasticsearch_index env).
Proof.
  intros s. unfold setup_elasticsearch_index. cbv zeta.
  rewrite bind_eq, emit_eq, bind_eq. cbn [set_globals].
  rewrite bind_eq. cbn [get_trace]. rewrite bind_eq, emit_eq, bind_eq.
  match goal with
  | |- context [es_indices_exists env ?h ?i] =>
      destruct (es_indices_exists env h i) as [e|present]
  end.
  - eexists [_; _]. unfold raise, after. cbn [snd trace].
    rewrite <- !app_assoc. split; [reflexivity|]. cbn [weight]. lia.
  - cbn [ret]. destruct present; cbn [negb].
    + eexists [_; _]. unfold ret, after. cbn [snd trace].
      rewrite <- !app_assoc. split; [reflexivity|]. cbn [weight]. lia.
    + rewrite bind_eq. cbn [get_trace]. rewrite bind_eq, emit_eq, bind_eq.
      match goal with
      | |- context [es_indices_create env ?h ?i] =>
          destruct (es_indices_create env h i) as [e|]
      end.
      * eexists [_; _; _]. unfold raise, after. cbn [snd trace].
        rewrite <- !app_assoc. split; [reflexivity|]. cbn [weight]. lia.
      * eexists [_; _; _; _]. unfold ret, logger_info, emit, after.
        cbn [snd trace].
        rewrite <- !app_assoc. split; [reflexivity|]. cbn [weight]. lia.
Qed.

End StartupBudget.

Ltac costs_startup_step :=
  lazymatch goal with
  | |- costs _ _ (StartEsServer.setup_elasticsearch_index _) =>
      costs_effect_with costs_setup_elasticsearch_index
  | |- _ => costs_step
  end.

Ltac costs_startup :=
  unfold StartEsServer.startup_event, StartEsServer.start_elasticsearch,
    StartEsServer.start_kibana, StartEsServer.download_elasticsearch,
    StartEsServer.download_kibana, StartEsServer.poll_once,
    StartEsServer.probe_200;
  eapply costs_weaken; [ repeat costs_startup_step | cbv; lia ].

Section StartupBudgetFacts.
Import StartEsServer.
Variable env : Env.

Lemma startup_event_requests : costs is_get 92 (startup_event env).
Proof. costs_startup. Qed.

Lemma startup_event_client_calls :
  costs is_client_call 2 (startup_event env).
Proof. costs_startup. Qed.

Lemma startup_event_sleeps : costs is_sleep 90 (startup_event env).
Proof. costs_startup. Qed.

Lemma startup_event_launches : costs is_launch 2 (startup_event env).
Proof. costs_startup. Qed.

Lemma startup_event_other_launches :
  costs (is_launch_outside service_binaries) 0 (startup_event env).
Proof. costs_startup. Qed.

Lemma startup_event_runs : costs is_run 4 (startup_event env).
Proof. costs_startup. Qed.

Lemma startup_event_signals : costs is_signal 0 (startup_event env).
Proof. costs_startup. Qed.

End StartupBudgetFacts.

(** X4.  Whatever the world does, the startup hook calls [requests.get] at
    most 92 times (31 times for Elasticsearch, 61 for Kibana) and addresses
    Elasticsearch through its client at most twice more ([indices.exists]
    and [indices.create]); it sleeps at most 90 times, runs at most four
    download commands, launches at most two processes, none of them
    anything but the Elasticsearch and Kibana binaries, and sends no signal.
    The bounds count calls of the program; how many requests the client
    library puts on the wire for one call is outside the program. *)
Theorem startup_event_budget
    (env : Env) (s : State StartEsServer.Globals) :
  exists evs,
    trace (snd (StartEsServer.startup_event env s)) = trace s ++ evs
    /\ (weight is_get evs <= 92)%nat
    /\ (weight is_client_call evs <= 2)%nat
    /\ (weight is_sleep evs <= 90)%nat
    /\ (weight is_run evs <= 4)%nat
    /\ (weight is_launch evs <= 2)%nat
    /\ weight (is_launch_outside service_binaries) evs = 0%nat
    /\ weight is_signal evs = 0%nat.
Proof.
  destruct (startup_event_requests env s) as (evs & Hev & Hget).
  exists evs. split; [exact Hev|]. split; [exact Hget|].
  pose proof (@costs_weight _ _ _ _ _ s evs
                (startup_event_client_calls env) Hev).
  pose proof (@costs_weight _ _ _ _ _ s evs (startup_event_sleeps env) Hev).
  pose proof (@costs_weight _ _ _ _ _ s evs (startup_event_runs env) Hev).
  pose proof (@costs_weight _ _ _ _ _ s evs (startup_event_launches env) Hev).
  pose proof (@costs_weight _ _ _ _ _ s evs
                (startup_event_other_launches env) Hev).
  pose proof (@costs_weight _ _ _ _ _ s evs (startup_event_signals env) Hev).
  repeat split; lia.
Qed.

(** ** The probe suite *)

(** Every exception [m] raises satisfies [P]. *)
Definition raises {G A : Type} (P : Exc -> Prop) (m : M G A) : Prop :=
  forall s e s', m s = (Raise e, s') -> P e.

(** The world never interrupts a request: whatever a request or the decoding
    of its answer raises is an [Exception]. *)
Definition never_interrupts (env : Env) : Prop :=
  (forall h url params e,
     http_get env h url params = HttpRaises e -> is_Exception e = true)
  /\ (forall h url params r e,
        http_get env h url params = HttpReply r ->
        json_body r = inl e -> is_Exception e = true).

Section Raises.
Variables (G : Type) (P : Exc -> Prop).

Lemma raises_ret (A : Type) (a : A) : raises P (@ret G A a).
Proof. intros s e s' H. discriminate H. Qed.

Lemma raises_raise (A : Type) (e : Exc) : P e -> raises P (@raise G A e).
Proof. intros He s e' s' H. injection H as <- _. exact He. Qed.

Lemma raises_lift_res (A : Type) (r : Res A) :
  (forall e, r = Raise e -> P e) -> raises P (@lift_res G A r).
Proof. intros Hr s e s' H. injection H as -> _. apply Hr. reflexivity. Qed.

Lemma raises_bind (A B : Type) (m : M G A) (k : A -> M G B) :
  raises P m ->
  (forall s a s1, m s = (Ret a, s1) -> raises P (k a)) ->
  raises P (bind m k).
Proof.
  intros Hm Hk s e s'. rewrite bind_eq.
  destruct (m s) as [[a|e1|] s1] eqn:Hms; intros H.
  - exact (Hk s a s1 Hms _ _ _ H).
  - injection H as <- _. exact (Hm _ _ _ Hms).
  - discriminate H.
Qed.

Lemma raises_if (A : Type) (c : bool) (m1 m2 : M G A) :
  raises P m1 -> raises P m2 -> raises P (if c then m1 else m2).
Proof. intros H1 H2. destruct c; assumption. Qed.

Lemma raises_still (A : Type) (m : M G A) :
  (forall s, exists a s', m s = (Ret a, s')) -> raises P m.
Proof.
  intros H s e s' Hm. destruct (H s) as (a & s1 & Ha).
  rewrite Ha in Hm. discriminate Hm.
Qed.

End Raises.

Lemma getitem_survives (v : Json) (k : string) :
  VerifyStartEsServer.getitem v k <> Terminated.
Proof.
  destruct v as [| b | z | t | l | kv]; cbn [VerifyStartEsServer.getitem];
    try discriminate.
  destruct (VerifyStartEsServer.lookup_key kv k); discriminate.
Qed.

Lemma response_json_survives (r : Response) :
  VerifyStartEsServer.response_json r <> Terminated.
Proof.
  unfold VerifyStartEsServer.response_json.
  destruct (json_body r); discriminate.
Qed.

Lemma getitem_raises_Exception (v : Json) (k : string) (e : Exc) :
  VerifyStartEsServer.getitem v k = Raise e -> is_Exception e = true.
Proof.
  destruct v as [| b | z | t | l | kv]; cbn [VerifyStartEsServer.getitem];
    try (intros H; injection H as <-; reflexivity).
  destruct (VerifyStartEsServer.lookup_key kv k); intros H;
    [discriminate H | injection H as <-; reflexivity].
Qed.

Section Probes.
Import VerifyStartEsServer.
Variable env : Env.

Ltac probe_keeps :=
  unfold test_elasticsearch_connection, test_store_data, test_get_data,
    test_invalid_auid, generate_random_string, py_Exception;
  repeat keeps_step (@same_globals_refl Globals) (@same_globals_trans Globals)
                    (@same_globals_emit Globals).

Lemma test_elasticsearch_connection_same_globals :
  keeps same_globals (test_elasticsearch_connection env).
Proof. probe_keeps. Qed.

Ltac probe_survives :=
  unfold test_elasticsearch_connection, test_store_data, test_get_data,
    test_invalid_auid, generate_random_string, py_Exception;
  repeat lazymatch goal with
    | |- survives (bind _ _) => apply survives_bind; [ | intros ]
    | |- survives (if _ then _ else _) => apply survives_if
    | |- survives (ret _) => apply survives_ret
    | |- survives (raise _) => apply survives_raise
    | |- survives (emit _) => apply survives_emit
    | |- survives get_trace => apply survives_get_trace
    | |- survives (requests_get _ _ _) => apply survives_requests_get
    | |- survives (lift_res (response_json _)) =>
        apply survives_lift_res; apply response_json_survives
    | |- survives (lift_res (getitem _ _)) =>
        apply survives_lift_res; apply getitem_survives
    end.

Lemma test_elasticsearch_connection_survives :
  survives (test_elasticsearch_connection env).
Proof. probe_survives. Qed.

Lemma test_store_data_survives : survives (test_store_data env).
Proof. probe_survives. Qed.

Lemma test_invalid_auid_survives : survives (test_invalid_auid env).
Proof. probe_survives. Qed.

Lemma test_store_data_same_globals :
  keeps same_globals (test_store_data env).
Proof. probe_keeps. Qed.

Lemma test_invalid_auid_same_globals :
  keeps same_globals (test_invalid_auid env).
Proof. probe_keeps. Qed.

Hypothesis polite : never_interrupts env.

Lemma requests_get_raises (url : string) (params : list (string * Json)) :
  raises (fun e => is_Exception e = true)
    (@requests_get env Globals url params).
Proof.
  intros s e s'. rewrite requests_get_eq.
  destruct (http_get env (trace s) url params) as [r|e1] eqn:Hg; intros H.
  - discriminate H.
  - injection H as <- _. exact (proj1 polite _ _ _ _ Hg).
Qed.

Lemma requests_get_reply (url : string) (params : list (string * Json))
    (s s1 : State Globals) (r : Response) :
  requests_get env url params s = (Ret r, s1) ->
  http_get env (trace s) url params = HttpReply r.
Proof.
  rewrite requests_get_eq.
  destruct (http_get env (trace s) url params); intros H.
  - injection H as -> _. reflexivity.
  - discriminate H.
Qed.

Lemma response_json_raises (url : string) (params : list (string * Json))
    (s s1 : State Globals) (r : Response) :
  requests_get env url params s = (Ret r, s1) ->
  raises (fun e => is_Exception e = true)
    (@lift_res Globals _ (response_json r)).
Proof.
  intros Hr. apply raises_lift_res. intros e He.
  unfold response_json in He.
  destruct (json_body r) as [e1|v] eqn:Hj; [|discriminate He].
  injection He as <-.
  exact (proj2 polite _ _ _ _ _ (requests_get_reply _ _ _ Hr) Hj).
Qed.

Ltac probe_raises :=
  repeat lazymatch goal with
    | |- raises _ (bind (requests_get _ _ _) _) =>
        apply raises_bind;
        [ apply requests_get_raises
        | let s := fresh "s" in let r := fresh "r" in
          let s1 := fresh "s" in let H := fresh "Hget" in
          intros s r s1 H;
          pose proof (response_json_raises _ _ _ H) ]
    | |- raises _ (bind _ _) => apply raises_bind; [ | intros ? ? ? _ ]
    | |- raises _ (if _ then _ else _) => apply raises_if
    | |- raises _ (ret _) => apply raises_ret
    | |- raises _ (raise _) => apply raises_raise; reflexivity
    | |- raises _ (lift_res (response_json _)) => assumption
    | |- raises _ (lift_res (getitem _ _)) =>
        apply raises_lift_res; apply getitem_raises_Exception
    | |- raises _ (emit _) =>
        apply raises_still; intros; eexists; eexists; reflexivity
    | |- raises _ get_trace =>
        apply raises_still; intros; eexists; eexists; reflexivity
    end.

Lemma test_elasticsearch_connection_raises :
  raises (fun e => is_Exception e = true) (test_elasticsearch_connection env).
Proof.
  unfold test_elasticsearch_connection, py_Exception. probe_raises.
Qed.

Lemma test_store_data_raises :
  raises (fun e => is_Exception e = true) (test_store_data env).
Proof.
  unfold test_store_data, generate_random_string, py_Exception. probe_raises.
Qed.

Lemma test_invalid_auid_raises :
  raises (fun e => is_Exception e = true) (test_invalid_auid env).
Proof.
  unfold test_invalid_auid, py_Exception. probe_raises.
Qed.

Lemma test_get_data_raises (auid : Json) :
  raises (fun e => is_Exception e = true) (test_get_data env auid).
Proof.
  unfold test_get_data, py_Exception. probe_raises.
Qed.

End Probes.

Section Suite.
Import VerifyStartEsServer.
Variable env : Env.

(** What [run_test] leaves in the globals, for a probe that does not touch
    them: one more result when it returns, nothing when the probe was
    interrupted. *)
Lemma run_test_outcome (A : Type) (test_name : string) (test_func : Py A)
    (s : State Globals) :
  keeps same_globals test_func ->
  match run_test env test_name test_func s with
  | (Ret b, s') =>
      exists r,
        globals s'
        = mkGlobals (es_server_process (globals s))
            (test_results (globals s) ++ [r]) (report_generated (globals s))
        /\ name r = test_name /\ success r = b
  | (Raise e, s') =>
      globals s' = globals s /\ is_Exception e = false
      /\ fst (test_func (call_state s)) = Raise e
  | (Terminated, s') => ~ survives test_func
  end.
Proof.
  intros Hk. rewrite run_test_eq. pose proof (Hk (call_state s)) as Hg.
  clear Hk. rename Hg into Hk.
  unfold same_globals in Hk.
  destruct (test_func (call_state s)) as [[v|e|] s1] eqn:Hrun;
    cbn [snd fst] in *; [| | intros Hs; exact (Hs _ _ Hrun)].
  - eexists. unfold recorded. cbn [globals]. rewrite Hk.
    unfold call_state, after. cbn [globals].
    split; [reflexivity | split; reflexivity].
  - destruct (is_Exception e) eqn:He.
    + eexists. unfold recorded. cbn [globals]. rewrite Hk.
      unfold call_state, after. cbn [globals].
    split; [reflexivity | split; reflexivity].
    + rewrite Hk. repeat split. exact He.
Qed.

(** The suite, probe by probe. *)
Lemma suite_outcome (s : State Globals) :
  match run_verification_tests env s with
  | (Ret b, s') =>
      exists r1 r2 r3,
        test_results (globals s') = test_results (globals s) ++ [r1; r2; r3]
        /\ name r1 = "Elasticsearch Connection"
        /\ name r2 = "Store Data"
        /\ name r3 = "Invalid AUID"
        /\ success r3 = b
  | (Raise e, s') =>
      is_Exception e = false
      /\ (exists s0,
            fst (test_elasticsearch_connection env s0) = Raise e
            \/ fst (test_store_data env s0) = Raise e
            \/ fst (test_invalid_auid env s0) = Raise e)
      /\ exists new rest,
           test_results (globals s') = test_results (globals s) ++ new
           /\ map name new ++ rest
              = ["Elasticsearch Connection"; "Store Data"; "Invalid AUID"]
           /\ rest <> []
  | (Terminated, s') => False
  end.
Proof.
  unfold run_verification_tests. rewrite bind_eq.
  pose proof (@run_test_outcome _ "Elasticsearch Connection" _ s
                (test_elasticsearch_connection_same_globals env)) as H1.
  destruct (run_test env "Elasticsearch Connection"
              (test_elasticsearch_connection env) s) as [[b1|e1|] s1].
  2:{ destruct H1 as (Hg & He & Hp).
      split; [exact He|]. split; [eauto|].
      exists [], ["Elasticsearch Connection"; "Store Data"; "Invalid AUID"].
      rewrite Hg, app_nil_r. repeat split. discriminate. }
  2:{ exact (H1 (test_elasticsearch_connection_survives env)). }
  destruct H1 as (r1 & Hg1 & Hn1 & _).
  rewrite bind_eq.
  pose proof (@run_test_outcome _ "Store Data" _ s1
                (test_store_data_same_globals env)) as H2.
  destruct (run_test env "Store Data" (test_store_data env) s1)
    as [[b2|e2|] s2].
  2:{ destruct H2 as (Hg & He & Hp).
      split; [exact He|]. split; [eauto|].
      exists [r1], ["Store Data"; "Invalid AUID"].
      rewrite Hg, Hg1. cbn [test_results map app]. rewrite Hn1.
      repeat split. discriminate. }
  2:{ exact (H2 (test_store_data_survives env)). }
  destruct H2 as (r2 & Hg2 & Hn2 & _).
  rewrite bind_eq, get_data_step_eq.
  match goal with
  | |- context [run_test env "Invalid AUID" _ ?st] =>
      set (s3 := st);
      assert (Hg3 : globals s3 = globals s2) by (subst s3; destruct b2; reflexivity)
  end.
  pose proof (@run_test_outcome _ "Invalid AUID" _ s3
                (test_invalid_auid_same_globals env)) as H3.
  destruct (run_test env "Invalid AUID" (test_invalid_auid env) s3)
    as [[b3|e3|] s4].
  - destruct H3 as (r3 & Hg4 & Hn3 & Hs3).
    exists r1, r2, r3.
    rewrite Hg4, Hg3, Hg2, Hg1. cbn [test_results].
    rewrite <- !app_assoc. auto.
  - destruct H3 as (Hg & He & Hp).
    split; [exact He|]. split; [eauto|].
    exists [r1; r2], ["Invalid AUID"].
    rewrite Hg, Hg3, Hg2, Hg1. cbn [test_results map app].
    rewrite <- !app_assoc, Hn1, Hn2.
    repeat split. discriminate.
  - exact (H3 (test_invalid_auid_survives env)).
Qed.

End Suite.

(** X5.  The probes are recorded in the order they run and nothing recorded
    before is touched.  When the suite returns it has appended exactly three
    results, named "Elasticsearch Connection", "Store Data" and "Invalid
    AUID" in this order, and it returns the success flag of the last one.
    The suite stops early only for an exception that is not an [Exception]
    (an interrupt), and then it has appended a proper prefix of the three.
    No probe ends the script. *)
Theorem suite_records_in_order
    (env : Env) (s : State VerifyStartEsServer.Globals) :
  match VerifyStartEsServer.run_verification_tests env s with
  | (Ret b, s') =>
      exists r1 r2 r3,
        VerifyStartEsServer.test_results (globals s')
        = VerifyStartEsServer.test_results (globals s) ++ [r1; r2; r3]
        /\ map VerifyStartEsServer.name [r1; r2; r3]
           = ["Elasticsearch Connection"; "Store Data"; "Invalid AUID"]
        /\ VerifyStartEsServer.success r3 = b
  | (Raise e, s') =>
      is_Exception e = false
      /\ exists new rest,
           VerifyStartEsServer.test_results (globals s')
           = VerifyStartEsServer.test_results (globals s) ++ new
           /\ map VerifyStartEsServer.name new ++ rest
              = ["Elasticsearch Connection"; "Store Data"; "Invalid AUID"]
           /\ rest <> []
  | (Terminated, s') => False
  end.
Proof.
  pose proof (suite_outcome env s) as H.
  destruct (VerifyStartEsServer.run_verification_tests env s) as [[b|e|] s'].
  - destruct H as (r1 & r2 & r3 & Hr & H1 & H2 & H3 & Hb).
    exists r1, r2, r3. cbn [map]. rewrite H1, H2, H3. auto.
  - destruct H as (He & _ & Hnew). auto.
  - exact H.
Qed.

(** X6.  In a world that never interrupts a request, the suite always
    runs to its end, whatever fails: it returns, with three more results. *)
Theorem suite_completes_unless_interrupted
    (env : Env) (s : State VerifyStartEsServer.Globals) :
  never_interrupts env ->
  exists b s' r1 r2 r3,
    VerifyStartEsServer.run_verification_tests env s = (Ret b, s')
    /\ VerifyStartEsServer.test_results (globals s')
       = VerifyStartEsServer.test_results (globals s) ++ [r1; r2; r3]
    /\ VerifyStartEsServer.success r3 = b.
Proof.
  intros Hpolite. pose proof (suite_outcome env s) as H.
  destruct (VerifyStartEsServer.run_verification_tests env s) as [[b|e|] s'].
  - destruct H as (r1 & r2 & r3 & Hr & _ & _ & _ & Hb).
    exists b, s', r1, r2, r3. auto.
  - destruct H as (He & (s0 & Hp) & _). exfalso.
    assert (Hexc : is_Exception e = true).
    { destruct Hp as [Hp | [Hp | Hp]].
      - destruct (VerifyStartEsServer.test_elasticsearch_connection env s0)
          as [r0 s1] eqn:E. cbn [fst] in Hp. subst r0.
        exact (test_elasticsearch_connection_raises Hpolite _ E).
      - destruct (VerifyStartEsServer.test_store_data env s0)
          as [r0 s1] eqn:E. cbn [fst] in Hp. subst r0.
        exact (test_store_data_raises Hpolite _ E).
      - destruct (VerifyStartEsServer.test_invalid_auid env s0)
          as [r0 s1] eqn:E. cbn [fst] in Hp. subst r0.
        exact (test_invalid_auid_raises Hpolite _ E). }
    rewrite Hexc in He. discriminate He.
  - contradiction H.
Qed.

Lemma dead_world_never_interrupts : never_interrupts dead_env.
Proof.
  split.
  - intros h url params e H. injection H as <-. reflexivity.
  - intros h url params r e H. discriminate H.
Qed.

(** With nothing listening, all three probes fail and are recorded. *)
Lemma suite_in_dead_world :
  never_interrupts dead_env
  /\ exists b s' r1 r2 r3,
       VerifyStartEsServer.run_verification_tests dead_env initial_state
       = (Ret b, s')
       /\ VerifyStartEsServer.test_results (globals s')
          = VerifyStartEsServer.test_results (globals initial_state)
            ++ [r1; r2; r3]
       /\ VerifyStartEsServer.success r3 = b.
Proof.
  split; [exact dead_world_never_interrupts|].
  exact (@suite_completes_unless_interrupted dead_env initial_state
           dead_world_never_interrupts).
Defined.

(** ** How a run ends *)

(** Nothing listens, and the child has left the group of the script and
    does not exit when told to. *)
Definition dead_stubborn_env : Env := detached (world dead_http None).

(** Only the trace changes. *)
Definition same_but_trace {G : Type} (s s' : State G) : Prop :=
  files s' = files s /\ children s' = children s /\ globals s' = globals s.

Lemma same_but_trace_refl (G : Type) (s : State G) : same_but_trace s s.
Proof. repeat split. Qed.

Lemma same_but_trace_trans (G : Type) (a b c : State G) :
  same_but_trace a b -> same_but_trace b c -> same_but_trace a c.
Proof.
  intros (F1 & C1 & G1) (F2 & C2 & G2).
  repeat split; congruence.
Qed.

Lemma same_but_trace_emit (G : Type) (ev : Event) (s : State G) :
  same_but_trace s (after ev s).
Proof. repeat split. Qed.

Section RunEnds.
Import VerifyStartEsServer.
Variable env : Env.

Lemma stop_es_server_raises :
  raises (fun e => e = no_such_process \/ exists p, e = wait_timeout_error env p)
    (stop_es_server env).
Proof.
  intros s e s'. unfold stop_es_server.
  rewrite bind_eq. cbn [get_globals].
  destruct (es_server_process (globals s)) as [p|]; [|discriminate].
  rewrite bind_eq, os_getpgid_eq.
  destruct (existsb (Nat.eqb (pid p)) (children s)).
  - rewrite bind_eq, os_killpg_eq.
    destruct (Nat.eqb _ (own_pgid env)); [discriminate|].
    rewrite bind_eq.
    unfold Popen_wait. rewrite bind_eq. cbn [get_trace].
    rewrite bind_eq, emit_eq.
    destruct (returncode p) as [rc|].
    + discriminate.
    + match goal with
      | |- context [child_exit env ?h ?c ?t] =>
          destruct (child_exit env h c t) as [rc|]
      end.
      * discriminate.
      * intros H. injection H as <- _. right. exists p. reflexivity.
  - intros H. injection H as <- _. left. reflexivity.
Qed.

Lemma start_es_server_attempt_same_but_trace :
  keeps same_but_trace (start_es_server_attempt env).
Proof.
  unfold start_es_server_attempt.
  repeat keeps_step (@same_but_trace_refl Globals)
                    (@same_but_trace_trans Globals)
                    (@same_but_trace_emit Globals).
Qed.

(** The state [start_es_server] leaves when it returns: a fresh handle on
    a child that is not reaped, and nothing else touched. *)
Lemma start_es_server_post (s s1 : State Globals) (b : bool) :
  start_es_server env s = (Ret b, s1) ->
  exists child,
    globals s1
    = mkGlobals
        (Some (mkPopen [sys_executable env; ES_SERVER_SCRIPT] child None))
        (test_results (globals s)) (report_generated (globals s))
    /\ children s1 = child :: children s
    /\ files s1 = files s.
Proof.
  unfold start_es_server. cbv zeta. intros H.
  apply bind_ret_inv in H as (child & sa & H1 & H).
  apply bind_ret_inv in H as (u & sb & H2 & H).
  apply bind_ret_inv in H as (started & sc & H3 & H).
  rewrite subprocess_Popen_eq in H1.
  destruct (spawn env (trace s) _); [discriminate H1|].
  injection H1 as -> <-.
  unfold set_es_server_process in H2. rewrite bind_eq in H2.
  cbn [get_globals set_globals trace files children globals] in H2.
  injection H2 as _ <-.
  pose proof (@keeps_result _ _ _ _ _ sc _
                (keeps_for_range (@same_but_trace_refl Globals)
                   (@same_but_trace_trans Globals) 30
                   start_es_server_attempt_same_but_trace) H3)
    as (Hf & Hc & Hg).
  cbn [files children globals] in Hf, Hc, Hg.
  exists child.
  destruct started as [v|].
  - injection H as _ <-. auto.
  - rewrite bind_eq in H. unfold logger_error in H. rewrite emit_eq in H.
    injection H as _ <-. cbn [after files children globals]. auto.
Qed.

End RunEnds.

(** X7.  No failure of a probe, of the report or of the server start leaves
    [run_verification]: the only exceptions it can raise are those of the
    final [stop_es_server], that is, [ProcessLookupError] from [os.getpgid]
    or [TimeoutExpired] from the 5-second wait. *)
Theorem run_verification_raises_only_from_stop
    (env : Env) (s : State VerifyStartEsServer.Globals) (e : Exc) :
  fst (VerifyStartEsServer.run_verification env s) = Raise e ->
  e = no_such_process \/ exists p, e = wait_timeout_error env p.
Proof.
  unfold VerifyStartEsServer.run_verification.
  destruct (VerifyStartEsServer.run_verification_try env s)
    as [[out|e0|] s1].
  - destruct out.
    + rewrite bind_eq.
      destruct (VerifyStartEsServer.stop_es_server env s1)
        as [[u|e1|] s2] eqn:Hs; cbn [fst]; intros H;
        [discriminate H | | discriminate H].
      injection H as <-. exact (@stop_es_server_raises env _ _ _ Hs).
    + rewrite bind_eq.
      destruct (VerifyStartEsServer.stop_es_server env s1)
        as [[u|e1|] s2] eqn:Hs; cbn [fst]; intros H;
        [discriminate H | | discriminate H].
      injection H as <-. exact (@stop_es_server_raises env _ _ _ Hs).
    + cbn [fst]. intros H. discriminate H.
  - rewrite bind_eq.
    destruct (is_KeyboardInterrupt e0).
    + unfold logger_info. rewrite emit_eq, bind_eq.
      match goal with
      | |- context [VerifyStartEsServer.stop_es_server env ?st] =>
          destruct (VerifyStartEsServer.stop_es_server env st)
            as [[u|e1|] s2] eqn:Hs
      end; cbn [fst]; intros H; [discriminate H | | discriminate H].
      injection H as <-. exact (@stop_es_server_raises env _ _ _ Hs).
    + unfold logger_error. rewrite emit_eq, bind_eq.
      match goal with
      | |- context [VerifyStartEsServer.stop_es_server env ?st] =>
          destruct (VerifyStartEsServer.stop_es_server env st)
            as [[u|e1|] s2] eqn:Hs
      end; cbn [fst]; intros H; [discriminate H | | discriminate H].
      injection H as <-. exact (@stop_es_server_raises env _ _ _ Hs).
  - cbn [fst]. intros H. discriminate H.
Qed.

(** Nothing listens, and the child has a group of its own and ignores
    SIGTERM: the run ends with the wait's timeout. *)
Lemma run_verification_in_dead_stubborn_world :
  fst (VerifyStartEsServer.run_verification dead_stubborn_env initial_state)
  = Raise (wait_timeout_error dead_stubborn_env launched_handle)
  /\ (wait_timeout_error dead_stubborn_env launched_handle = no_such_process
      \/ exists p,
           wait_timeout_error dead_stubborn_env launched_handle
           = wait_timeout_error dead_stubborn_env p).
Proof.
  assert (H : fst (VerifyStartEsServer.run_verification dead_stubborn_env
                     initial_state)
              = Raise (wait_timeout_error dead_stubborn_env launched_handle))
    by (vm_compute; reflexivity).
  split; [exact H|].
  exact (run_verification_raises_only_from_stop _ _ H).
Defined.

(** X8.  When the servers do not come up ([start_es_server] answers
    [False]), [run_verification] runs no probe and writes no report: it
    logs the failure and sends SIGTERM to the group of the child it
    launched.  When that is the group of the script, where the launch left
    the child, the script ends there and [False] is never returned.
    Otherwise it waits 5 seconds for the child and logs the stop when the
    child has exited.  The results, the report flag and the files are as
    before the call. *)
Theorem failed_start_runs_no_probe
    (env : Env) (s s1 : State VerifyStartEsServer.Globals) :
  VerifyStartEsServer.start_es_server env s = (Ret false, s1) ->
  let s' := snd (VerifyStartEsServer.run_verification env s) in
  VerifyStartEsServer.test_results (globals s')
  = VerifyStartEsServer.test_results (globals s)
  /\ VerifyStartEsServer.report_generated (globals s')
     = VerifyStartEsServer.report_generated (globals s)
  /\ files s' = files s
  /\ exists child rest,
       let failed :=
         trace s1 ++ [EvLog ERROR "Failed to start Elasticsearch server"] in
       let pgid := getpgid env failed child in
       trace s'
       = failed ++ EvGetpgid child :: EvKillpg pgid "SIGTERM" :: rest
       /\ if Nat.eqb pgid (own_pgid env)
          then rest = []
               /\ fst (VerifyStartEsServer.run_verification env s)
                  = Terminated
          else (rest = [EvWait child 5]
                /\ exists e,
                     fst (VerifyStartEsServer.run_verification env s)
                     = Raise e)
               \/ (rest = [EvWait child 5;
                           EvLog INFO "Elasticsearch server stopped"]
                   /\ fst (VerifyStartEsServer.run_verification env s)
                      = Ret VerifyStartEsServer.ReturnedFalse).
Proof.
  intros Hstart.
  destruct (@start_es_server_post env _ _ _ Hstart) as (child & Hg & Hc & Hf).
  set (s2 := after (EvLog ERROR "Failed to start Elasticsearch server") s1).
  assert (Htry : VerifyStartEsServer.run_verification_try env s
                 = (Ret VerifyStartEsServer.ReturnedFalse, s2)).
  { unfold VerifyStartEsServer.run_verification_try.
    rewrite bind_eq, Hstart. reflexivity. }
  assert (Hrun : VerifyStartEsServer.run_verification env s
                 = (VerifyStartEsServer.stop_es_server env ;;
                    ret VerifyStartEsServer.ReturnedFalse) s2).
  { unfold VerifyStartEsServer.run_verification. rewrite Htry. reflexivity. }
  cbv zeta. rewrite Hrun, bind_eq. clear Htry Hrun.
  set (p := VerifyStartEsServer.mkPopen
              [sys_executable env; VerifyStartEsServer.ES_SERVER_SCRIPT]
              child None).
  assert (Hp : VerifyStartEsServer.es_server_process (globals s2) = Some p).
  { subst s2. cbn [after globals]. rewrite Hg. reflexivity. }
  rewrite (stop_es_server_live env s2 Hp eq_refl).
  assert (Hin : existsb (Nat.eqb (VerifyStartEsServer.pid p)) (children s2)
                = true).
  { subst s2 p. cbn [after children VerifyStartEsServer.pid]. rewrite Hc.
    cbn [existsb]. rewrite Nat.eqb_refl. reflexivity. }
  rewrite Hin. unfold in_own_group.
  change (trace s2)
    with (trace s1 ++ [EvLog ERROR "Failed to start Elasticsearch server"]).
  change (VerifyStartEsServer.pid p) with child.
  destruct (Nat.eqb
              (getpgid env
                 (trace s1
                  ++ [EvLog ERROR "Failed to start Elasticsearch server"])
                 child)
              (own_pgid env)) eqn:Hown.
  - subst s2. unfold signalled, after.
    cbn [fst snd globals files trace VerifyStartEsServer.pid].
    rewrite Hg, Hf.
    cbn [VerifyStartEsServer.test_results
         VerifyStartEsServer.report_generated].
    repeat split.
    exists child, []. rewrite Hown. repeat split.
  - destruct (child_exit env _ child 5) as [rc|].
    + subst s2.
      unfold ret, stopped, after.
      cbn [fst snd globals files trace VerifyStartEsServer.pid
           VerifyStartEsServer.test_results
           VerifyStartEsServer.report_generated].
      rewrite Hg, Hf.
      cbn [VerifyStartEsServer.test_results
           VerifyStartEsServer.report_generated].
      repeat split.
      exists child, [EvWait child 5;
                     EvLog INFO "Elasticsearch server stopped"].
      rewrite Hown. split; [reflexivity|]. right. split; reflexivity.
    + subst s2.
      unfold stop_timed_out, after.
      cbn [fst snd globals files trace VerifyStartEsServer.pid].
      rewrite Hg, Hf.
      cbn [VerifyStartEsServer.test_results
           VerifyStartEsServer.report_generated].
      repeat split.
      exists child, [EvWait child 5].
      rewrite Hown. split; [reflexivity|]. left.
      split; [reflexivity|]. eexists. reflexivity.
Qed.

(** With nothing listening the start fails after its 30 attempts, and the
    stop that follows ends the script. *)
Lemma failed_start_in_dead_world :
  VerifyStartEsServer.start_es_server dead_env initial_state
  = (Ret false, launched_state dead_env)
  /\ VerifyStartEsServer.test_results
       (globals (snd (VerifyStartEsServer.run_verification dead_env
                        initial_state)))
     = []
  /\ files (snd (VerifyStartEsServer.run_verification dead_env initial_state))
     = []
  /\ fst (VerifyStartEsServer.run_verification dead_env initial_state)
     = Terminated.
Proof.
  assert (H : VerifyStartEsServer.start_es_server dead_env initial_state
              = (Ret false, launched_state dead_env))
    by (vm_compute; reflexivity).
  split; [exact H|].
  destruct (@failed_start_runs_no_probe _ _ _ H) as (Hr & _ & Hf & _).
  split; [exact Hr|]. split; [exact Hf|].
  vm_compute. reflexivity.
Defined.

(** ** The report endpoint and the statistics *)

Lemma read_file_eq (G : Type) (path : string) (s : State G) :
  read_file path s
  = (match lookup_file (files s) path with
     | Some c => Ret c
     | None =>
         Raise (mkExc FileNotFoundError
                  ("[Errno 2] No such file or directory: '" ++ path ++ "'"))
     end, after (EvRead path) s).
Proof.
  unfold read_file. rewrite bind_eq, emit_eq. cbn [after files].
  destruct (lookup_file (files s) path); reflexivity.
Qed.

(** X9.  The first successful answer of the report endpoint fixes the
    artifact.  After it the flag is set and the file holds the text that was
    served; from then on, in any state that still has that flag and that
    file (more results may have been recorded meanwhile), the endpoint
    serves the same text and only reads the file. *)
Theorem report_endpoint_serves_first_artifact
    (env : Env) (s : State VerifyStartEsServer.Globals) (a : string) :
  fst (VerifyStartEsServer.get_report env s) = Ret a ->
  let s1 := snd (VerifyStartEsServer.get_report env s) in
  VerifyStartEsServer.report_generated (globals s1) = true
  /\ lookup_file (files s1) VerifyStartEsServer.REPORT_FILE = Some a
  /\ forall s2,
       VerifyStartEsServer.report_generated (globals s2) = true ->
       lookup_file (files s2) VerifyStartEsServer.REPORT_FILE = Some a ->
       VerifyStartEsServer.get_report env s2
       = (Ret a, after (EvRead VerifyStartEsServer.REPORT_FILE) s2).
Proof.
  intros Hfirst. cbv zeta.
  assert (Hlater : forall s2,
             VerifyStartEsServer.report_generated (globals s2) = true ->
             lookup_file (files s2) VerifyStartEsServer.REPORT_FILE = Some a ->
             VerifyStartEsServer.get_report env s2
             = (Ret a, after (EvRead VerifyStartEsServer.REPORT_FILE) s2)).
  { intros s2 Hflag Hfile.
    rewrite get_report_eq, Hflag, read_file_eq, Hfile. reflexivity. }
  split; [|split; [|exact Hlater]].
  - rewrite get_report_eq in *.
    destruct (VerifyStartEsServer.report_generated (globals s)) eqn:Hflag.
    + rewrite read_file_eq. cbn [snd after globals]. exact Hflag.
    + rewrite read_file_eq. reflexivity.
  - rewrite get_report_eq in *.
    destruct (VerifyStartEsServer.report_generated (globals s)) eqn:Hflag.
    + rewrite read_file_eq in *. cbn [fst snd after files] in *.
      destruct (lookup_file (files s) VerifyStartEsServer.REPORT_FILE)
        as [c|]; [|discriminate Hfirst].
      injection Hfirst as ->. reflexivity.
    + rewrite read_file_eq in *. cbn [fst snd after files] in *.
      destruct (lookup_file _ VerifyStartEsServer.REPORT_FILE)
        as [c|]; [|discriminate Hfirst].
      injection Hfirst as ->. reflexivity.
Qed.

(** Asking twice in the world where everything works. *)
Lemma report_endpoint_in_working_world :
  let s0 := snd (VerifyStartEsServer.run_verification all_ok_env
                   initial_state) in
  let a := report_text "2024-01-01 00:00:30"
             (VerifyStartEsServer.test_results (globals s0)) in
  fst (VerifyStartEsServer.get_report all_ok_env s0) = Ret a
  /\ fst (VerifyStartEsServer.get_report all_ok_env
            (snd (VerifyStartEsServer.get_report all_ok_env s0))) = Ret a.
Proof.
  intros s0 a.
  assert (H : fst (VerifyStartEsServer.get_report all_ok_env s0) = Ret a)
    by (vm_compute; reflexivity).
  split; [exact H|].
  destruct (@report_endpoint_serves_first_artifact _ _ _ H)
    as (Hflag & Hfile & Hlater).
  rewrite (Hlater _ Hflag Hfile). reflexivity.
Defined.

Section Rates.
Import VerifyStartEsServer.

Lemma passed_all_iff (results : list TestResult) :
  passed_tests results = total_tests results
  <-> forallb success results = true.
Proof.
  rewrite passed_tests_count. unfold total_tests. split.
  - intros H. apply filter_length_forallb. lia.
  - intros H. rewrite (forallb_filter_id _ _ H). reflexivity.
Qed.

Lemma passed_none_iff (results : list TestResult) :
  passed_tests results = 0
  <-> forallb (fun r => negb (success r)) results = true.
Proof.
  rewrite passed_tests_count.
  induction results as [|r results IH]; cbn [filter forallb].
  - split; reflexivity.
  - destruct (success r); cbn [negb andb List.length].
    + split; [lia | discriminate].
    + exact IH.
Qed.

(** All passed: both roundings are exact. *)
Lemma percentage_of_all (p t : Z) :
  0 < t -> p = t ->
  (binary64 (binary64 (inject_Z p / inject_Z t) * inject_Z 100)
   == inject_Z 100)%Q.
Proof.
  intros Ht ->.
  assert (Hx : (inject_Z 1 <= inject_Z t / inject_Z t)%Q).
  { apply Qle_shift_div_l; [rewrite <- (Zlt_Qlt 0); exact Ht|].
    rewrite Qmult_1_l. apply Qle_refl. }
  assert (Hb : (0 <= inject_Z t / inject_Z t <= 1)%Q)
    by (apply ratio_bounds; lia).
  destruct Hb as [Hx0 Hx1].
  assert (Hq : (inject_Z 1 <= binary64 (inject_Z t / inject_Z t))%Q).
  { apply (@binary64_ge _ 1 1); [lia | lia | exact Hx |].
    apply Qle_lt_trans with 1%Q; [exact Hx1 | reflexivity]. }
  assert (Hq1 : (binary64 (inject_Z t / inject_Z t) <= inject_Z 1)%Q).
  { apply (@binary64_le _ 1 1); [lia | reflexivity | exact Hx0 | exact Hx1]. }
  assert (Hy1 : (binary64 (inject_Z t / inject_Z t) * inject_Z 100
                 <= inject_Z 100)%Q).
  { apply Qle_trans with (inject_Z 1 * inject_Z 100)%Q; [|discriminate].
    apply Qmult_le_compat_r; [exact Hq1 | discriminate]. }
  apply Qle_antisym.
  - apply (@binary64_le _ 100 7);
      [lia | vm_compute; discriminate | | exact Hy1].
    apply Qmult_le_0_compat; [|discriminate].
    apply binary64_nonneg. exact Hx0.
  - apply (@binary64_ge _ 100 7); [lia | lia | |].
    + apply Qle_trans with (inject_Z 1 * inject_Z 100)%Q; [discriminate|].
      apply Qmult_le_compat_r; [exact Hq | discriminate].
    + apply Qle_lt_trans with (inject_Z 100); [exact Hy1 | reflexivity].
Qed.

(** One failure among at most [2 ^ 53] results keeps the rate below 100. *)
Lemma percentage_of_not_all (p t : Z) :
  0 <= p < t -> t <= 2 ^ 53 ->
  (binary64 (binary64 (inject_Z p / inject_Z t) * inject_Z 100)
   < inject_Z 100)%Q.
Proof.
  intros Hp Ht.
  assert (Hpt : 0 <= p <= t) by lia. assert (Ht0 : 0 < t) by lia.
  destruct (ratio_bounds Hpt Ht0) as [Hx0 Hx1].
  set (x := (inject_Z p / inject_Z t)%Q) in *.
  assert (Hxc : (x <= (2 ^ 53 - 1) # Z.to_pos (2 ^ 53))%Q).
  { unfold x. apply Qle_shift_div_r; [rewrite <- (Zlt_Qlt 0); exact Ht0|].
    unfold Qle, Qmult. cbn [Qnum Qden inject_Z].
    change (Z.pos (Z.to_pos (2 ^ 53) * 1)) with (2 ^ 53).
    change (2 ^ 53 - 1) with 9007199254740991 in *.
    change (2 ^ 53) with 9007199254740992 in *. lia. }
  assert (Hx2 : (x < inject_Z (2 ^ 0))%Q).
  { apply Qle_lt_trans with ((2 ^ 53 - 1) # Z.to_pos (2 ^ 53));
      [exact Hxc | reflexivity]. }
  assert (Hq : (binary64 x <= (2 ^ 53 - 1) # Z.to_pos (2 ^ 53))%Q).
  { apply (@binary64_le_dyadic _ _ 53 0);
      [lia | lia | exact Hx0 | exact Hx2 | exact Hxc]. }
  assert (Hq0 : (0 <= binary64 x)%Q) by (apply binary64_nonneg; exact Hx0).
  set (y := (binary64 x * inject_Z 100)%Q).
  assert (Hy0 : (0 <= y)%Q).
  { apply Qmult_le_0_compat; [exact Hq0 | discriminate]. }
  assert (Hy1 : (y <= ((2 ^ 53 - 1) # Z.to_pos (2 ^ 53)) * inject_Z 100)%Q).
  { apply Qmult_le_compat_r; [exact Hq | discriminate]. }
  assert (He : (Qabs (binary64 y - y) <= 1 # Z.to_pos (2 ^ (54 - 7)))%Q).
  { apply binary64_error; [lia | exact Hy0 |].
    eapply Qle_lt_trans; [exact Hy1 | reflexivity]. }
  apply Qabs_Qle_condition in He. destruct He as [_ He].
  apply Qle_lt_trans
    with (((2 ^ 53 - 1) # Z.to_pos (2 ^ 53)) * inject_Z 100
          + (1 # Z.to_pos (2 ^ (54 - 7))))%Q; [|reflexivity].
  apply Qle_trans with (y + (1 # Z.to_pos (2 ^ (54 - 7))))%Q.
  - apply Qle_minus_iff in He. apply Qle_minus_iff.
    eapply Qle_trans; [exact He|]. apply Qle_lteq. right. ring.
  - apply Qplus_le_compat; [exact Hy1 | apply Qle_refl].
Qed.

Lemma percentage_of_none (t : Z) :
  binary64 (binary64 (inject_Z 0 / inject_Z t) * inject_Z 100) = 0%Q.
Proof.
  rewrite (@binary64_zero (inject_Z 0 / inject_Z t)).
  - apply binary64_zero. reflexivity.
  - unfold Qdiv, Qmult, Qinv. cbn [Qnum inject_Z]. reflexivity.
Qed.

(** One passed result among at most [2 ^ 53] keeps the rate above 0. *)
Lemma percentage_of_some (p t : Z) :
  1 <= p <= t -> t <= 2 ^ 53 ->
  (0 < binary64 (binary64 (inject_Z p / inject_Z t) * inject_Z 100))%Q.
Proof.
  intros Hp Ht.
  assert (Hpt : 0 <= p <= t) by lia. assert (Ht0 : 0 < t) by lia.
  destruct (ratio_bounds Hpt Ht0) as [Hx0 Hx1].
  set (x := (inject_Z p / inject_Z t)%Q) in *.
  assert (Hxc : (1 # Z.to_pos (2 ^ 53) <= x)%Q).
  { unfold x. apply Qle_shift_div_l; [rewrite <- (Zlt_Qlt 0); exact Ht0|].
    unfold Qle, Qmult. cbn [Qnum Qden inject_Z].
    change (Z.pos (Z.to_pos (2 ^ 53) * 1)) with (2 ^ 53).
    change (2 ^ 53) with 9007199254740992 in *. lia. }
  assert (Hq : (1 # Z.to_pos (2 ^ 53) <= binary64 x)%Q).
  { apply binary64_ge_pow2; [lia | exact Hxc |].
    apply Qle_lt_trans with 1%Q; [exact Hx1 | reflexivity]. }
  assert (Hq1 : (binary64 x <= inject_Z 1)%Q).
  { apply (@binary64_le _ 1 1); [lia | reflexivity | exact Hx0 | exact Hx1]. }
  set (y := (binary64 x * inject_Z 100)%Q).
  assert (Hy : (1 # Z.to_pos (2 ^ 47) <= y)%Q).
  { apply Qle_trans with ((1 # Z.to_pos (2 ^ 53)) * inject_Z 100)%Q;
      [discriminate|].
    apply Qmult_le_compat_r; [exact Hq | discriminate]. }
  assert (Hy1 : (y < inject_Z (2 ^ 52))%Q).
  { apply Qle_lt_trans with (inject_Z 1 * inject_Z 100)%Q; [|reflexivity].
    apply Qmult_le_compat_r; [exact Hq1 | discriminate]. }
  apply Qlt_le_trans with (1 # Z.to_pos (2 ^ 47)); [reflexivity|].
  apply binary64_ge_pow2; [lia | exact Hy | exact Hy1].
Qed.

End Rates.

(** X10.  For at most [2 ^ 53] results, not none, the success rate the
    code computes is exactly 100 when and only when every result passed,
    and exactly 0 when and only when none did: the two roundings of
    [(passed / total) * 100] do not blur the two ends.  This is the number
    before it is printed: the report shows it with one decimal, so a rate
    below 100 can still read 100.0. *)
Theorem success_rate_extremes
    (results : list VerifyStartEsServer.TestResult) (q : Q) :
  results <> [] ->
  Z.of_nat (List.length results) <= 2 ^ 53 ->
  VerifyStartEsServer.success_rate results = Ret q ->
  ((q == inject_Z 100)%Q
   <-> forallb VerifyStartEsServer.success results = true)
  /\ ((q == 0)%Q
      <-> forallb (fun r => negb (VerifyStartEsServer.success r)) results
          = true).
Proof.
  intros Hne Hlen Hq. rewrite success_rate_total in Hq. injection Hq as <-.
  assert (Hpos : 0 < VerifyStartEsServer.total_tests results).
  { unfold VerifyStartEsServer.total_tests.
    destruct results; [contradiction Hne; reflexivity | cbn [List.length]; lia]. }
  pose proof (passed_tests_bounds results) as Hb.
  fold (VerifyStartEsServer.total_tests results) in Hlen.
  unfold percentage.
  destruct (0 <? VerifyStartEsServer.total_tests results) eqn:Hlt;
    [|apply Z.ltb_ge in Hlt; lia].
  split.
  - rewrite <- passed_all_iff. split.
    + intros H100.
      destruct (Z.eq_dec (VerifyStartEsServer.passed_tests results)
                  (VerifyStartEsServer.total_tests results)) as [|Hneq];
        [assumption|].
      exfalso.
      assert (Hlt100 := @percentage_of_not_all
                          (VerifyStartEsServer.passed_tests results)
                          (VerifyStartEsServer.total_tests results)
                          ltac:(lia) Hlen).
      rewrite H100 in Hlt100. exact (Qlt_irrefl _ Hlt100).
    + intros Hall. apply percentage_of_all; assumption.
  - rewrite <- passed_none_iff. split.
    + intros H0.
      destruct (Z.eq_dec (VerifyStartEsServer.passed_tests results) 0)
        as [|Hneq]; [assumption|].
      exfalso.
      assert (Hgt0 := @percentage_of_some
                        (VerifyStartEsServer.passed_tests results)
                        (VerifyStartEsServer.total_tests results)
                        ltac:(lia) Hlen).
      rewrite H0 in Hgt0. exact (Qlt_irrefl _ Hgt0).
    + intros ->. rewrite percentage_of_none. reflexivity.
Qed.

(** One failed result among 4000: the rate is not 100, though the report,
    which prints one decimal, reads 100.0. *)
Lemma success_rate_of_one_failure_in_4000 :
  let results := repeat passed_result 3999 ++ [failed_result] in
  (results <> [] /\ Z.of_nat (List.length results) <= 2 ^ 53)
  /\ VerifyStartEsServer.success_rate results = Ret (percentage results)
  /\ ~ (percentage results == inject_Z 100)%Q
  /\ ~ (percentage results == 0)%Q
  /\ format_fixed 1 (percentage results) = "100.0"%string.
Proof.
  intros results.
  assert (Hne : results <> []) by discriminate.
  assert (Hlen : Z.of_nat (List.length results) <= 2 ^ 53)
    by (vm_compute; discriminate).
  assert (Hq : VerifyStartEsServer.success_rate results
               = Ret (percentage results)) by apply success_rate_total.
  destruct (@success_rate_extremes _ _ Hne Hlen Hq) as (H100 & H0).
  split; [split; assumption|]. split; [exact Hq|].
  split; [|split].
  - intros H. apply H100 in H. vm_compute in H. discriminate H.
  - intros H. apply H0 in H. vm_compute in H. discriminate H.
  - vm_compute. reflexivity.
Defined.

(** ** A service that is already up *)

(** The target [url] answers every request with status 200. *)
Definition always_200 (env : Env) (url : string) : Prop :=
  forall h params,
    exists r, http_get env h url params = HttpReply r /\ status_code r = 200.

Definition is_launch_or_sleep (ev : Event) : nat :=
  (is_launch ev + is_sleep ev)%nat.

Section AlreadyUp.
Import StartEsServer.
Variable env : Env.

Lemma probe_200_up (url msg : string) (s : State Globals) :
  always_200 env url ->
  probe_200 env url msg s
  = (Ret (Some tt), after (EvLog INFO msg) (after (EvGet url []) s)).
Proof.
  intros Hup. destruct (Hup (trace s) []) as (r & Hget & Hst).
  unfold probe_200. rewrite try_except_eq, bind_eq, requests_get_eq, Hget.
  apply Z.eqb_eq in Hst. rewrite Hst. reflexivity.
Qed.

Lemma download_elasticsearch_is_calm :
  costs is_launch_or_sleep 0 (download_elasticsearch env).
Proof. unfold download_elasticsearch. costs_upto. Qed.

Lemma download_kibana_is_calm :
  costs is_launch_or_sleep 0 (download_kibana env).
Proof. unfold download_kibana. costs_upto. Qed.

(** A start function whose first probe succeeds, after a prefix that
    neither launches nor sleeps. *)
Lemma start_when_up (dir url msg : string) (download : M Globals unit)
    (rest : M Globals unit) (s : State Globals) :
  always_200 env url ->
  costs is_launch_or_sleep 0 download ->
  exists evs,
    trace (snd ((present <- os_path_exists env dir ;;
                 (if negb present then download else ret tt) ;;
                 running <- probe_200 env url msg ;;
                 match running with
                 | Some _ => ret tt
                 | None => rest
                 end) s))
    = trace s ++ evs
    /\ weight is_launch_or_sleep evs = 0%nat.
Proof.
  intros Hup Hd.
  match goal with
  | |- context [snd ?c] => destruct c as [out s'] eqn:Hc
  end.
  cbn [snd].
  rewrite (@bind_eq Globals bool unit), os_path_exists_eq in Hc.
  cbv beta iota in Hc. rewrite (@bind_eq Globals unit unit) in Hc.
  remember (after (EvExists dir) s) as s1 eqn:Hs1.
  assert (Hpre : exists evs1,
             trace (snd ((if negb (path_exists env (trace s) dir)
                          then download else ret tt) s1))
             = trace s1 ++ evs1
             /\ (weight is_launch_or_sleep evs1 <= 0)%nat).
  { destruct (negb (path_exists env (trace s) dir)).
    - apply Hd.
    - exists []. cbn [ret snd]. rewrite app_nil_r. split; [reflexivity|].
      simpl. lia. }
  destruct Hpre as (evs1 & Hev1 & Hw1).
  destruct ((if negb (path_exists env (trace s) dir) then download else ret tt)
              s1) as [[u|e|] s2]; cbn [snd] in Hev1.
  - cbv beta iota in Hc.
    rewrite (@bind_eq Globals (option unit) unit), (probe_200_up _ _ Hup) in Hc.
    cbn [ret] in Hc. injection Hc as _ <-.
    exists ([EvExists dir] ++ evs1 ++ [EvGet url []; EvLog INFO msg]).
    cbn [after trace]. rewrite Hev1. subst s1. cbn [after trace].
    rewrite <- !app_assoc. split; [reflexivity|].
    rewrite !weight_app. cbn. lia.
  - cbv beta iota in Hc. injection Hc as _ <-.
    exists ([EvExists dir] ++ evs1). rewrite Hev1.
    subst s1. cbn [after trace]. rewrite <- !app_assoc.
    split; [reflexivity|]. rewrite !weight_app. cbn. lia.
  - cbv beta iota in Hc. injection Hc as _ <-.
    exists ([EvExists dir] ++ evs1). rewrite Hev1.
    subst s1. cbn [after trace]. rewrite <- !app_assoc.
    split; [reflexivity|]. rewrite !weight_app. cbn. lia.
Qed.

End AlreadyUp.

(** X11.  A service that already answers 200 is not started again: when
    Elasticsearch (or Kibana) answers its requests with 200, its start
    function launches no process and does not wait, whether or not the
    archive had to be downloaded first. *)
Theorem service_already_up_is_not_launched (env : Env) :
  (always_200 env (StartEsServer.localhost StartEsServer.ES_PORT) ->
   forall s, exists evs,
     trace (snd (StartEsServer.start_elasticsearch env s)) = trace s ++ evs
     /\ weight is_launch evs = 0%nat /\ weight is_sleep evs = 0%nat)
  /\ (always_200 env (StartEsServer.localhost StartEsServer.KIBANA_PORT) ->
      forall s, exists evs,
        trace (snd (StartEsServer.start_kibana env s)) = trace s ++ evs
        /\ weight is_launch evs = 0%nat /\ weight is_sleep evs = 0%nat).
Proof.
  assert (Hsplit : forall evs,
             weight is_launch_or_sleep evs = 0%nat ->
             weight is_launch evs = 0%nat /\ weight is_sleep evs = 0%nat).
  { induction evs as [|ev evs IH]; cbn [weight]; [auto|].
    unfold is_launch_or_sleep at 1. intros H.
    destruct IH as [IH1 IH2]; [lia|]. lia. }
  split; intros Hup s.
  - assert (H : exists evs,
               trace (snd (StartEsServer.start_elasticsearch env s))
               = trace s ++ evs
               /\ weight is_launch_or_sleep evs = 0%nat).
    { unfold StartEsServer.start_elasticsearch.
      apply start_when_up;
        [exact Hup | apply download_elasticsearch_is_calm]. }
    destruct H as (evs & Hev & Hw).
    exists evs. split; [exact Hev | apply Hsplit; exact Hw].
  - assert (H : exists evs,
               trace (snd (StartEsServer.start_kibana env s)) = trace s ++ evs
               /\ weight is_launch_or_sleep evs = 0%nat).
    { unfold StartEsServer.start_kibana.
      apply start_when_up; [exact Hup | apply download_kibana_is_calm]. }
    destruct H as (evs & Hev & Hw).
    exists evs. split; [exact Hev | apply Hsplit; exact Hw].
Qed.

Lemma working_world_is_always_up (url : string) :
  ends_with "/storedata" url = false ->
  ends_with "/getdata" url = false ->
  always_200 all_ok_env url.
Proof.
  intros H1 H2 h params. eexists. unfold all_ok_env, world, all_ok_http.
  cbn [http_get]. rewrite H1, H2. split; reflexivity.
Qed.

(** Both services are up in the world where everything works. *)
Lemma services_up_in_working_world :
  (always_200 all_ok_env (StartEsServer.localhost StartEsServer.ES_PORT)
   /\ always_200 all_ok_env
        (StartEsServer.localhost StartEsServer.KIBANA_PORT))
  /\ exists evs,
       trace (snd (StartEsServer.start_elasticsearch all_ok_env
                     server_initial_state))
       = trace server_initial_state ++ evs
       /\ weight is_launch evs = 0%nat /\ weight is_sleep evs = 0%nat.
Proof.
  assert (H1 : always_200 all_ok_env
                 (StartEsServer.localhost StartEsServer.ES_PORT))
    by (apply working_world_is_always_up; reflexivity).
  assert (H2 : always_200 all_ok_env
                 (StartEsServer.localhost StartEsServer.KIBANA_PORT))
    by (apply working_world_is_always_up; reflexivity).
  split; [split; assumption|].
  exact (proj1 (service_already_up_is_not_launched all_ok_env) H1
           server_initial_state).
Defined.

(** ** start_es_server.py: the two endpoints *)

Module StartEsServerApi.

(** Python values that travel through the endpoints: decoded JSON, with
    floats. *)
Inductive PyVal : Type :=
| VNone
| VBool (b : bool)
| VInt (z : Z)
| VFloat (q : Q)
| VStr (s : string)
| VList (l : list PyVal)
| VDict (kv : list (string * PyVal)).

(** A call of the Elasticsearch client. *)
Inductive EsRequest : Type :=
| EsIndex (index : string) (document : PyVal)     (* es_client.index *)
| EsSearch (index : string) (body : PyVal).        (* es_client.search *)

(** What the endpoints need from outside, beside [Env]: the JSON decoder and
    the answers of Elasticsearch, which may depend on everything done so
    far. *)
Record EsEnv : Type := mkEsEnv {
  json_loads : string -> Exc + PyVal;
  es_index : list Event -> list EsRequest -> string -> PyVal -> Exc + PyVal;
  es_search : list Event -> list EsRequest -> string -> PyVal -> Exc + PyVal
}.

(** The state of the server process: the module globals and the calls made
    to Elasticsearch, oldest first. *)
Record ServerState : Type := mkServerState {
  server_globals : StartEsServer.Globals;
  es_requests : list EsRequest
}.

Definition Py (A : Type) : Type := M ServerState A.

(** What FastAPI makes of an endpoint call: the returned body, or the
    [HTTPException] it raised. *)
Inductive Reply : Type :=
| Returned (body : PyVal)
| HTTPException (status : Z) (detail : string).

Fixpoint lookup_key (kv : list (string * PyVal)) (k : string)
  : option PyVal :=
  match kv with
  | [] => None
  | (k', v) :: rest => if String.eqb k' k then Some v else lookup_key rest k
  end.

(** [d[k] = v] on a dict: the value of an existing key is replaced in
    place, a new key goes last. *)
Fixpoint set_key (kv : list (string * PyVal)) (k : string) (v : PyVal)
  : list (string * PyVal) :=
  match kv with
  | [] => [(k, v)]
  | (k', v') :: rest =>
      if String.eqb k' k then (k', v) :: rest
      else (k', v') :: set_key rest k v
  end.

(** The type name CPython prints in its error texts. *)
Definition type_name (v : PyVal) : string :=
  match v with
  | VNone => "NoneType"
  | VBool _ => "bool"
  | VInt _ => "int"
  | VFloat _ => "float"
  | VStr _ => "str"
  | VList _ => "list"
  | VDict _ => "dict"
  end.

(** [v[k]] for a string key [k] (error texts of CPython 3.11). *)
Definition getitem (v : PyVal) (k : string) : Res PyVal :=
  match v with
  | VDict kv =>
      match lookup_key kv k with
      | Some x => Ret x
      | None => Raise (mkExc KeyError ("'" ++ k ++ "'"))
      end
  | VList _ =>
      Raise (mkExc TypeError "list indices must be integers or slices, not str")
  | VStr _ => Raise (mkExc TypeError "string indices must be integers, not 'str'")
  | _ => Raise (mkExc TypeError
                  ("'" ++ type_name v ++ "' object is not subscriptable"))
  end.

(** [v[k] = x] for a string key [k]: the object after the assignment. *)
Definition setitem (v : PyVal) (k : string) (x : PyVal) : Res PyVal :=
  match v with
  | VDict kv => Ret (VDict (set_key kv k x))
  | VList _ =>
      Raise (mkExc TypeError "list indices must be integers or slices, not str")
  | _ => Raise (mkExc TypeError
                  ("'" ++ type_name v
                   ++ "' object does not support item assignment"))
  end.

Fixpoint chars (s : string) : list PyVal :=
  match s with
  | EmptyString => []
  | String c rest => VStr (String c EmptyString) :: chars rest
  end.

(** What [for x in v] goes through. *)
Definition py_iter (v : PyVal) : Res (list PyVal) :=
  match v with
  | VList l => Ret l
  | VDict kv => Ret (map (fun p => VStr (fst p)) kv)
  | VStr s => Ret (chars s)
  | _ => Raise (mkExc TypeError
                  ("'" ++ type_name v ++ "' object is not iterable"))
  end.

(** The loop of [get_data]: [doc = hit["_source"]],
    [doc["document_id"] = hit["_id"]], [documents.append(doc)]. *)
Fixpoint collect (hits : list PyVal) (documents : list PyVal)
  : Res (list PyVal) :=
  match hits with
  | [] => Ret documents
  | hit :: rest =>
      match getitem hit "_source" with
      | Raise e => Raise e
      | Terminated => Terminated
      | Ret doc =>
          match getitem hit "_id" with
          | Raise e => Raise e
          | Terminated => Terminated
          | Ret id =>
              match setitem doc "document_id" id with
              | Raise e => Raise e
              | Terminated => Terminated
              | Ret doc' => collect rest (documents ++ [doc'])
              end
          end
      end
  end.

Section WithEnv.
Variables (env : Env) (es : EsEnv).

Definition record_request (r : EsRequest) : Py unit :=
  g <- get_globals ;;
  set_globals (mkServerState (server_globals g) (es_requests g ++ [r])).

(** [es_client.index(index=index, document=document)]. *)
Definition es_client_index (index : string) (document : PyVal) : Py PyVal :=
  h <- get_trace ;;
  g <- get_globals ;;
  record_request (EsIndex index document) ;;
  lift_res match es_index es h (es_requests g) index document with
           | inl e => Raise e
           | inr v => Ret v
           end.

(** [es_client.search(index=index, body=body)]. *)
Definition es_client_search (index : string) (body : PyVal) : Py PyVal :=
  h <- get_trace ;;
  g <- get_globals ;;
  record_request (EsSearch index body) ;;
  lift_res match es_search es h (es_requests g) index body with
           | inl e => Raise e
           | inr v => Ret v
           end.

(** The [except Exception as e] clause both endpoints share, with the text
    of the exception: log it and raise [HTTPException(500)]. *)
Definition fail_500 (what msg : string) : Py Reply :=
  logger_error (what ++ msg) ;;
  ret (HTTPException 500 (what ++ msg)).

(** [GET /storedata].  Inside the [try] block, [inl msg] stands for an
    exception with text [msg] that the [except Exception] clause caught:
    besides those the block raises through the monad, the [AttributeError]
    of a call on the client when [es_client] is still [None]. *)
Definition store_data (text auid : string) (additional_args : option string)
  : Py Reply :=
  outcome <-
    try_except
      ((* Parse additional_args if provided *)
       additional_args_dict <-
         match additional_args with
         | Some a =>
             if negb (String.eqb a EmptyString)
             then lift_res match json_loads es a with
                           | inl e => Raise e
                           | inr v => Ret v
                           end
             else ret (VDict [])
         | None => ret (VDict [])
         end ;;
       (* Create document *)
       now <- py_time env ;;
       let document :=
         VDict [ ("text", VStr text);
                 ("auid", VStr auid);
                 ("additional_args", additional_args_dict);
                 ("timestamp", VFloat now) ] in
       (* Store in Elasticsearch *)
       g <- get_globals ;;
       match StartEsServer.es_client (server_globals g) with
       | None => ret (inl "'NoneType' object has no attribute 'index'")
       | Some _ =>
           result <- es_client_index StartEsServer.ES_INDEX document ;;
           id <- lift_res (getitem result "_id") ;;
           ret (inr (VDict [ ("status", VStr "success");
                             ("message", VStr "Data stored successfully");
                             ("document_id", id) ]))
       end)
      is_Exception
      (fun e => ret (inl (exc_str e))) ;;
  match outcome with
  | inr body => ret (Returned body)
  | inl msg => fail_500 "Error storing data: " msg
  end.

(** [GET /getdata]. *)
Definition get_data (auid : string) : Py Reply :=
  outcome <-
    try_except
      ((* Search for documents with matching auid *)
       let query :=
         VDict [ ("query", VDict [ ("term", VDict [ ("auid", VStr auid) ]) ]);
                 ("sort",
                  VList [ VDict [ ("timestamp",
                                   VDict [ ("order", VStr "desc") ]) ] ]) ] in
       g <- get_globals ;;
       match StartEsServer.es_client (server_globals g) with
       | None => ret (inl "'NoneType' object has no attribute 'search'")
       | Some _ =>
           result <- es_client_search StartEsServer.ES_INDEX query ;;
           (* Extract and return documents *)
           outer <- lift_res (getitem result "hits") ;;
           inner <- lift_res (getitem outer "hits") ;;
           hits <- lift_res (py_iter inner) ;;
           documents <- lift_res (collect hits []) ;;
           ret (inr (VDict [ ("status", VStr "success");
                             ("count",
                              VInt (Z.of_nat (List.length documents)));
                             ("documents", VList documents) ]))
       end)
      is_Exception
      (fun e => ret (inl (exc_str e))) ;;
  match outcome with
  | inr body => ret (Returned body)
  | inl msg => fail_500 "Error retrieving data: " msg
  end.

End WithEnv.

End StartEsServerApi.

(** The query [get_data] sends for [auid]. *)
Definition auid_query (auid : string) : StartEsServerApi.PyVal :=
  StartEsServerApi.VDict
    [ ("query",
       StartEsServerApi.VDict
         [ ("term",
            StartEsServerApi.VDict
              [ ("auid", StartEsServerApi.VStr auid) ]) ]);
      ("sort",
       StartEsServerApi.VList
         [ StartEsServerApi.VDict
             [ ("timestamp",
                StartEsServerApi.VDict
                  [ ("order", StartEsServerApi.VStr "desc") ]) ] ]) ].

(** The document [store_data] builds. *)
Definition stored_document (text auid : string)
    (additional_args : StartEsServerApi.PyVal) (now : Q)
  : StartEsServerApi.PyVal :=
  StartEsServerApi.VDict
    [ ("text", StartEsServerApi.VStr text);
      ("auid", StartEsServerApi.VStr auid);
      ("additional_args", additional_args);
      ("timestamp", StartEsServerApi.VFloat now) ].

(** A hit as Elasticsearch returns it: a dict with a dict under ["_source"]
    and something under ["_id"]. *)
Definition well_formed_hit (hit : StartEsServerApi.PyVal) : Prop :=
  exists source id,
    StartEsServerApi.getitem hit "_source"
    = Ret (StartEsServerApi.VDict source)
    /\ StartEsServerApi.getitem hit "_id" = Ret id.

(** [doc] is the source of [hit] with the hit's id under ["document_id"]
    and every other key as it was. *)
Definition document_of_hit (hit doc : StartEsServerApi.PyVal) : Prop :=
  exists source id fields,
    StartEsServerApi.getitem hit "_source"
    = Ret (StartEsServerApi.VDict source)
    /\ StartEsServerApi.getitem hit "_id" = Ret id
    /\ doc = StartEsServerApi.VDict fields
    /\ StartEsServerApi.lookup_key fields "document_id" = Some id
    /\ (forall k, k <> "document_id" ->
          StartEsServerApi.lookup_key fields k
          = StartEsServerApi.lookup_key source k)
    /\ List.length fields
       = match StartEsServerApi.lookup_key source "document_id" with
         | Some _ => List.length source
         | None => S (List.length source)
         end.

Section ApiFacts.
Import StartEsServerApi.

Lemma lookup_set_key_same (kv : list (string * PyVal)) (k : string)
    (v : PyVal) :
  lookup_key (set_key kv k v) k = Some v.
Proof.
  induction kv as [|[k' v'] kv IH]; cbn [set_key lookup_key].
  - rewrite String.eqb_refl. reflexivity.
  - destruct (String.eqb k' k) eqn:Hk; cbn [lookup_key]; rewrite Hk.
    + reflexivity.
    + exact IH.
Qed.

Lemma lookup_set_key_other (kv : list (string * PyVal)) (k k0 : string)
    (v : PyVal) :
  k0 <> k -> lookup_key (set_key kv k v) k0 = lookup_key kv k0.
Proof.
  intros Hne.
  induction kv as [|[k' v'] kv IH]; cbn [set_key lookup_key].
  - destruct (String.eqb k k0) eqn:Hk; [|reflexivity].
    apply String.eqb_eq in Hk. congruence.
  - destruct (String.eqb k' k) eqn:Hk; cbn [lookup_key].
    + destruct (String.eqb k' k0) eqn:Hk0; [|reflexivity].
      apply String.eqb_eq in Hk, Hk0. congruence.
    + rewrite IH. reflexivity.
Qed.

Lemma length_set_key (kv : list (string * PyVal)) (k : string) (v : PyVal) :
  List.length (set_key kv k v)
  = match lookup_key kv k with
    | Some _ => List.length kv
    | None => S (List.length kv)
    end.
Proof.
  induction kv as [|[k' v'] kv IH]; cbn [set_key lookup_key List.length].
  - reflexivity.
  - destruct (String.eqb k' k); cbn [List.length]; [reflexivity|].
    rewrite IH. destruct (lookup_key kv k); reflexivity.
Qed.

(** The loop keeps what it has collected and adds one document per hit, in
    the order of the hits. *)
Lemma collect_well_formed (hits : list PyVal) :
  Forall well_formed_hit hits ->
  forall acc, exists docs,
    collect hits acc = Ret (acc ++ docs) /\ Forall2 document_of_hit hits docs.
Proof.
  induction 1 as [|hit hits (source & id & Hs & Hi) _ IH]; intros acc.
  - exists []. cbn [collect]. rewrite app_nil_r. split; constructor.
  - cbn [collect]. rewrite Hs, Hi. cbn [setitem].
    destruct (IH (acc ++ [VDict (set_key source "document_id" id)]))
      as (docs & Hc & Hd).
    exists (VDict (set_key source "document_id" id) :: docs).
    rewrite Hc, <- app_assoc. split; [reflexivity|].
    constructor; [|exact Hd].
    exists source, id, (set_key source "document_id" id).
    repeat split; try assumption.
    + apply lookup_set_key_same.
    + intros k Hk. apply lookup_set_key_other. exact Hk.
    + apply length_set_key.
Qed.

(** A hit that is not well formed stops the loop with an exception. *)
Lemma api_getitem_survives (v : PyVal) (k : string) :
  getitem v k <> Terminated.
Proof.
  destruct v; cbn [getitem]; try discriminate.
  destruct (lookup_key kv k); discriminate.
Qed.

Lemma collect_malformed (hits : list PyVal) (acc : list PyVal) :
  ~ Forall well_formed_hit hits ->
  exists e, collect hits acc = Raise e /\ is_Exception e = true.
Proof.
  revert acc. induction hits as [|hit hits IH]; intros acc Hbad.
  - contradiction Hbad. constructor.
  - cbn [collect].
    destruct (getitem hit "_source") as [doc|e|] eqn:Hs.
    3:{ exfalso. exact (api_getitem_survives _ _ Hs). }
    2:{ exists e. split; [reflexivity|].
        destruct hit; cbn in Hs; try (injection Hs as <-; reflexivity).
        destruct (lookup_key kv "_source"); [discriminate Hs|].
        injection Hs as <-. reflexivity. }
    destruct (getitem hit "_id") as [id|e|] eqn:Hi.
    3:{ exfalso. exact (api_getitem_survives _ _ Hi). }
    2:{ exists e. split; [reflexivity|].
        destruct hit; cbn in Hi; try (injection Hi as <-; reflexivity).
        destruct (lookup_key kv "_id"); [discriminate Hi|].
        injection Hi as <-. reflexivity. }
    destruct doc as [| b | z | q | t | l | source];
      cbn [setitem]; try (eexists; split; reflexivity).
    apply IH. intros Hrest. apply Hbad. constructor; [|exact Hrest].
    exists source, id. auto.
Qed.

End ApiFacts.

(** A server whose client is bound and that has not called Elasticsearch
    yet. *)
Definition ready_server : State StartEsServerApi.ServerState :=
  mkState [] [] []
    (StartEsServerApi.mkServerState
       (StartEsServer.mkGlobals (Some "https://localhost:9200")) []).

Definition hit_of (id auid : string) : StartEsServerApi.PyVal :=
  StartEsServerApi.VDict
    [ ("_id", StartEsServerApi.VStr id);
      ("_source",
       StartEsServerApi.VDict
         [ ("text", StartEsServerApi.VStr "some text");
           ("auid", StartEsServerApi.VStr auid) ]) ].

(** An Elasticsearch that finds two documents for every query and gives
    the id ["new-id"] to every document it stores; the JSON decoder accepts
    only ["{}"]. *)
Definition two_hits_es : StartEsServerApi.EsEnv :=
  StartEsServerApi.mkEsEnv
    (fun a =>
       if String.eqb a "{}" then inr (StartEsServerApi.VDict [])
       else inl (mkExc JSONDecodeError
                   "Expecting value: line 1 column 1 (char 0)"))
    (fun _ _ _ _ =>
       inr (StartEsServerApi.VDict
              [ ("_id", StartEsServerApi.VStr "new-id");
                ("result", StartEsServerApi.VStr "created") ]))
    (fun _ _ _ _ =>
       inr (StartEsServerApi.VDict
              [ ("hits",
                 StartEsServerApi.VDict
                   [ ("hits",
                      StartEsServerApi.VList
                        [ hit_of "id-2" "u1"; hit_of "id-1" "u1" ]) ]) ])).

(** What an endpoint does with an exception [e] raised in its [try] block
    in state [s]: one caught by [except Exception] is logged and becomes
    HTTP 500, any other goes on. *)
Definition caught (what : string) (e : Exc)
    (s : State StartEsServerApi.ServerState)
  : Res StartEsServerApi.Reply * State StartEsServerApi.ServerState :=
  if is_Exception e
  then (Ret (StartEsServerApi.HTTPException 500 (what ++ exc_str e)),
        after (EvLog ERROR (what ++ exc_str e)) s)
  else (Raise e, s).

(** [d] is what [store_data] makes of its [additional_args]. *)
Definition additional_args_of (es : StartEsServerApi.EsEnv)
    (additional_args : option string) (d : StartEsServerApi.PyVal) : Prop :=
  match additional_args with
  | Some a =>
      if String.eqb a EmptyString then d = StartEsServerApi.VDict []
      else StartEsServerApi.json_loads es a = inr d
  | None => d = StartEsServerApi.VDict []
  end.

(** The state of the server once [request] has gone to Elasticsearch. *)
Definition requested (request : StartEsServerApi.EsRequest)
    (s : State StartEsServerApi.ServerState)
  : State StartEsServerApi.ServerState :=
  mkState (trace s) (files s) (children s)
    (StartEsServerApi.mkServerState
       (StartEsServerApi.server_globals (globals s))
       (StartEsServerApi.es_requests (globals s) ++ [request])).

(** An Elasticsearch that cannot be reached: every call on the client
    raises. *)
Definition unreachable_es : StartEsServerApi.EsEnv :=
  StartEsServerApi.mkEsEnv
    (fun a =>
       if String.eqb a "{}" then inr (StartEsServerApi.VDict [])
       else inl (mkExc JSONDecodeError
                   "Expecting value: line 1 column 1 (char 0)"))
    (fun _ _ _ _ => inl (mkExc ElasticsearchError "Connection refused"))
    (fun _ _ _ _ => inl (mkExc ElasticsearchError "Connection refused")).

Section Endpoints.
Import StartEsServerApi.
Variables (env : Env) (es : EsEnv).

Lemma es_client_search_eq (index : string) (body : PyVal)
    (s : State ServerState) :
  es_client_search es index body s
  = (match es_search es (trace s) (es_requests (globals s)) index body with
     | inl e => Raise e
     | inr v => Ret v
     end,
     mkState (trace s) (files s) (children s)
       (mkServerState (server_globals (globals s))
          (es_requests (globals s) ++ [EsSearch index body]))).
Proof. reflexivity. Qed.

Lemma es_client_index_eq (index : string) (document : PyVal)
    (s : State ServerState) :
  es_client_index es index document s
  = (match es_index es (trace s) (es_requests (globals s)) index document with
     | inl e => Raise e
     | inr v => Ret v
     end,
     mkState (trace s) (files s) (children s)
       (mkServerState (server_globals (globals s))
          (es_requests (globals s) ++ [EsIndex index document]))).
Proof. reflexivity. Qed.

(** What the [try] block of [get_data] does once the client is bound and
    Elasticsearch has answered with a list of hits. *)
Lemma get_data_with_hits (auid c : string) (s : State ServerState)
    (result outer : PyVal) (hits : list PyVal) :
  StartEsServer.es_client (server_globals (globals s)) = Some c ->
  es_search es (trace s) (es_requests (globals s)) StartEsServer.ES_INDEX
    (auid_query auid) = inr result ->
  getitem result "hits" = Ret outer ->
  getitem outer "hits" = Ret (VList hits) ->
  fst (get_data es auid s)
  = match collect hits [] with
    | Ret documents =>
        Ret (Returned
               (VDict [ ("status", VStr "success");
                        ("count", VInt (Z.of_nat (List.length documents)));
                        ("documents", VList documents) ]))
    | Raise e =>
        if is_Exception e
        then Ret (HTTPException 500 ("Error retrieving data: " ++ exc_str e))
        else Raise e
    | Terminated => Terminated
    end.
Proof.
  intros Hc Hsearch Houter Hinner.
  unfold get_data. cbv zeta. fold (auid_query auid).
  rewrite bind_eq, try_except_eq, bind_eq. cbn [get_globals].
  rewrite Hc, bind_eq, es_client_search_eq, Hsearch.
  rewrite bind_eq. cbn [lift_res]. rewrite Houter.
  rewrite bind_eq. cbn [lift_res]. rewrite Hinner.
  rewrite bind_eq. cbn [lift_res py_iter].
  rewrite bind_eq. cbn [lift_res].
  destruct (collect hits []) as [documents|e|].
  - reflexivity.
  - destruct (is_Exception e); reflexivity.
  - reflexivity.
Qed.

End Endpoints.

(** X12.  [get_data] returns one document per hit, in the order
    Elasticsearch gave them, and counts them: when the client is bound and
    the search answers with well-formed hits, the reply has status
    ["success"], [count] is the number of hits, and each document is the
    source of its hit with the hit's id under ["document_id"] (replacing a
    field of that name, if the source had one) and every other field
    unchanged.  With no hits the reply has count 0 and no documents.  A hit
    that is not well formed turns the whole reply into HTTP 500. *)
Theorem get_data_returns_every_hit
    (es : StartEsServerApi.EsEnv) (auid c : string)
    (s : State StartEsServerApi.ServerState)
    (result outer : StartEsServerApi.PyVal)
    (hits : list StartEsServerApi.PyVal) :
  StartEsServer.es_client (StartEsServerApi.server_globals (globals s))
  = Some c ->
  StartEsServerApi.es_search es (trace s)
    (StartEsServerApi.es_requests (globals s)) StartEsServer.ES_INDEX
    (auid_query auid) = inr result ->
  StartEsServerApi.getitem result "hits" = Ret outer ->
  StartEsServerApi.getitem outer "hits" = Ret (StartEsServerApi.VList hits) ->
  (Forall well_formed_hit hits ->
   exists documents,
     fst (StartEsServerApi.get_data es auid s)
     = Ret (StartEsServerApi.Returned
              (StartEsServerApi.VDict
                 [ ("status", StartEsServerApi.VStr "success");
                   ("count",
                    StartEsServerApi.VInt (Z.of_nat (List.length hits)));
                   ("documents", StartEsServerApi.VList documents) ]))
     /\ Forall2 document_of_hit hits documents)
  /\ (~ Forall well_formed_hit hits ->
      exists msg,
        fst (StartEsServerApi.get_data es auid s)
        = Ret (StartEsServerApi.HTTPException 500
                 ("Error retrieving data: " ++ msg))).
Proof.
  intros Hc Hsearch Houter Hinner.
  rewrite (@get_data_with_hits es _ _ _ _ _ _ Hc Hsearch Houter Hinner).
  split.
  - intros Hwf.
    destruct (collect_well_formed Hwf []) as (docs & Hcol & Hdocs).
    cbn [app] in Hcol. rewrite Hcol.
    exists docs. rewrite (Forall2_length Hdocs). auto.
  - intros Hbad.
    destruct (collect_malformed [] Hbad) as (e & Hcol & He).
    rewrite Hcol, He. exists (exc_str e). reflexivity.
Qed.

(** Two hits found for ["u1"]. *)
Lemma get_data_with_two_hits :
  (Forall well_formed_hit [hit_of "id-2" "u1"; hit_of "id-1" "u1"])
  /\ exists documents,
       fst (StartEsServerApi.get_data two_hits_es "u1" ready_server)
       = Ret (StartEsServerApi.Returned
                (StartEsServerApi.VDict
                   [ ("status", StartEsServerApi.VStr "success");
                     ("count", StartEsServerApi.VInt 2);
                     ("documents", StartEsServerApi.VList documents) ]))
       /\ Forall2 document_of_hit
            [hit_of "id-2" "u1"; hit_of "id-1" "u1"] documents.
Proof.
  assert (Hwf : Forall well_formed_hit
                  [hit_of "id-2" "u1"; hit_of "id-1" "u1"]).
  { repeat constructor; eexists; eexists; split; reflexivity. }
  split; [exact Hwf|].
  exact (proj1 (@get_data_returns_every_hit two_hits_es "u1"
                  "https://localhost:9200" ready_server _ _ _
                  eq_refl eq_refl eq_refl eq_refl) Hwf).
Defined.

Section EndpointRuns.
Import StartEsServerApi.
Variables (env : Env) (es : EsEnv).

(** [store_data] when the arguments were read as [d]. *)
Lemma store_data_parsed (text auid : string) (additional_args : option string)
    (d : PyVal) (s : State ServerState) :
  additional_args_of es additional_args d ->
  store_data env es text auid additional_args s
  = let s1 := after EvTime s in
    let document := stored_document text auid d (time_time env (trace s)) in
    match StartEsServer.es_client (server_globals (globals s)) with
    | None =>
        fail_500 "Error storing data: "
          "'NoneType' object has no attribute 'index'" s1
    | Some _ =>
        let s2 :=
          mkState (trace s1) (files s) (children s)
            (mkServerState (server_globals (globals s))
               (es_requests (globals s)
                ++ [EsIndex StartEsServer.ES_INDEX document])) in
        match es_index es (trace s1) (es_requests (globals s))
                StartEsServer.ES_INDEX document with
        | inl e => caught "Error storing data: " e s2
        | inr result =>
            match getitem result "_id" with
            | Raise e => caught "Error storing data: " e s2
            | Terminated => (Terminated, s2)
            | Ret id =>
                (Ret (Returned
                        (VDict [ ("status", VStr "success");
                                 ("message", VStr "Data stored successfully");
                                 ("document_id", id) ])),
                 s2)
            end
        end
    end.
Proof.
  intros Hd. cbv zeta. unfold store_data.
  rewrite bind_eq, try_except_eq, bind_eq.
  assert (Hparse :
    (match additional_args with
     | Some a =>
         if negb (String.eqb a EmptyString)
         then lift_res match json_loads es a with
                       | inl e => Raise e
                       | inr v => Ret v
                       end
         else ret (VDict [])
     | None => ret (VDict [])
     end) s = (Ret d, s)).
  { unfold additional_args_of in Hd.
    destruct additional_args as [a|]; [|subst d; reflexivity].
    destruct (String.eqb a EmptyString); cbn [negb].
    - subst d. reflexivity.
    - unfold lift_res. rewrite Hd. reflexivity. }
  rewrite Hparse, bind_eq, py_time_eq, bind_eq.
  cbn [get_globals after globals].
  fold (stored_document text auid d (time_time env (trace s))).
  destruct (StartEsServer.es_client (server_globals (globals s))) as [c|].
  - rewrite bind_eq, es_client_index_eq. cbn [after trace globals files children].
    destruct (es_index es _ _ _ _) as [e|result].
    + unfold caught. destruct (is_Exception e); reflexivity.
    + rewrite bind_eq. cbn [lift_res].
      destruct (getitem result "_id") as [id|e|].
      * reflexivity.
      * unfold caught. destruct (is_Exception e); reflexivity.
      * reflexivity.
  - reflexivity.
Qed.

(** [store_data] when [json.loads] raises [e]. *)
Lemma store_data_unparsed (text auid a : string) (e : Exc)
    (s : State ServerState) :
  a <> EmptyString ->
  json_loads es a = inl e ->
  store_data env es text auid (Some a) s = caught "Error storing data: " e s.
Proof.
  intros Ha He. unfold store_data.
  rewrite bind_eq, try_except_eq, bind_eq.
  apply String.eqb_neq in Ha. rewrite Ha. cbn [negb lift_res].
  rewrite He. unfold caught. destruct (is_Exception e); reflexivity.
Qed.

(** The arguments are read or [json.loads] raises. *)
Lemma additional_args_cases (additional_args : option string) :
  (exists d, additional_args_of es additional_args d)
  \/ (exists a e, additional_args = Some a /\ a <> EmptyString
                  /\ json_loads es a = inl e).
Proof.
  destruct additional_args as [a|].
  - destruct (String.eqb a EmptyString) eqn:Ha.
    + left. exists (VDict []). unfold additional_args_of. rewrite Ha.
      reflexivity.
    + destruct (json_loads es a) as [e|d] eqn:Hj.
      * right. exists a, e. apply String.eqb_neq in Ha. auto.
      * left. exists d. unfold additional_args_of. rewrite Ha. exact Hj.
  - left. exists (VDict []). reflexivity.
Qed.

(** [get_data] when the search raises. *)
Lemma get_data_search_fails (auid c : string) (e : Exc)
    (s : State ServerState) :
  StartEsServer.es_client (server_globals (globals s)) = Some c ->
  es_search es (trace s) (es_requests (globals s)) StartEsServer.ES_INDEX
    (auid_query auid) = inl e ->
  get_data es auid s
  = caught "Error retrieving data: " e
      (requested (EsSearch StartEsServer.ES_INDEX (auid_query auid)) s).
Proof.
  intros Hc Hsearch. unfold get_data. cbv zeta. fold (auid_query auid).
  rewrite bind_eq, try_except_eq, bind_eq. cbn [get_globals].
  rewrite Hc, bind_eq, es_client_search_eq, Hsearch.
  unfold caught, requested. destruct (is_Exception e); reflexivity.
Qed.

(** [get_data] answers with a body only after the search has answered. *)
Lemma get_data_returned (auid : string) (s s' : State ServerState)
    (body : PyVal) :
  get_data es auid s = (Ret (Returned body), s') ->
  exists c result,
    StartEsServer.es_client (server_globals (globals s)) = Some c
    /\ es_search es (trace s) (es_requests (globals s))
         StartEsServer.ES_INDEX (auid_query auid) = inr result.
Proof.
  destruct (StartEsServer.es_client (server_globals (globals s)))
    as [c|] eqn:Hc.
  - destruct (es_search es (trace s) (es_requests (globals s))
                StartEsServer.ES_INDEX (auid_query auid))
      as [e|result] eqn:Hsearch.
    + rewrite (get_data_search_fails _ _ Hc Hsearch).
      unfold caught. destruct (is_Exception e); discriminate.
    + intros _. exists c, result. auto.
  - unfold get_data. cbv zeta.
    rewrite bind_eq, try_except_eq, bind_eq. cbn [get_globals].
    rewrite Hc. discriminate.
Qed.

(** Both endpoints when the client was never bound. *)
Lemma get_data_unbound (auid : string) (s : State ServerState) :
  StartEsServer.es_client (server_globals (globals s)) = None ->
  get_data es auid s
  = fail_500 "Error retrieving data: "
      "'NoneType' object has no attribute 'search'" s.
Proof.
  intros Hc. unfold get_data. cbv zeta.
  rewrite bind_eq, try_except_eq, bind_eq. cbn [get_globals].
  rewrite Hc. reflexivity.
Qed.

End EndpointRuns.

(** X13.  A failed call to Elasticsearch is never answered as a success.
    When [es_client.search] raises an [Exception], [get_data] answers HTTP
    500 with the detail ["Error retrieving data: "] followed by the text of
    the exception, and logs that line; when [es_client.index] raises one,
    [store_data] does the same with ["Error storing data: "].  When the
    client was never bound, both answer 500 with the text of the
    [AttributeError] and send nothing.  And [get_data] returns a body only
    when the client is bound and the search has returned an answer. *)
Theorem elasticsearch_failure_is_answered_500
    (env : Env) (es : StartEsServerApi.EsEnv) (text auid : string)
    (additional_args : option string) (d : StartEsServerApi.PyVal)
    (s : State StartEsServerApi.ServerState) :
  additional_args_of es additional_args d ->
  let client :=
    StartEsServer.es_client (StartEsServerApi.server_globals (globals s)) in
  let sent := StartEsServerApi.es_requests (globals s) in
  let query := auid_query auid in
  let document := stored_document text auid d (time_time env (trace s)) in
  (forall c e,
     client = Some c -> is_Exception e = true ->
     StartEsServerApi.es_search es (trace s) sent StartEsServer.ES_INDEX query
     = inl e ->
     StartEsServerApi.get_data es auid s
     = (Ret (StartEsServerApi.HTTPException 500
               ("Error retrieving data: " ++ exc_str e)),
        after (EvLog ERROR ("Error retrieving data: " ++ exc_str e))
          (requested
             (StartEsServerApi.EsSearch StartEsServer.ES_INDEX query) s)))
  /\ (forall c e,
        client = Some c -> is_Exception e = true ->
        StartEsServerApi.es_index es (trace s ++ [EvTime]) sent
          StartEsServer.ES_INDEX document = inl e ->
        StartEsServerApi.store_data env es text auid additional_args s
        = (Ret (StartEsServerApi.HTTPException 500
                  ("Error storing data: " ++ exc_str e)),
           after (EvLog ERROR ("Error storing data: " ++ exc_str e))
             (requested
                (StartEsServerApi.EsIndex StartEsServer.ES_INDEX document)
                (after EvTime s))))
  /\ (client = None ->
      StartEsServerApi.get_data es auid s
      = (Ret (StartEsServerApi.HTTPException 500
                "Error retrieving data: 'NoneType' object has no attribute 'search'"),
         after (EvLog ERROR
                  "Error retrieving data: 'NoneType' object has no attribute 'search'")
           s)
      /\ StartEsServerApi.store_data env es text auid additional_args s
         = (Ret (StartEsServerApi.HTTPException 500
                   "Error storing data: 'NoneType' object has no attribute 'index'"),
            after (EvLog ERROR
                     "Error storing data: 'NoneType' object has no attribute 'index'")
              (after EvTime s)))
  /\ (forall body s',
        StartEsServerApi.get_data es auid s
        = (Ret (StartEsServerApi.Returned body), s') ->
        exists c result,
          client = Some c
          /\ StartEsServerApi.es_search es (trace s) sent
               StartEsServer.ES_INDEX query = inr result).
Proof.
  intros Hd client sent query document. subst client sent query document.
  split; [|split; [|split]].
  - intros c e Hc He Hsearch.
    rewrite (@get_data_search_fails es auid c e s Hc Hsearch).
    unfold caught. rewrite He. reflexivity.
  - intros c e Hc He Hindex.
    rewrite (@store_data_parsed env es text auid additional_args d s Hd).
    cbv zeta. rewrite Hc. cbn [after trace] in *. rewrite Hindex.
    unfold caught. rewrite He. reflexivity.
  - intros Hc. split.
    + rewrite (@get_data_unbound es auid s Hc). reflexivity.
    + rewrite (@store_data_parsed env es text auid additional_args d s Hd).
      cbv zeta. rewrite Hc. reflexivity.
  - intros body s' H. exact (@get_data_returned es auid s s' body H).
Qed.

(** An Elasticsearch that cannot be reached, asked for the documents of
    ["u1"]. *)
Lemma get_data_from_unreachable_es :
  additional_args_of unreachable_es None (StartEsServerApi.VDict [])
  /\ StartEsServerApi.get_data unreachable_es "u1" ready_server
     = (Ret (StartEsServerApi.HTTPException 500
               "Error retrieving data: Connection refused"),
        after (EvLog ERROR "Error retrieving data: Connection refused")
          (requested
             (StartEsServerApi.EsSearch StartEsServer.ES_INDEX
                (auid_query "u1")) ready_server))
  /\ fst (StartEsServerApi.store_data all_ok_env unreachable_es "some text"
            "u1" None ready_server)
     = Ret (StartEsServerApi.HTTPException 500
              "Error storing data: Connection refused").
Proof.
  assert (Hd : additional_args_of unreachable_es None
                 (StartEsServerApi.VDict [])) by reflexivity.
  split; [exact Hd|].
  destruct (@elasticsearch_failure_is_answered_500 all_ok_env unreachable_es
              "some text" "u1" None (StartEsServerApi.VDict [])
              ready_server Hd) as (Hget & Hstore & _).
  split.
  - exact (Hget "https://localhost:9200"
             (mkExc ElasticsearchError "Connection refused")
             eq_refl eq_refl eq_refl).
  - rewrite (Hstore "https://localhost:9200"
               (mkExc ElasticsearchError "Connection refused")
               eq_refl eq_refl eq_refl).
    reflexivity.
Defined.

(** X14.  A successful [store_data] has indexed exactly the document it was
    given, once: the arguments were read (absent or empty ones as [{}],
    without a call to the decoder), the clock was read once, one request
    went to Elasticsearch, for the index [ES_INDEX] and the document made
    of [text], [auid], the arguments read and the time read, and the
    ["document_id"] in the body is the ["_id"] of Elasticsearch's answer to
    that request. *)
Theorem store_data_success_indexed_the_document
    (env : Env) (es : StartEsServerApi.EsEnv) (text auid : string)
    (additional_args : option string)
    (s s' : State StartEsServerApi.ServerState)
    (body : StartEsServerApi.PyVal) :
  StartEsServerApi.store_data env es text auid additional_args s
  = (Ret (StartEsServerApi.Returned body), s') ->
  exists d result id,
    let document := stored_document text auid d (time_time env (trace s)) in
    additional_args_of es additional_args d
    /\ StartEsServerApi.es_index es (trace s ++ [EvTime])
         (StartEsServerApi.es_requests (globals s)) StartEsServer.ES_INDEX
         document = inr result
    /\ StartEsServerApi.getitem result "_id" = Ret id
    /\ body = StartEsServerApi.VDict
                [ ("status", StartEsServerApi.VStr "success");
                  ("message", StartEsServerApi.VStr "Data stored successfully");
                  ("document_id", id) ]
    /\ StartEsServerApi.es_requests (globals s')
       = StartEsServerApi.es_requests (globals s)
         ++ [StartEsServerApi.EsIndex StartEsServer.ES_INDEX document]
    /\ trace s' = trace s ++ [EvTime].
Proof.
  intros Hrun.
  destruct (additional_args_cases es additional_args)
    as [[d Hd] | (a & e & -> & Ha & He)].
  - rewrite (@store_data_parsed env es text auid additional_args d s Hd)
      in Hrun.
    cbv zeta in Hrun. cbn [after trace] in Hrun.
    destruct (StartEsServer.es_client _); [|discriminate Hrun].
    destruct (StartEsServerApi.es_index es _ _ _ _) as [e|result] eqn:Hindex.
    { unfold caught in Hrun. destruct (is_Exception e); discriminate Hrun. }
    destruct (StartEsServerApi.getitem result "_id") as [id|e|] eqn:Hid.
    + injection Hrun as <- <-. exists d, result, id. cbv zeta.
      cbn [globals trace StartEsServerApi.es_requests]. auto 10.
    + unfold caught in Hrun. destruct (is_Exception e); discriminate Hrun.
    + discriminate Hrun.
  - rewrite (@store_data_unparsed env es text auid a e s Ha He) in Hrun.
    unfold caught in Hrun. destruct (is_Exception e); discriminate Hrun.
Qed.

(** A document stored with empty JSON arguments. *)
Lemma store_data_in_working_world :
  exists s',
    StartEsServerApi.store_data all_ok_env two_hits_es "some text" "u1"
      (Some "{}") ready_server
    = (Ret (StartEsServerApi.Returned
              (StartEsServerApi.VDict
                 [ ("status", StartEsServerApi.VStr "success");
                   ("message",
                    StartEsServerApi.VStr "Data stored successfully");
                   ("document_id", StartEsServerApi.VStr "new-id") ])), s')
    /\ exists d result id,
         additional_args_of two_hits_es (Some "{}") d
         /\ StartEsServerApi.getitem result "_id" = Ret id
         /\ StartEsServerApi.es_requests (globals s')
            = [StartEsServerApi.EsIndex StartEsServer.ES_INDEX
                 (stored_document "some text" "u1" d
                    (time_time all_ok_env []))].
Proof.
  eexists. split; [reflexivity|].
  destruct (@store_data_success_indexed_the_document all_ok_env two_hits_es
              "some text" "u1" (Some "{}") ready_server _ _ eq_refl)
    as (d & result & id & Hd & _ & Hid & _ & Hreq & _).
  exists d, result, id. split; [exact Hd|]. split; [exact Hid|exact Hreq].
Defined.

(** X15.  Arguments that are not JSON stop [store_data] before anything
    else happens: when [json.loads] raises an [Exception] on a non-empty
    [additional_args], the reply is HTTP 500 whose detail is
    ["Error storing data: "] followed by the decoder's message, that line
    is logged, and neither the clock is read nor a request sent to
    Elasticsearch, whether or not the client is bound. *)
Theorem store_data_rejects_undecodable_arguments
    (env : Env) (es : StartEsServerApi.EsEnv) (text auid a : string)
    (e : Exc) (s : State StartEsServerApi.ServerState) :
  a <> EmptyString ->
  StartEsServerApi.json_loads es a = inl e ->
  is_Exception e = true ->
  StartEsServerApi.store_data env es text auid (Some a) s
  = (Ret (StartEsServerApi.HTTPException 500
            ("Error storing data: " ++ exc_str e)),
     mkState (trace s ++ [EvLog ERROR ("Error storing data: " ++ exc_str e)])
       (files s) (children s) (globals s)).
Proof.
  intros Ha He Hexc.
  rewrite (@store_data_unparsed env es text auid a e s Ha He).
  unfold caught. rewrite Hexc. reflexivity.
Qed.

(** Arguments that are not JSON, sent to a working server. *)
Lemma store_data_with_undecodable_arguments :
  StartEsServerApi.store_data all_ok_env two_hits_es "some text" "u1"
    (Some "not json") ready_server
  = (Ret (StartEsServerApi.HTTPException 500
            "Error storing data: Expecting value: line 1 column 1 (char 0)"),
     mkState
       [EvLog ERROR
          "Error storing data: Expecting value: line 1 column 1 (char 0)"]
       [] [] (globals ready_server)).
Proof.
  apply (@store_data_rejects_undecodable_arguments all_ok_env two_hits_es
           "some text" "u1" "not json"
           (mkExc JSONDecodeError "Expecting value: line 1 column 1 (char 0)")
           ready_server).
  - discriminate.
  - reflexivity.
  - reflexivity.
Defined.
